(** * FatFs adapter for the Sega Dreamcast (KallistiOS VFS glue)

    A shallow embedding of [src/fatfs/src/dc.c] and [src/fatfs/src/dc_bdev.c]:
    the error translator, the MBR partition scanner, the block device router,
    the mount registry, the file handle pool with its fast-seek link map and
    the VFS entry points, followed by the properties proved about them.

    Conventions.  C integers are [Z]; where the source truncates to a 32-bit
    type the wrap-around is written out ([u32], [s32]).  Pointers are modelled
    by what they can point at (an [option], or a small variant), never by a
    number, except for caller buffers whose address bits the source inspects.
    The FAT engine (ff.c), the block device drivers, the name manager and the C
    allocator are outside this layer: they are an interface ([Host]) over an
    abstract state, and every call made to them is recorded in a trace. *)

From stdpp Require Import base option list strings pretty gmap.
From Stdlib Require Import ZArith Lia Bool.

Local Open Scope Z_scope.

(** ** Constants of headers that are not part of this layer *)

(** Engine result codes (FRESULT of ff.h).  The numbering is the one written
    next to every case label of [fatfs_set_errno] in dc.c. *)
Definition FRESULT := Z.
Definition FR_OK : FRESULT := 0.
Definition FR_DISK_ERR : FRESULT := 1.
Definition FR_INT_ERR : FRESULT := 2.
Definition FR_NOT_READY : FRESULT := 3.
Definition FR_NO_FILE : FRESULT := 4.
Definition FR_NO_PATH : FRESULT := 5.
Definition FR_INVALID_NAME : FRESULT := 6.
Definition FR_DENIED : FRESULT := 7.
Definition FR_EXIST : FRESULT := 8.
Definition FR_INVALID_OBJECT : FRESULT := 9.
Definition FR_WRITE_PROTECTED : FRESULT := 10.
Definition FR_INVALID_DRIVE : FRESULT := 11.
Definition FR_NOT_ENABLED : FRESULT := 12.
Definition FR_NO_FILESYSTEM : FRESULT := 13.
Definition FR_MKFS_ABORTED : FRESULT := 14.
Definition FR_TIMEOUT : FRESULT := 15.
Definition FR_LOCKED : FRESULT := 16.
Definition FR_NOT_ENOUGH_CORE : FRESULT := 17.
Definition FR_TOO_MANY_OPEN_FILES : FRESULT := 18.
Definition FR_INVALID_PARAMETER : FRESULT := 19.

(** The enumerated result codes, in the order of the enumeration. *)
Definition fresult_codes : list FRESULT :=
  [FR_OK; FR_DISK_ERR; FR_INT_ERR; FR_NOT_READY; FR_NO_FILE; FR_NO_PATH;
   FR_INVALID_NAME; FR_DENIED; FR_EXIST; FR_INVALID_OBJECT; FR_WRITE_PROTECTED;
   FR_INVALID_DRIVE; FR_NOT_ENABLED; FR_NO_FILESYSTEM; FR_MKFS_ABORTED;
   FR_TIMEOUT; FR_LOCKED; FR_NOT_ENOUGH_CORE; FR_TOO_MANY_OPEN_FILES;
   FR_INVALID_PARAMETER].

(** Every other constant the two files use comes from a header outside the
    sources (errno.h, fcntl.h, kos/fs.h, ff.h, ffconf.h, diskio.h, fatfs.h) or
    from the build flags; they are parameters of the development. *)
Class HostConsts := {
  (* errno.h *)
  EIO : Z; EFAULT : Z; ENODEV : Z; ENOENT : Z; EINVAL : Z; ENOSPC : Z;
  EACCES : Z; EBADF : Z; EROFS : Z; ENXIO : Z; EIDRM : Z; ETIME : Z;
  EAGAIN : Z; ENOMEM : Z; EMFILE : Z; ENFILE : Z; EOVERFLOW : Z;
  (* fcntl.h, kos/fs.h, stdio.h *)
  O_MODE_MASK : Z; O_RDONLY : Z; O_WRONLY : Z; O_RDWR : Z;
  O_APPEND : Z; O_TRUNC : Z; O_DIR : Z;
  STAT_TYPE_FILE : Z; STAT_TYPE_DIR : Z;
  SEEK_SET : Z; SEEK_CUR : Z; SEEK_END : Z;
  F_GETFL : Z; F_SETFL : Z; F_GETFD : Z; F_SETFD : Z;
  S_IRUSR : Z; S_IRGRP : Z; S_IROTH : Z; S_IXUSR : Z; S_IXGRP : Z; S_IXOTH : Z;
  S_IFDIR : Z; S_IFREG : Z;
  NAME_MAX : Z;
  (* ff.h *)
  FA_READ : Z; FA_WRITE : Z; FA_OPEN_EXISTING : Z; FA_CREATE_NEW : Z;
  FA_CREATE_ALWAYS : Z; CREATE_LINKMAP : Z; AM_DIR : Z;
  (* diskio.h *)
  STA_NOINIT : Z; RES_OK : Z; RES_ERROR : Z; RES_PARERR : Z;
  CTRL_SYNC : Z; GET_SECTOR_COUNT : Z; GET_SECTOR_SIZE : Z;
  GET_BLOCK_SIZE : Z; CTRL_TRIM : Z;
  (* fatfs.h *)
  FATFS_IOCTL_GET_BOOT_SECTOR_DATA : Z; FATFS_IOCTL_GET_FD_LBA : Z;
  FATFS_IOCTL_GET_FD_LINK_MAP : Z;
  (* sizes of the structures of those headers *)
  sizeof_vfs_handler_t : Z; sizeof_FATFS : Z; sizeof_kos_blockdev_t : Z;
  (* ffconf.h and the build flags *)
  _VOLUMES : nat;
  FATFS_USE_DMA_BUF : bool
}.

(** ** dc.c: sizes of the pools *)

Definition MAX_FAT_MOUNTS `{HostConsts} : nat := _VOLUMES.
Definition MAX_FAT_FILES : Z := 16.
Definition FATFS_LINK_TBL_SIZE : Z := 32.

(** ** 32-bit arithmetic of the target (DWORD, UINT, size_t; int, off_t, ssize_t) *)

Definition u32 (x : Z) : Z := x mod 2 ^ 32.
Definition s32 (x : Z) : Z := (x + 2 ^ 31) mod 2 ^ 32 - 2 ^ 31.

(** ** dc.c: the error translator *)

Section ErrorTranslator.
Context `{HostConsts}.

(** [fatfs_set_errno rc] as a transformer of [errno]: the argument [errno]
    is the value before the call, the result the value after it.  The case
    labels of the switch are pairwise different constants, so the chain of
    tests below selects the same branch. *)
Definition fatfs_set_errno (rc : FRESULT) (errno : Z) : Z :=
  if rc =? FR_OK then 0
  else if rc =? FR_DISK_ERR then errno  (* errno = EIO; already set in driver *)
  else if rc =? FR_INT_ERR then EFAULT
  else if rc =? FR_NOT_READY then ENODEV
  else if (rc =? FR_NO_FILE) || (rc =? FR_NO_PATH) then ENOENT
  else if rc =? FR_INVALID_NAME then EINVAL
  else if rc =? FR_DENIED then ENOSPC
  else if rc =? FR_EXIST then EACCES
  else if rc =? FR_INVALID_OBJECT then EBADF
  else if rc =? FR_WRITE_PROTECTED then EROFS
  else if rc =? FR_INVALID_DRIVE then ENXIO
  else if rc =? FR_NOT_ENABLED then EIDRM
  else if rc =? FR_NO_FILESYSTEM then EIO
  else if rc =? FR_MKFS_ABORTED then EINVAL
  else if rc =? FR_TIMEOUT then ETIME
  else if rc =? FR_LOCKED then EAGAIN
  else if rc =? FR_NOT_ENOUGH_CORE then ENOMEM
  else if rc =? FR_TOO_MANY_OPEN_FILES then EMFILE
  else if rc =? FR_INVALID_PARAMETER then EINVAL
  else 0.

(** The table the switch implements, for the codes that assign [errno]. *)
Definition errno_table : list (FRESULT * Z) :=
  [(FR_OK, 0); (FR_INT_ERR, EFAULT); (FR_NOT_READY, ENODEV);
   (FR_NO_FILE, ENOENT); (FR_NO_PATH, ENOENT); (FR_INVALID_NAME, EINVAL);
   (FR_DENIED, ENOSPC); (FR_EXIST, EACCES); (FR_INVALID_OBJECT, EBADF);
   (FR_WRITE_PROTECTED, EROFS); (FR_INVALID_DRIVE, ENXIO);
   (FR_NOT_ENABLED, EIDRM); (FR_NO_FILESYSTEM, EIO);
   (FR_MKFS_ABORTED, EINVAL); (FR_TIMEOUT, ETIME); (FR_LOCKED, EAGAIN);
   (FR_NOT_ENOUGH_CORE, ENOMEM); (FR_TOO_MANY_OPEN_FILES, EMFILE);
   (FR_INVALID_PARAMETER, EINVAL)].
End ErrorTranslator.

(** ** dc_bdev.c: the partition scanner *)

Module Bdev.

Definition MAX_PARTITIONS : Z := 4.

(** [is_fat_partition]: the argument is a [uint8_t]. *)
Definition is_fat_partition (partition_type : Z) : Z :=
  match partition_type with
  | 0x04 (* 32MB *)
  | 0x06 (* Over 32 to 2GB *) => 16
  | 0x0B
  | 0x0C => 32
  | _ => 0
  end.

(** [buf[i]] on a byte buffer; [None] is a read outside the buffer. *)
Definition buf_at (buf : list Z) (i : Z) : option Z :=
  if i <? 0 then None else buf !! Z.to_nat i.

(** [check_partition buf partition].  The [||] of the signature test reads
    [buf[0x1FF]] only when [buf[0x1FE]] is 0x55. *)
Definition check_partition (buf : list Z) (partition : Z) : option Z :=
  b0 ← buf_at buf 0x01FE;
  no_mbr ← (if negb (b0 =? 0x55) then Some true
            else b1 ← buf_at buf 0x1FF; Some (negb (b1 =? 0xAA)));
  if (no_mbr : bool) then Some (-1)
  else
    let pval := 16 * partition + 0x01BE in
    ptype ← buf_at buf (pval + 4);
    if ptype =? 0 then Some (-1) else Some 0.

(** The two conditions of the scan, read off the buffer. *)
Definition has_mbr_signature (buf : list Z) : Prop :=
  buf_at buf 510 = Some 0x55 /\ buf_at buf 511 = Some 0xAA.

Definition slot_type (buf : list Z) (partition : Z) : option Z :=
  buf_at buf (446 + 16 * partition + 4).

(** A sector without the signature, and one with the signature and four
    empty slots. *)
Definition blank_sector : list Z := replicate 512 0.
Definition empty_mbr : list Z := replicate 510 0 ++ [0x55; 0xAA].

End Bdev.

(** ** Calls that leave this layer

    One constructor per function of the engine, of a block device, of the
    name manager or of the C library that dc.c calls, with the arguments that
    identify the call.  Descriptors are pool indices, devices and heap blocks
    are addresses. *)

Inductive cltbl_ptr :=
| CL_NULL                (* NULL: no link map *)
| CL_INLINE              (* sf->lktbl, the array inside the handle *)
| CL_HEAP (a : N).       (* a block obtained from calloc *)

Inductive event :=
| Ev_f_chdrive (path : string)
| Ev_f_mount (fs : option N) (path : string) (opt : Z)
| Ev_f_getfree (path : string)
| Ev_f_open (fd : nat) (fn : string) (mode : Z)
| Ev_f_close (fd : nat)
| Ev_f_sync (fd : nat)
| Ev_f_lseek (fd : nat) (ofs : Z) (cl : cltbl_ptr) (tbl : option (list Z))
| Ev_f_read (fd : nat) (buff : Z) (btr : Z)
| Ev_f_write (fd : nat) (buff : Z) (btw : Z)
| Ev_f_opendir (fd : nat) (fn : string)
| Ev_f_closedir (fd : nat)
| Ev_f_readdir (fd : nat)
| Ev_f_rewinddir (fd : nat)
| Ev_init (dev : N)
| Ev_shutdown (dev : N)
| Ev_read_blocks (dev : N) (sector count dest : Z)
| Ev_write_blocks (dev : N) (sector count src : Z)
| Ev_count_blocks (dev : N)
| Ev_flush (dev : N)
| Ev_nmmgr_handler_add (path : string)
| Ev_nmmgr_handler_remove (path : string)
| Ev_malloc (size : Z)
| Ev_calloc (nmemb size : Z)
| Ev_memalign (align size : Z)
| Ev_free (a : N)
| Ev_store (dst : Z) (width : Z) (vals : list Z)
| Ev_memcpy (dst src n : Z)
| Ev_memset (dst c n : Z)
| Ev_sd_init
| Ev_scif_init
| Ev_sd_read_blocks (block count : Z)
| Ev_sd_blockdev_for_partition (part : Z) (dev : N)
| Ev_sd_get_size
| Ev_set_dev_data (dev : N) (ddata : N)
| Ev_g1_ata_init
| Ev_g1_ata_lba_mode
| Ev_g1_ata_read_lba (sector count : Z)
| Ev_g1_ata_read_chs (c h s count : Z)
| Ev_g1_ata_blockdev_for_partition (part dma : Z) (dev : N)
| Ev_g1_ata_blockdev_for_device (dma : Z) (dev : N).

Global Instance cltbl_ptr_eq_dec : EqDecision cltbl_ptr.
Proof. solve_decision. Defined.

Global Instance event_eq_dec : EqDecision event.
Proof. solve_decision. Defined.

(** ** Data model *)

(** The types of the collaborators that this layer stores but never looks
    into: the state behind the interfaces, the fields of a FIL that dc.c never
    names, and the DIR object, each with the value [memset] gives it. *)
Class EngineTypes := {
  sys : Type;
  FILX : Type;
  FILX0 : FILX;
  DIR : Type;
  DIR0 : DIR
}.

(** vfs_handler_t: the copy of the template [vh] made at mount time; dc.c
    writes its name and its private data. *)
Record vfs_handler_t := mk_vfs_handler {
  vh_addr : N;
  pathname : string;
  privdata : option nat
}.

(** dirent_t, FILINFO, struct stat and PARTITION, with the fields dc.c uses. *)
Record dirent_t := mk_dirent {
  dent_name : string;
  dent_time : Z;
  dent_attr : Z;
  dent_size : Z
}.

Record FILINFO := mk_FILINFO {
  fi_fsize : Z;
  fi_fdate : Z;
  fi_ftime : Z;
  fi_fattrib : Z;
  fi_fname : string;
  fi_lfname : string
}.

Record stat := mk_stat {
  st_dev : Z;
  st_mode : Z;
  st_nlink : Z;
  st_size : Z;
  st_blksize : Z;
  st_blocks : Z
}.

Record PARTITION := mk_PARTITION {
  pd : Z;
  pt : Z
}.

(** fatfs_mnt_t.  [fs] and the devices are addresses of objects owned by the
    engine and the drivers; [dmabuf] is present under FATFS_USE_DMA_BUF only
    and stays NULL otherwise. *)
Record fatfs_mnt_t := mk_mnt {
  mnt_fs : option N;
  mnt_vfsh : option vfs_handler_t;
  mnt_dev : option N;
  mnt_dev_dma : option N;
  mnt_dev_stat : Z;
  mnt_dev_id : Z;
  mnt_dev_path : string;
  mnt_dmabuf : option N
}.

Definition mnt_zero : fatfs_mnt_t :=
  mk_mnt None None None None 0 0 "" None.

Definition dent_zero : dirent_t := mk_dirent "" 0 0 0.
Definition stat_zero : stat := mk_stat 0 0 0 0 0 0.

Section Adapter.
Context {HC : HostConsts} {ET : EngineTypes}.

(** FIL: the fields dc.c reads or writes, and the rest of the object. *)
Record FIL := mk_FIL {
  fil_fs : option N;
  fil_fptr : Z;
  fil_fsize : Z;
  fil_sclust : Z;
  fil_cltbl : cltbl_ptr;
  fil_x : FILX
}.

Definition FIL_zero : FIL := mk_FIL None 0 0 0 CL_NULL FILX0.

(** fatfs_t, one slot of the handle pool.  [sf_mnt] is the index of the
    mount record the handle points to. *)
Record fatfs_t := mk_fatfs {
  sf_fil : FIL;
  sf_dir : DIR;
  sf_type : Z;
  sf_used : Z;
  sf_mode : Z;
  sf_lktbl : list Z;
  sf_dent : dirent_t;
  sf_mnt : option nat
}.

Definition fatfs_zero : fatfs_t :=
  mk_fatfs FIL_zero DIR0 0 0 0 (replicate 32 0) dent_zero None.

(** What the collaborators own: [errno] (dc.c and the drivers both assign
    it) and their own state. *)
Record hst := mk_hst {
  h_errno : Z;
  h_sys : sys
}.

(** The interface of the collaborators.  Every function takes the state
    behind the interface and returns its results with the new state.  An
    object passed by address is passed by value and returned; the link map a
    FIL points to travels with it ([None] when [cltbl] is NULL). *)
Class Host := {
  (* ff.c *)
  f_chdrive : string -> hst -> FRESULT * hst;
  f_mount : option N -> string -> Z -> hst -> FRESULT * hst;
  f_getfree : string -> hst -> (FRESULT * Z * option N) * hst;
  f_open : FIL -> string -> Z -> hst -> (FRESULT * FIL) * hst;
  f_close : FIL -> hst -> (FRESULT * FIL) * hst;
  f_sync : FIL -> hst -> (FRESULT * FIL) * hst;
  f_lseek : FIL -> option (list Z) -> Z -> hst -> (FRESULT * FIL * list Z) * hst;
  f_read : FIL -> option (list Z) -> Z -> Z -> hst -> (FRESULT * FIL * Z) * hst;
  f_write : FIL -> option (list Z) -> Z -> Z -> hst -> (FRESULT * FIL * Z) * hst;
  f_opendir : DIR -> string -> hst -> (FRESULT * DIR) * hst;
  f_closedir : DIR -> hst -> (FRESULT * DIR) * hst;
  f_readdir : DIR -> Z -> hst -> (FRESULT * DIR * FILINFO) * hst;
  f_rewinddir : DIR -> hst -> (FRESULT * DIR) * hst;
  clust2sect : option N -> Z -> hst -> Z;
  FATFS_csize : N -> hst -> Z;
  FATFS_drv : N -> hst -> Z;
  (* kos_blockdev_t *)
  l_block_size : N -> hst -> Z;
  dev_data : N -> hst -> option N;
  bd_init : N -> hst -> Z * hst;
  bd_shutdown : N -> hst -> Z * hst;
  bd_read_blocks : N -> Z -> Z -> Z -> hst -> Z * hst;
  bd_write_blocks : N -> Z -> Z -> Z -> hst -> Z * hst;
  bd_count_blocks : N -> hst -> Z * hst;
  bd_flush : N -> hst -> Z * hst;
  (* nmmgr *)
  nmmgr_handler_add : vfs_handler_t -> hst -> Z * hst;
  nmmgr_handler_remove : vfs_handler_t -> hst -> Z * hst;
  (* libc *)
  malloc : Z -> hst -> option N * hst;
  calloc : Z -> Z -> hst -> option N * hst;
  memalign : Z -> Z -> hst -> option N * hst;
  free : N -> hst -> unit * hst;
  store : Z -> Z -> list Z -> hst -> unit * hst;
  memcpy : Z -> Z -> Z -> hst -> unit * hst;
  memset : Z -> Z -> Z -> hst -> unit * hst;
  (* dc/sd.h, dc/scif.h *)
  sd_init : hst -> Z * hst;
  scif_init : hst -> Z * hst;
  sd_read_blocks : Z -> Z -> hst -> (Z * list Z) * hst;
  sd_blockdev_for_partition : Z -> N -> hst -> (Z * Z) * hst;
  sd_get_size : hst -> Z * hst;
  set_dev_data : N -> N -> Z -> Z -> hst -> unit * hst;
  (* dc/g1ata.h *)
  g1_ata_init : hst -> Z * hst;
  g1_ata_lba_mode : hst -> Z * hst;
  g1_ata_read_lba : Z -> Z -> hst -> (Z * list Z) * hst;
  g1_ata_read_chs : Z -> Z -> Z -> Z -> hst -> (Z * list Z) * hst;
  g1_ata_blockdev_for_partition : Z -> Z -> N -> hst -> (Z * Z) * hst;
  g1_ata_blockdev_for_device : Z -> N -> hst -> Z * hst
}.

Context {HO : Host}.

(** The state of the two files: the statics of dc.c ([initted], [fh],
    [fat_mnt], [VolToPart]), the statics of dc_bdev.c ([sd_dev], [g1_dev],
    [g1_dev_dma]), the link maps that live in calloc'ed blocks, the
    collaborators, and the calls made. *)
Record world := mk_world {
  initted : Z;
  fh : list fatfs_t;
  fat_mnt : list fatfs_mnt_t;
  VolToPart : list PARTITION;
  sd_dev : option N;
  g1_dev : option N;
  g1_dev_dma : option N;
  cl_heap : gmap N (list Z);
  host : hst;
  trace : list event
}.

Definition errno (w : world) : Z := h_errno (host w).

(** ** The monad of the embedding

    A C function is a state transformer that can also go wrong: [None] stands
    for undefined behaviour (a NULL or dangling pointer dereferenced, an index
    outside an array).  The global mutex is not modelled: one call runs at a
    time. *)
Definition M (A : Type) : Type := world -> option (A * world).

Definition retM {A} (a : A) : M A := fun w => Some (a, w).

Definition bindM {A B} (m : M A) (k : A -> M B) : M B :=
  fun w => match m w with
           | Some (a, w') => k a w'
           | None => None
           end.

Definition undefined {A} : M A := fun _ => None.

Definition gets {A} (f : world -> A) : M A := fun w => Some (f w, w).

Definition modify (f : world -> world) : M unit := fun w => Some (tt, f w).

Definition deref {A} (p : option A) : M A :=
  match p with
  | Some a => retM a
  | None => undefined
  end.

Global Instance M_ret : MRet M := @retM.
Global Instance M_bind : MBind M := fun A B k m => bindM m k.

(** Field updates of the records. *)
Definition set_initted (v : Z) (w : world) : world :=
  mk_world v (fh w) (fat_mnt w) (VolToPart w) (sd_dev w) (g1_dev w) (g1_dev_dma w) (cl_heap w) (host w) (trace w).
Definition set_fh (v : list fatfs_t) (w : world) : world :=
  mk_world (initted w) v (fat_mnt w) (VolToPart w) (sd_dev w) (g1_dev w) (g1_dev_dma w) (cl_heap w) (host w) (trace w).
Definition set_fat_mnt (v : list fatfs_mnt_t) (w : world) : world :=
  mk_world (initted w) (fh w) v (VolToPart w) (sd_dev w) (g1_dev w) (g1_dev_dma w) (cl_heap w) (host w) (trace w).
Definition set_VolToPart (v : list PARTITION) (w : world) : world :=
  mk_world (initted w) (fh w) (fat_mnt w) v (sd_dev w) (g1_dev w) (g1_dev_dma w) (cl_heap w) (host w) (trace w).
Definition set_sd_dev (v : option N) (w : world) : world :=
  mk_world (initted w) (fh w) (fat_mnt w) (VolToPart w) v (g1_dev w) (g1_dev_dma w) (cl_heap w) (host w) (trace w).
Definition set_g1_dev (v : option N) (w : world) : world :=
  mk_world (initted w) (fh w) (fat_mnt w) (VolToPart w) (sd_dev w) v (g1_dev_dma w) (cl_heap w) (host w) (trace w).
Definition set_g1_dev_dma (v : option N) (w : world) : world :=
  mk_world (initted w) (fh w) (fat_mnt w) (VolToPart w) (sd_dev w) (g1_dev w) v (cl_heap w) (host w) (trace w).
Definition set_cl_heap (v : gmap N (list Z)) (w : world) : world :=
  mk_world (initted w) (fh w) (fat_mnt w) (VolToPart w) (sd_dev w) (g1_dev w) (g1_dev_dma w) v (host w) (trace w).
Definition set_host (v : hst) (w : world) : world :=
  mk_world (initted w) (fh w) (fat_mnt w) (VolToPart w) (sd_dev w) (g1_dev w) (g1_dev_dma w) (cl_heap w) v (trace w).
Definition set_trace (v : list event) (w : world) : world :=
  mk_world (initted w) (fh w) (fat_mnt w) (VolToPart w) (sd_dev w) (g1_dev w) (g1_dev_dma w) (cl_heap w) (host w) v.

Definition set_fil (v : FIL) (sf : fatfs_t) : fatfs_t :=
  mk_fatfs v (sf_dir sf) (sf_type sf) (sf_used sf) (sf_mode sf) (sf_lktbl sf) (sf_dent sf) (sf_mnt sf).
Definition set_dir (v : DIR) (sf : fatfs_t) : fatfs_t :=
  mk_fatfs (sf_fil sf) v (sf_type sf) (sf_used sf) (sf_mode sf) (sf_lktbl sf) (sf_dent sf) (sf_mnt sf).
Definition set_type (v : Z) (sf : fatfs_t) : fatfs_t :=
  mk_fatfs (sf_fil sf) (sf_dir sf) v (sf_used sf) (sf_mode sf) (sf_lktbl sf) (sf_dent sf) (sf_mnt sf).
Definition set_used (v : Z) (sf : fatfs_t) : fatfs_t :=
  mk_fatfs (sf_fil sf) (sf_dir sf) (sf_type sf) v (sf_mode sf) (sf_lktbl sf) (sf_dent sf) (sf_mnt sf).
Definition set_mode (v : Z) (sf : fatfs_t) : fatfs_t :=
  mk_fatfs (sf_fil sf) (sf_dir sf) (sf_type sf) (sf_used sf) v (sf_lktbl sf) (sf_dent sf) (sf_mnt sf).
Definition set_lktbl (v : list Z) (sf : fatfs_t) : fatfs_t :=
  mk_fatfs (sf_fil sf) (sf_dir sf) (sf_type sf) (sf_used sf) (sf_mode sf) v (sf_dent sf) (sf_mnt sf).
Definition set_dent (v : dirent_t) (sf : fatfs_t) : fatfs_t :=
  mk_fatfs (sf_fil sf) (sf_dir sf) (sf_type sf) (sf_used sf) (sf_mode sf) (sf_lktbl sf) v (sf_mnt sf).
Definition set_mnt (v : option nat) (sf : fatfs_t) : fatfs_t :=
  mk_fatfs (sf_fil sf) (sf_dir sf) (sf_type sf) (sf_used sf) (sf_mode sf) (sf_lktbl sf) (sf_dent sf) v.

Definition set_cltbl (v : cltbl_ptr) (f : FIL) : FIL :=
  mk_FIL (fil_fs f) (fil_fptr f) (fil_fsize f) (fil_sclust f) v (fil_x f).

(** [errno = e]. *)
Definition set_errno (e : Z) : M unit :=
  modify (fun w => set_host (mk_hst e (h_sys (host w))) w).

(** A call of a collaborator: it is logged, and it changes the state behind
    the interface. *)
Definition call {A} (ev : event) (op : hst -> A * hst) : M A :=
  fun w => let '(a, h) := op (host w) in
           Some (a, set_host h (set_trace (trace w ++ [ev]) w)).

(** The state after the calls [evs] that left the collaborators in [h] and
    changed nothing else. *)
Definition after_calls (w : world) (h : hst) (evs : list event) : world :=
  set_host h (set_trace (trace w ++ evs) w).

(** The state after a run differs from the state before by the calls made. *)
Definition calls_made (w w' : world) (evs : list event) : Prop :=
  trace w' = trace w ++ evs.

(** The state [w] with slot [fd] of the pool, the calloc'ed link maps and the
    collaborators replaced, and calls added: what a run on descriptor [fd]
    can change. *)
Definition at_fd (w : world) (fd : nat) (sf : fatfs_t) (hp : gmap N (list Z))
    (h : hst) (evs : list event) : world :=
  mk_world (initted w) (<[fd := sf]> (fh w)) (fat_mnt w) (VolToPart w)
    (sd_dev w) (g1_dev w) (g1_dev_dma w) hp h (trace w ++ evs).

(** [fh[fd]] read and updated in place. *)
Definition get_fh (fd : nat) : M fatfs_t :=
  fun w => match fh w !! fd with
           | Some sf => Some (sf, w)
           | None => None
           end.

Definition upd_fh (fd : nat) (f : fatfs_t -> fatfs_t) : M unit :=
  fun w => match fh w !! fd with
           | Some sf => Some (tt, set_fh (<[fd := f sf]> (fh w)) w)
           | None => None
           end.

(** [fat_mnt[i]] read and updated in place. *)
Definition get_mnt (i : nat) : M fatfs_mnt_t :=
  fun w => match fat_mnt w !! i with
           | Some m => Some (m, w)
           | None => None
           end.

Definition put_mnt (i : nat) (m : fatfs_mnt_t) : M unit :=
  fun w => match fat_mnt w !! i with
           | Some _ => Some (tt, set_fat_mnt (<[i := m]> (fat_mnt w)) w)
           | None => None
           end.

(** The array behind [sf->fil.cltbl], for the engine: nothing for NULL, the
    inline array of the handle, or the calloc'ed block, which must still be
    allocated. *)
Definition cltbl_load (fd : nat) : M (option (list Z)) :=
  sf ← get_fh fd;
  match fil_cltbl (sf_fil sf) with
  | CL_NULL => mret None
  | CL_INLINE => mret (Some (sf_lktbl sf))
  | CL_HEAP a => hp ← gets cl_heap; t ← deref (hp !! a); mret (Some t)
  end.

(** The same array, read off a slot and the calloc'ed blocks: [None] when
    the pointer dangles. *)
Definition tbl_of (sf : fatfs_t) (hp : gmap N (list Z)) : option (option (list Z)) :=
  match fil_cltbl (sf_fil sf) with
  | CL_NULL => Some None
  | CL_INLINE => Some (Some (sf_lktbl sf))
  | CL_HEAP a => Some <$> hp !! a
  end.

(** The array the engine was given, written back where it lives. *)
Definition cltbl_store (fd : nat) (p : cltbl_ptr) (t : list Z) : M unit :=
  match p with
  | CL_NULL => mret tt
  | CL_INLINE => upd_fh fd (set_lktbl t)
  | CL_HEAP a => modify (fun w => set_cl_heap (<[a := t]> (cl_heap w)) w)
  end.

(** [sf->fil.cltbl[0]] and [sf->fil.cltbl[0] = v]. *)
Definition cltbl_first (fd : nat) : M Z :=
  t ← cltbl_load fd;
  t ← deref t;
  deref (t !! 0%nat).

Definition cltbl_set_first (fd : nat) (v : Z) : M unit :=
  sf ← get_fh fd;
  t ← cltbl_load fd;
  t ← deref t;
  match t with
  | [] => undefined
  | _ :: t' => cltbl_store fd (fil_cltbl (sf_fil sf)) (v :: t')
  end.

(** [free(sf->fil.cltbl)]. *)
Definition free_cltbl (fd : nat) : M unit :=
  sf ← get_fh fd;
  match fil_cltbl (sf_fil sf) with
  | CL_NULL => mret tt
  | CL_INLINE => undefined
  | CL_HEAP a =>
      call (Ev_free a) (free a);;
      modify (fun w => set_cl_heap (delete a (cl_heap w)) w)
  end.

(** ** dc.c: the fast-seek link map *)

(** [f_lseek(&sf->fil, ofs)]: the engine gets the FIL and the link map it
    points to, and both are stored back. *)
Definition do_f_lseek (fd : nat) (ofs : Z) : M FRESULT :=
  sf ← get_fh fd;
  tbl ← cltbl_load fd;
  r ← call (Ev_f_lseek fd ofs (fil_cltbl (sf_fil sf)) tbl)
           (f_lseek (sf_fil sf) tbl ofs);
  upd_fh fd (set_fil r.1.2);;
  cltbl_store fd (fil_cltbl (sf_fil sf)) r.2;;
  mret r.1.1.

(** The engine's side of the link map convention: [f_lseek] reads and writes
    the array [fp->cltbl] points to and never reassigns the pointer. *)
Definition lseek_keeps_cltbl : Prop :=
  forall (fil : FIL) (tbl : option (list Z)) (ofs : Z) (h : hst),
    fil_cltbl (f_lseek fil tbl ofs h).1.1.2 = fil_cltbl fil.

(** The inline array after [memset] and [sf->lktbl[0] = FATFS_LINK_TBL_SIZE]. *)
Definition lktbl_fresh : list Z := FATFS_LINK_TBL_SIZE :: replicate 31 0.

Definition fat_create_linkmap (fd : nat) : M FRESULT :=
  sf ← get_fh fd;
  match fil_cltbl (sf_fil sf) with
  | CL_INLINE | CL_HEAP _ => mret FR_OK
  | CL_NULL =>
      upd_fh fd (set_lktbl (replicate 32 0));;
      upd_fh fd (fun sf => set_fil (set_cltbl CL_INLINE (sf_fil sf)) sf);;  (* Enable fast seek feature *)
      upd_fh fd (fun sf => set_lktbl (<[0%nat := FATFS_LINK_TBL_SIZE]> (sf_lktbl sf)) sf);;
      (* Create CLMT *)
      rc ← do_f_lseek fd CREATE_LINKMAP;
      rc ← (if rc =? FR_NOT_ENOUGH_CORE then
              lms ← cltbl_first fd;
              p ← call (Ev_calloc lms 4) (calloc lms 4);
              match p with
              | Some a =>
                  modify (fun w => set_cl_heap (<[a := replicate (Z.to_nat lms) 0]> (cl_heap w)) w);;
                  upd_fh fd (fun sf => set_fil (set_cltbl (CL_HEAP a) (sf_fil sf)) sf);;
                  cltbl_set_first fd lms;;
                  rc ← do_f_lseek fd CREATE_LINKMAP;
                  (if negb (rc =? FR_OK) then free_cltbl fd else mret tt);;
                  mret rc
              | None =>
                  upd_fh fd (fun sf => set_fil (set_cltbl CL_NULL (sf_fil sf)) sf);;
                  mret rc
              end
            else mret rc);
      (if negb (rc =? FR_OK)
       then upd_fh fd (fun sf => set_fil (set_cltbl CL_NULL (sf_fil sf)) sf)
       else mret tt);;
      mret rc
  end.

(** [sf->fil.cltbl = NULL] on a slot. *)
Definition detach (sf : fatfs_t) : fatfs_t :=
  set_fil (set_cltbl CL_NULL (sf_fil sf)) sf.

(** ** dc.c: the handle guard *)

(** FAT_GET_HND(hnd, rv): [fd = hnd - 1]; the body runs on [fh[fd]] when
    [fd > -1 && fd < MAX_FAT_FILES], else [errno = ENFILE] and [rv] is
    returned. *)
Definition FAT_GET_HND {A} (hnd : Z) (rv : A) (body : nat -> M A) : M A :=
  let fd := hnd - 1 in
  if (-1 <? fd) && (fd <? MAX_FAT_FILES) then body (Z.to_nat fd)
  else set_errno ENFILE;; mret rv.

(** ** dc.c: open *)

(** The scan [for (fd = 0; fd < MAX_FAT_FILES; ++fd) if (fh[fd].used == 0)]. *)
Definition find_free_fd (pool : list fatfs_t) : option nat :=
  fst <$> list_find (fun sf => sf_used sf = 0) (take (Z.to_nat MAX_FAT_FILES) pool).

(** The translation of the access mode to the engine's open flags. *)
Definition open_fat_flags (flags : Z) : option Z :=
  let mode := Z.land flags O_MODE_MASK in
  let create := if negb (Z.land flags O_TRUNC =? 0) then FA_CREATE_ALWAYS else FA_CREATE_NEW in
  if mode =? O_RDONLY then Some (Z.lor FA_OPEN_EXISTING FA_READ)
  else if mode =? O_WRONLY then Some (Z.lor FA_WRITE create)
  else if mode =? O_RDWR then Some (Z.lor (Z.lor FA_WRITE FA_READ) create)
  else None.

Definition path_or_root (fn : option string) : string :=
  match fn with
  | None => "/"
  | Some s => s
  end.

(** [fat_open(vfs, fn, flags)]; the result is the descriptor, 0 for NULL. *)
Definition fat_open (vfs : vfs_handler_t) (fn : option string) (flags : Z) : M Z :=
  match privdata vfs with
  | None => set_errno ENOMEM;; mret 0
  | Some mi =>
      pool ← gets fh;
      match find_free_fd pool with
      | None => set_errno ENFILE;; mret 0
      | Some fd =>
          upd_fh fd (fun _ => fatfs_zero);;
          mnt ← get_mnt mi;
          rc ← call (Ev_f_chdrive (mnt_dev_path mnt)) (f_chdrive (mnt_dev_path mnt));
          if negb (rc =? FR_OK) then
            e ← gets errno; set_errno (fatfs_set_errno rc e);; mret 0
          else
            upd_fh fd (set_mode flags);;
            upd_fh fd (set_mnt (Some mi));;
            if negb (Z.land flags O_DIR =? 0) then
              (* Directory *)
              sf ← get_fh fd;
              r ← call (Ev_f_opendir fd (path_or_root fn)) (f_opendir (sf_dir sf) (path_or_root fn));
              upd_fh fd (set_dir r.2);;
              if negb (r.1 =? FR_OK) then
                e ← gets errno; set_errno (fatfs_set_errno r.1 e);; mret 0
              else
                upd_fh fd (set_used 1);;
                upd_fh fd (set_type STAT_TYPE_DIR);;
                mret (Z.of_nat fd + 1)
            else
              (* File *)
              match open_fat_flags flags with
              | None => set_errno EINVAL;; mret 0
              | Some fat_flags =>
                  upd_fh fd (set_type STAT_TYPE_FILE);;
                  sf ← get_fh fd;
                  r ← call (Ev_f_open fd (path_or_root fn) fat_flags)
                           (f_open (sf_fil sf) (path_or_root fn) fat_flags);
                  upd_fh fd (set_fil r.2);;
                  if negb (r.1 =? FR_OK) then
                    e ← gets errno; set_errno (fatfs_set_errno r.1 e);; mret 0
                  else
                    (if negb (Z.land fat_flags FA_WRITE =? 0) then
                       sf ← get_fh fd;
                       r ← call (Ev_f_sync fd) (f_sync (sf_fil sf));
                       upd_fh fd (set_fil r.2)
                     else mret tt);;
                    sf ← get_fh fd;
                    (if negb (Z.land flags O_APPEND =? 0) && (0 <? fil_fsize (sf_fil sf)) then
                       do_f_lseek fd (u32 (fil_fsize (sf_fil sf) - 1));; mret tt
                     else mret tt);;
                    upd_fh fd (set_used 1);;
                    mret (Z.of_nat fd + 1)
              end
      end
  end.

(** ** dc.c: the operations on a descriptor

    Every one of them opens with FAT_GET_HND; [fat_close_fd], [fat_read_fd]
    and so on are the statements that follow the guard, on [sf == &fh[fd]]. *)





(** A run that, whenever it returns, has made only calls that satisfy [P]. *)
Definition only_calls {A} (P : event -> Prop) (m : M A) : Prop :=
  forall (w : world) (r : A * world),
    m w = Some r -> exists evs, calls_made w r.2 evs /\ Forall P evs.

(** The calls the link map builder can make: the engine's sentinel seek,
    calloc and free. *)
Definition linkmap_call (e : event) : Prop :=
  match e with
  | Ev_f_lseek _ ofs _ _ => ofs = CREATE_LINKMAP
  | Ev_calloc _ _ | Ev_free _ => True
  | _ => False
  end.

(** The engine's side of the sentinel seek: [f_lseek] with the offset
    CREATE_LINKMAP builds the link map and leaves the cursor [fp->fptr] where
    it was. *)
Definition sentinel_seek_keeps_cursor : Prop :=
  forall (fil : FIL) (tbl : option (list Z)) (h : hst),
    fil_fptr (f_lseek fil tbl CREATE_LINKMAP h).1.1.2 = fil_fptr fil.

(** A run on descriptor [fd] that changes nothing but what [at_fd] names and
    leaves the cursor of the handle at [c]. *)
Definition cursor_at {A} (w : world) (fd : nat) (c : Z) (o : option (A * world)) : Prop :=
  match o with
  | None => True
  | Some r => exists sf hp h evs, r.2 = at_fd w fd sf hp h evs /\ fil_fptr (sf_fil sf) = c
  end.

(** The common tail [if (rc != FR_OK) { fatfs_set_errno(rc); return -1; }]. *)
Definition fail_rc (rc : FRESULT) : M Z :=
  e ← gets errno; set_errno (fatfs_set_errno rc e);; mret (-1).

Definition fat_close_fd (fd : nat) : M Z :=
  upd_fh fd (set_used 0);;
  sf ← get_fh fd;
  if sf_type sf =? STAT_TYPE_FILE then
    (match fil_cltbl (sf_fil sf) with
     | CL_HEAP _ => free_cltbl fd
     | CL_NULL | CL_INLINE => mret tt
     end);;
    r ← call (Ev_f_close fd) (f_close (sf_fil sf));
    upd_fh fd (set_fil r.2);;
    if negb (r.1 =? FR_OK) then fail_rc r.1 else mret 0
  else if sf_type sf =? STAT_TYPE_DIR then
    r ← call (Ev_f_closedir fd) (f_closedir (sf_dir sf));
    upd_fh fd (set_dir r.2);;
    if negb (r.1 =? FR_OK) then fail_rc r.1 else mret 0
  else mret (-1).

Definition fat_close (hnd : Z) : M Z :=
  FAT_GET_HND hnd (-1) (fun fd => fat_close_fd fd).

(** The test of [fat_read] that starts the link map: the second and third
    conjuncts are evaluated only when the ones before hold, and the third
    follows [sf->mnt], [mnt->fs] and [mnt->dev]. *)
Definition wants_linkmap (fd : nat) : M bool :=
  sf ← get_fh fd;
  match fil_cltbl (sf_fil sf) with
  | CL_INLINE | CL_HEAP _ => mret false
  | CL_NULL =>
      if Z.land (sf_mode sf) O_MODE_MASK =? O_RDONLY then
        mi ← deref (sf_mnt sf);
        mnt ← get_mnt mi;
        fs ← deref (mnt_fs mnt);
        dev ← deref (mnt_dev mnt);
        h ← gets host;
        mret (u32 (FATFS_csize fs h * Z.shiftl 1 (l_block_size dev h)) <? fil_fsize (sf_fil sf))
      else mret false
  end.

(** [fat_read(hnd, buffer, size)]; [buffer] is the address of the caller's
    buffer. *)
Definition fat_read_fd (fd : nat) (buffer : Z) (size : Z) : M Z :=
  b ← wants_linkmap fd;
  (if (b : bool) then
     (* Using fast seek feature for files larger than the cluster size *)
     fat_create_linkmap fd;; mret tt
   else mret tt);;
  (* We can use first fs_read just for preparing fast seek feature *)
  if size =? 0 then mret 0
  else
    sf ← get_fh fd;
    tbl ← cltbl_load fd;
    r ← call (Ev_f_read fd buffer (u32 size)) (f_read (sf_fil sf) tbl buffer (u32 size));
    upd_fh fd (set_fil r.1.2);;
    if negb (r.1.1 =? FR_OK) then fail_rc r.1.1 else mret (s32 r.2).

Definition fat_read (hnd : Z) (buffer : Z) (size : Z) : M Z :=
  FAT_GET_HND hnd (-1) (fun fd => fat_read_fd fd buffer size).





Definition fat_seek_fd (fd : nat) (offset : Z) (whence : Z) : M Z :=
  sf ← get_fh fd;
  let off :=
    if whence =? SEEK_SET then Some (u32 offset)
    else if whence =? SEEK_CUR then Some (u32 (fil_fptr (sf_fil sf) + offset))
    else if whence =? SEEK_END then Some (u32 (fil_fsize (sf_fil sf) + offset))
    else None in
  match off with
  | None => set_errno EINVAL;; mret (-1)
  | Some off =>
      rc ← do_f_lseek fd off;
      if negb (rc =? FR_OK) then fail_rc rc
      else sf ← get_fh fd; mret (s32 (fil_fptr (sf_fil sf)))
  end.

Definition fat_seek (hnd : Z) (offset : Z) (whence : Z) : M Z :=
  FAT_GET_HND hnd (-1) (fun fd => fat_seek_fd fd offset whence).

Definition fat_total_fd (fd : nat) : M Z :=
  sf ← get_fh fd;
  mret (fil_fsize (sf_fil sf)).

(** [fat_total] returns a [size_t]: the -1 of the guard is 0xFFFFFFFF. *)
Definition fat_total (hnd : Z) : M Z :=
  FAT_GET_HND hnd (u32 (-1)) (fun fd => fat_total_fd fd).

(** [strncpy(sf->dent.name, inf.fname, 12)] into the zeroed name. *)
Definition strncpy12 (s : string) : string := String.substring 0 12 s.

(** [fat_readdir(hnd)]: the result is [&sf->dent], [None] for NULL.  The
    engine writes the long name straight into [sf->dent.name].  The field
    [size] of a [dirent_t] is an [int]: the DWORD [inf.fsize] is stored in it
    as a signed 32-bit value. *)
Definition fat_readdir_fd (fd : nat) : M (option dirent_t) :=
  upd_fh fd (set_dent dent_zero);;
  sf ← get_fh fd;
  r ← call (Ev_f_readdir fd) (f_readdir (sf_dir sf) NAME_MAX);
  let inf := r.2 in
  upd_fh fd (set_dir r.1.2);;
  upd_fh fd (set_dent (mk_dirent (fi_lfname inf) 0 0 0));;
  if negb (r.1.1 =? FR_OK) then fail_rc r.1.1;; mret None
  else if String.eqb (fi_fname inf) "" then mret None
  else
    let name := if String.eqb (fi_lfname inf) "" then strncpy12 (fi_fname inf)
                else fi_lfname inf in
    (* TODO: date and time parsing *)
    let d := if negb (Z.land (fi_fattrib inf) AM_DIR =? 0)
             then mk_dirent name (fi_ftime inf) O_DIR (-1)
             else mk_dirent name (fi_ftime inf) 0 (s32 (fi_fsize inf)) in
    upd_fh fd (set_dent d);;
    mret (Some d).

Definition fat_readdir (hnd : Z) : M (option dirent_t) :=
  FAT_GET_HND hnd None (fun fd => fat_readdir_fd fd).





Definition fat_fcntl_fd (fd : nat) (cmd : Z) : M Z :=
  sf ← get_fh fd;
  if cmd =? F_GETFL then mret (sf_mode sf)
  else if (cmd =? F_SETFL) || (cmd =? F_GETFD) || (cmd =? F_SETFD) then mret 0
  else set_errno EINVAL;; mret (-1).

Definition fat_fcntl (hnd : Z) (cmd : Z) : M Z :=
  FAT_GET_HND hnd (-1) (fun fd => fat_fcntl_fd fd cmd).

(** [fat_fstat(hnd, st)]: the result is the return value with the contents
    of [*st] after the call; [st] is its contents before. *)
Definition fat_fstat_fd (fd : nat) (st : stat) : M (Z * stat) :=
  sf ← get_fh fd;
  mi ← deref (sf_mnt sf);
  mnt ← get_mnt mi;
  dev ← deref (mnt_dev mnt);
  h ← gets host;
  let blksize := Z.shiftl 1 (l_block_size dev h) in
  let rwx := Z.lor (Z.lor (Z.lor (Z.lor (Z.lor S_IRUSR S_IRGRP) S_IROTH) S_IXUSR) S_IXGRP) S_IXOTH in
  if sf_type sf =? STAT_TYPE_DIR then
    mret (0, mk_stat (Z.of_N dev) (Z.lor rwx S_IFDIR) 1 (-1) blksize 0)
  else
    let fsize := fil_fsize (sf_fil sf) in
    let blocks := Z.shiftr fsize (l_block_size dev h) in
    let blocks := if negb (Z.land fsize (blksize - 1) =? 0) then blocks + 1 else blocks in
    mret (0, mk_stat (Z.of_N dev) (Z.lor rwx S_IFREG) 1 fsize blksize blocks).

Definition fat_fstat (hnd : Z) (st : stat) : M (Z * stat) :=
  FAT_GET_HND hnd (-1, st) (fun fd => fat_fstat_fd fd st).

(** ** dc.c: the block device router (diskio) *)

(** FAT_GET_MOUNT(): the body runs on [fat_mnt[pdrv]] and its primary device
    when [pdrv < MAX_FAT_MOUNTS && fat_mnt[pdrv].dev != NULL], else STA_NOINIT
    is returned.  [pdrv] is a BYTE. *)
Definition FAT_GET_MOUNT (pdrv : Z) (body : fatfs_mnt_t -> N -> M Z) : M Z :=
  let pdrv := pdrv mod 256 in
  if pdrv <? Z.of_nat MAX_FAT_MOUNTS then
    mnt ← get_mnt (Z.to_nat pdrv);
    match mnt_dev mnt with
    | Some pio => body mnt pio
    | None => mret STA_NOINIT
    end
  else mret STA_NOINIT.

(** The address held by a buffer pointer, 0 for NULL. *)
Definition addr_of (p : option N) : Z :=
  match p with
  | Some a => Z.of_N a
  | None => 0
  end.

(** The device and the destination [disk_read] selects: the local variables
    [dev] and [dest] at the call of [read_blocks]. *)
Definition disk_read_route (mnt : fatfs_mnt_t) (pio : N) (buff count : Z) : M (N * Z) :=
  match mnt_dev_dma mnt with
  | Some dma =>
      if 1 <? count then
        if Z.land buff 31 =? 0 then mret (dma, buff)
        else if FATFS_USE_DMA_BUF then
          fs ← deref (mnt_fs mnt);
          h ← gets host;
          if count <=? FATFS_csize fs h then mret (dma, addr_of (mnt_dmabuf mnt))
          else mret (pio, buff)
        else mret (pio, buff)
      else mret (pio, buff)
  | None => mret (pio, buff)
  end.

Definition disk_result (rv : Z) : M Z :=
  if rv <? 0 then
    e ← gets errno;
    mret (if e =? EOVERFLOW then RES_PARERR else RES_ERROR)
  else mret RES_OK.

Definition disk_read (pdrv : Z) (buff : Z) (sector : Z) (count : Z) : M Z :=
  FAT_GET_MOUNT pdrv (fun mnt pio =>
    r ← disk_read_route mnt pio buff count;
    let dev := r.1 in
    let dest := r.2 in
    rv ← call (Ev_read_blocks dev sector count dest) (bd_read_blocks dev sector count dest);
    (if FATFS_USE_DMA_BUF && negb (dest =? buff) then
       h ← gets host;
       let n := Z.shiftl count (l_block_size dev h) in
       call (Ev_memcpy buff dest n) (memcpy buff dest n)
     else mret tt);;
    disk_result rv).

(** [disk_write]: the block that would select the DMA device is compiled out
    ([#if 0]), so [dev] and [src] keep their initial values. *)
Definition disk_write (pdrv : Z) (buff : Z) (sector : Z) (count : Z) : M Z :=
  FAT_GET_MOUNT pdrv (fun mnt pio =>
    let src := buff in
    let dev := pio in
    rv ← call (Ev_write_blocks dev sector count src) (bd_write_blocks dev sector count src);
    disk_result rv).

Definition disk_ioctl (pdrv : Z) (cmd : Z) (buff : Z) : M Z :=
  FAT_GET_MOUNT pdrv (fun mnt pio =>
    if cmd =? CTRL_SYNC then
      call (Ev_flush pio) (bd_flush pio);; mret RES_OK
    else if cmd =? GET_SECTOR_COUNT then
      n ← call (Ev_count_blocks pio) (bd_count_blocks pio);
      call (Ev_store buff 4 [u32 n]) (store buff 4 [u32 n]);; mret RES_OK
    else if (cmd =? GET_SECTOR_SIZE) || (cmd =? GET_BLOCK_SIZE) then
      h ← gets host;
      let v := Z.shiftl 1 (l_block_size pio h) mod 2 ^ 16 in
      call (Ev_store buff 2 [v]) (store buff 2 [v]);; mret RES_OK
    else if cmd =? CTRL_TRIM then mret RES_OK
    else mret RES_PARERR).

(** [fat_ioctl(hnd, cmd, ap)]; [data] is the pointer taken from [ap]. *)
Definition fat_ioctl_fd (fd : nat) (cmd : Z) (data : Z) : M Z :=
  sf ← get_fh fd;
  rc ← (if cmd =? FATFS_IOCTL_GET_BOOT_SECTOR_DATA then
          fs ← deref (fil_fs (sf_fil sf));
          h ← gets host;
          disk_read (FATFS_drv fs h) data 0 1
        else if cmd =? FATFS_IOCTL_GET_FD_LBA then
          h ← gets host;
          let lba := clust2sect (fil_fs (sf_fil sf)) (fil_sclust (sf_fil sf)) h in
          if 0 <? lba then
            call (Ev_store data 4 [lba]) (store data 4 [lba]);; mret RES_OK
          else mret RES_ERROR
        else if cmd =? FATFS_IOCTL_GET_FD_LINK_MAP then
          rc ← fat_create_linkmap fd;
          (if rc =? FR_OK then
             t ← cltbl_load fd;
             t ← deref t;
             n ← deref (t !! 0%nat);
             if Z.of_nat (length t) <? n then undefined
             else call (Ev_store data 4 (take (Z.to_nat n) t)) (store data 4 (take (Z.to_nat n) t))
           else
             call (Ev_memset data 0 4) (memset data 0 4));;
          mret RES_OK
        else
          fs ← deref (fil_fs (sf_fil sf));
          h ← gets host;
          disk_ioctl (FATFS_drv fs h) (cmd mod 256) data);
  mret (if rc =? RES_OK then 0 else -1).

Definition fat_ioctl (hnd : Z) (cmd : Z) (data : Z) : M Z :=
  FAT_GET_HND hnd (-1) (fun fd => fat_ioctl_fd fd cmd data).

(** ** dc.c: the mount registry *)

Definition fs_fat_init : M Z :=
  i ← gets initted;
  if negb (i =? 0) then mret 0
  else
    (* Reset mounts *)
    modify (set_fat_mnt (replicate MAX_FAT_MOUNTS mnt_zero));;
    (* Reset fd's *)
    modify (set_fh (replicate (Z.to_nat MAX_FAT_FILES) fatfs_zero));;
    modify (set_initted 1);;
    mret 0.

Definition free_if (p : option N) : M unit :=
  match p with
  | Some a => call (Ev_free a) (free a)
  | None => mret tt
  end.

Definition shutdown_if (dev : option N) : M unit :=
  match dev with
  | Some d => call (Ev_shutdown d) (bd_shutdown d);; mret tt
  | None => mret tt
  end.

(** [fs_fat_free(mnt)], for [mnt == &fat_mnt[i]] or NULL. *)
Definition fs_fat_free (mnt : option nat) : M unit :=
  match mnt with
  | None => mret tt
  | Some i =>
      m ← get_mnt i;
      free_if (vh_addr <$> mnt_vfsh m);;
      free_if (mnt_fs m);;
      shutdown_if (mnt_dev m);;
      shutdown_if (mnt_dev_dma m);;
      (if FATFS_USE_DMA_BUF then free_if (mnt_dmabuf m) else mret tt);;
      put_mnt i mnt_zero
  end.

(** The scan of [fs_fat_mount] for a record without a device. *)
Definition find_free_mnt (tbl : list fatfs_mnt_t) : option nat :=
  fst <$> list_find (fun m => mnt_dev m = None) (take MAX_FAT_MOUNTS tbl).

(** [snprintf(mnt->dev_path, sizeof(mnt->dev_path), "%d:", mnt->dev_id)]. *)
Definition drive_path (dev_id : Z) : string := pretty dev_id +:+ ":".

Definition fs_fat_mount (mp : string) (dev_pio : N) (dev_dma : option N) (partition : Z) : M Z :=
  ini ← gets initted;
  if ini =? 0 then mret (-1)
  else
    tbl ← gets fat_mnt;
    match find_free_mnt tbl with
    | None => fs_fat_free None;; mret (-1)
    | Some i =>
        let fail := fs_fat_free (Some i);; mret (-1) in
        let dev_id := Z.of_nat i mod 256 in
        put_mnt i (mk_mnt None None None None 0 dev_id "" None);;
        rv ← call (Ev_init dev_pio) (bd_init dev_pio);
        if rv <? 0 then fail
        else
          dma ← match dev_dma with
                | Some d =>
                    rv ← call (Ev_init d) (bd_init d);
                    mret (if rv <? 0 then None else Some d)
                | None => mret None
                end;
          put_mnt i (mk_mnt None None (Some dev_pio) dma 0 dev_id "" None);;
          parts ← gets VolToPart;
          (if Z.of_nat (length parts) <=? dev_id then undefined
           else modify (set_VolToPart (<[Z.to_nat dev_id := mk_PARTITION dev_id (partition + 1)]> parts)));;
          (* Create a VFS structure *)
          p ← call (Ev_malloc sizeof_vfs_handler_t) (malloc sizeof_vfs_handler_t);
          match p with
          | None => fail
          | Some va =>
              let vfsh := mk_vfs_handler va mp (Some i) in
              put_mnt i (mk_mnt None (Some vfsh) (Some dev_pio) dma 0 dev_id "" None);;
              (* Create a FATFS structure *)
              p ← call (Ev_malloc sizeof_FATFS) (malloc sizeof_FATFS);
              match p with
              | None => fail
              | Some fs =>
                  let dev_path := drive_path dev_id in
                  put_mnt i (mk_mnt (Some fs) (Some vfsh) (Some dev_pio) dma 0 dev_id dev_path None);;
                  rc ← call (Ev_f_mount (Some fs) dev_path 1) (f_mount (Some fs) dev_path 1);
                  if negb (rc =? FR_OK) then
                    e ← gets errno; set_errno (fatfs_set_errno rc e);; fail
                  else
                    h ← gets host;
                    let sect_size := u32 (Z.shiftl 1 (l_block_size dev_pio h)) in
                    (match dma with
                     | Some _ =>
                         if FATFS_USE_DMA_BUF then
                           let n := FATFS_csize fs h * sect_size in
                           b ← call (Ev_memalign 32 n) (memalign 32 n);
                           put_mnt i (mk_mnt (Some fs) (Some vfsh) (Some dev_pio) dma 0 dev_id dev_path b)
                         else mret tt
                     | None => mret tt
                     end);;
                    r ← call (Ev_f_getfree dev_path) (f_getfree dev_path);
                    (* Get total sectors and free sectors *)
                    call (Ev_count_blocks dev_pio) (bd_count_blocks dev_pio);;
                    deref r.2;;
                    (* Register with the VFS *)
                    rv ← call (Ev_nmmgr_handler_add mp) (nmmgr_handler_add vfsh);
                    if negb (rv =? 0) then fail else mret 0
              end
          end
    end.

(** The scan of [fs_fat_unmount] and [fs_fat_is_mounted]:
    [fat_mnt[i].vfsh != NULL && !strcmp(mp, fat_mnt[i].vfsh->nmmgr.pathname)]. *)
Definition mounted_at (mp : string) (m : fatfs_mnt_t) : bool :=
  match mnt_vfsh m with
  | Some v => String.eqb mp (pathname v)
  | None => false
  end.

Definition find_mount (mp : string) (tbl : list fatfs_mnt_t) : option nat :=
  fst <$> list_find (fun m => Is_true (mounted_at mp m)) (take MAX_FAT_MOUNTS tbl).

(** A volume is registered under [mp] in slot [i] of the table. *)
Definition registered (tbl : list fatfs_mnt_t) (mp : string) (i : nat) : Prop :=
  (i < MAX_FAT_MOUNTS)%nat /\
  exists m v, tbl !! i = Some m /\ mnt_vfsh m = Some v /\ pathname v = mp.

Definition fs_fat_unmount (mp : string) : M Z :=
  tbl ← gets fat_mnt;
  match find_mount mp tbl with
  | Some i =>
      m ← get_mnt i;
      v ← deref (mnt_vfsh m);
      call (Ev_nmmgr_handler_remove (pathname v)) (nmmgr_handler_remove v);;
      fs_fat_free (Some i);;
      mret 0
  | None =>
      set_errno ENOENT;;
      mret (-1)
  end.

Definition fs_fat_is_mounted (mp : string) : M Z :=
  tbl ← gets fat_mnt;
  match find_mount mp tbl with
  | Some i => mret (Z.of_nat i + 1)
  | None => mret 0
  end.

(** ** dc_bdev.c: mounting the partitions of the SD card *)

(** [sd_blockdev_for_device(rv)]. *)
Definition sd_blockdev_for_device (rv : option N) : M Z :=
  match rv with
  | None => set_errno EFAULT;; mret (-1)
  | Some dev =>
      (* Allocate the device data *)
      p ← call (Ev_malloc 16) (malloc 16);
      match p with
      | None => set_errno ENOMEM;; mret (-1)
      | Some ddata =>
          size ← call Ev_sd_get_size sd_get_size;
          call (Ev_set_dev_data dev ddata) (set_dev_data dev ddata 0 (size / 512));;
          mret 0
      end
  end.

(** The name under which partition [part] is mounted: [strcpy(path, "/sd")]
    for the first, [sprintf(path, "sd%d", part)] for the others. *)
Definition sd_path (part : Z) : string :=
  if part =? 0 then "/sd" else "sd" +:+ pretty part.

(** One turn of the loop of [fs_fat_mount_sd], for [dev == &sd_dev[part]];
    a [continue] ends the turn. *)
Definition mount_sd_partition (buf : list Z) (base : N) (part : Z) : M unit :=
  let dev := (base + Z.to_N (part * sizeof_kos_blockdev_t))%N in
  c ← deref (Bdev.check_partition buf part);
  if negb (c =? 0) then mret tt
  else
    r ← call (Ev_sd_blockdev_for_partition part dev) (sd_blockdev_for_partition part dev);
    if negb (r.1 =? 0) then mret tt
    else
      let partition_type := r.2 in
      let path := sd_path part in
      (* Check to see if the MBR says that we have a FAT partition. *)
      let fat_part := Bdev.is_fat_partition partition_type in
      if negb (fat_part =? 0) then
        rv ← fs_fat_init;
        if negb (rv =? 0) then
          call (Ev_shutdown dev) (bd_shutdown dev);; mret tt
        else
          (* Need full disk block device for FAT *)
          call (Ev_shutdown dev) (bd_shutdown dev);;
          rv ← sd_blockdev_for_device (Some dev);
          if negb (rv =? 0) then mret tt
          else
            rv ← fs_fat_mount path dev None part;
            if negb (rv =? 0) then
              call (Ev_shutdown dev) (bd_shutdown dev);; mret tt
            else mret tt
      else
        call (Ev_shutdown dev) (bd_shutdown dev);; mret tt.

(** [for (part = 0; part < MAX_PARTITIONS; part++)]. *)
Fixpoint mount_sd_loop (buf : list Z) (base : N) (part : Z) (turns : nat) : M unit :=
  match turns with
  | O => mret tt
  | S turns' =>
      mount_sd_partition buf base part;;
      mount_sd_loop buf base (part + 1) turns'
  end.

Definition fs_fat_mount_sd : M Z :=
  rv ← call Ev_sd_init sd_init;
  if negb (rv =? 0) then
    call Ev_scif_init scif_init;; mret (-1)
  else
    call Ev_sd_get_size sd_get_size;;
    r ← call (Ev_sd_read_blocks 0 1) (sd_read_blocks 0 1);
    if negb (r.1 =? 0) then mret (-1)
    else
      let buf := r.2 in
      p ← gets sd_dev;
      p ← match p with
          | Some _ => mret p
          | None =>
              let n := sizeof_kos_blockdev_t * Bdev.MAX_PARTITIONS in
              p ← call (Ev_malloc n) (malloc n);
              modify (set_sd_dev p);;
              mret p
          end;
      match p with
      | None => mret (-1)
      | Some base =>
          let n := sizeof_kos_blockdev_t * Bdev.MAX_PARTITIONS in
          call (Ev_memset (Z.of_N base) 0 n) (memset (Z.of_N base) 0 n);;
          mount_sd_loop buf base 0 (Z.to_nat Bdev.MAX_PARTITIONS);;
          mret 0
      end.

(** ** dc_bdev.c: mounting the partitions of the G1 ATA disk *)

Definition ide_path (part : Z) : string :=
  if part =? 0 then "/ide" else "/ide" +:+ pretty part.

(** One turn of the loop of [fs_fat_mount_ide], for [dev == &g1_dev[part]]
    and [dev_dma == &g1_dev_dma[part]]. *)
Definition mount_ide_partition (buf : list Z) (base base_dma : N) (part : Z) : M unit :=
  let dev := (base + Z.to_N (part * sizeof_kos_blockdev_t))%N in
  let dev_dma := (base_dma + Z.to_N (part * sizeof_kos_blockdev_t))%N in
  c ← deref (Bdev.check_partition buf part);
  if negb (c =? 0) then mret tt
  else
    r ← call (Ev_g1_ata_blockdev_for_partition part 0 dev)
             (g1_ata_blockdev_for_partition part 0 dev);
    if negb (r.1 =? 0) then mret tt
    else
      let partition_type := r.2 in
      let path := ide_path part in
      (* Check to see if the MBR says that we have a FAT partition. *)
      let fat_part := Bdev.is_fat_partition partition_type in
      if negb (fat_part =? 0) then
        rv ← fs_fat_init;
        if negb (rv =? 0) then
          call (Ev_shutdown dev) (bd_shutdown dev);; mret tt
        else
          (* Need full disk block device for FAT *)
          call (Ev_shutdown dev) (bd_shutdown dev);;
          rv ← call (Ev_g1_ata_blockdev_for_device 0 dev) (g1_ata_blockdev_for_device 0 dev);
          if negb (rv =? 0) then mret tt
          else
            rv ← call (Ev_g1_ata_blockdev_for_device 1 dev_dma)
                      (g1_ata_blockdev_for_device 1 dev_dma);
            let dev_dma := if negb (rv =? 0) then None else Some dev_dma in
            rv ← fs_fat_mount path dev dev_dma part;
            if negb (rv =? 0) then
              call (Ev_shutdown dev) (bd_shutdown dev);;
              shutdown_if dev_dma
            else mret tt
      else
        call (Ev_shutdown dev) (bd_shutdown dev);; mret tt.

Fixpoint mount_ide_loop (buf : list Z) (base base_dma : N) (part : Z) (turns : nat) : M unit :=
  match turns with
  | O => mret tt
  | S turns' =>
      mount_ide_partition buf base base_dma part;;
      mount_ide_loop buf base base_dma (part + 1) turns'
  end.

Definition fs_fat_mount_ide : M Z :=
  rv ← call Ev_g1_ata_init g1_ata_init;
  if negb (rv =? 0) then mret (-1)
  else
    (* Read the MBR from the disk *)
    lba ← call Ev_g1_ata_lba_mode g1_ata_lba_mode;
    r ← (if negb (lba =? 0)
         then call (Ev_g1_ata_read_lba 0 1) (g1_ata_read_lba 0 1)
         else call (Ev_g1_ata_read_chs 0 0 1 1) (g1_ata_read_chs 0 0 1 1));
    if r.1 <? 0 then mret (-1)
    else
      let buf := r.2 in
      let n := sizeof_kos_blockdev_t * Bdev.MAX_PARTITIONS in
      p ← gets g1_dev;
      (match p with
       | Some _ => mret tt
       | None =>
           p ← call (Ev_malloc n) (malloc n);
           modify (set_g1_dev p);;
           q ← call (Ev_malloc n) (malloc n);
           modify (set_g1_dev_dma q)
       end);;
      p ← gets g1_dev;
      q ← gets g1_dev_dma;
      match p, q with
      | Some base, Some base_dma =>
          call (Ev_memset (Z.of_N base) 0 n) (memset (Z.of_N base) 0 n);;
          call (Ev_memset (Z.of_N base_dma) 0 n) (memset (Z.of_N base_dma) 0 n);;
          mount_ide_loop buf base base_dma 0 (Z.to_nat Bdev.MAX_PARTITIONS);;
          mret 0
      | _, _ => mret (-1)
      end.

End Adapter.

(** ** The engine's operations on paths, and the clock

    [f_rename], [f_unlink], [f_mkdir] and [f_stat] of ff.c, and
    [rtc_unix_secs] and [gmtime] of the C library, which dc.c calls outside
    any descriptor.  They act on the state behind the interface like the
    calls of [Host]; [trace] keeps listing the calls on descriptors, devices
    and memory. *)

(** struct tm, with the fields dc.c reads. *)
Record tm := mk_tm {
  tm_sec : Z;
  tm_min : Z;
  tm_hour : Z;
  tm_mday : Z;
  tm_mon : Z;
  tm_year : Z
}.

(** The three time stamps of struct stat. *)
Record stat_times := mk_times {
  st_atime : Z;
  st_mtime : Z;
  st_ctime : Z
}.

Class HostPaths {ET : EngineTypes} := {
  f_rename : option string -> option string -> hst -> FRESULT * hst;
  f_unlink : option string -> hst -> FRESULT * hst;
  f_mkdir : option string -> hst -> FRESULT * hst;
  f_stat : string -> hst -> (FRESULT * FILINFO) * hst;
  rtc_unix_secs : hst -> Z * hst;
  gmtime : Z -> hst -> option tm * hst
}.

Section AdapterRest.
Context {HC : HostConsts} {ET : EngineTypes} {HO : Host} {HP : HostPaths}.

(** A call of the second interface. *)
Definition host_op {A} (op : hst -> A * hst) : M A :=
  fun w => let '(a, h) := op (host w) in Some (a, set_host h w).

(** ** dc.c: the operations on paths *)

(** FAT_GET_MNT(): the mount record of the handler, or [None] when the macro
    jumps to [error], which it does with [rc] still FR_OK. *)
Definition FAT_GET_MNT (vfs : vfs_handler_t) : M (option fatfs_mnt_t) :=
  match privdata vfs with
  | None => mret None
  | Some mi =>
      mnt ← get_mnt mi;
      rc ← call (Ev_f_chdrive (mnt_dev_path mnt)) (f_chdrive (mnt_dev_path mnt));
      if negb (rc =? FR_OK) then mret None else mret (Some mnt)
  end.

Definition fat_rename (vfs : vfs_handler_t) (fn1 fn2 : option string) : M Z :=
  m ← FAT_GET_MNT vfs;
  match m with
  | None => fail_rc FR_OK
  | Some _ =>
      rc ← host_op (f_rename fn1 fn2);
      if negb (rc =? FR_OK) then fail_rc rc else mret 0
  end.

Definition fat_unlink (vfs : vfs_handler_t) (fn : option string) : M Z :=
  m ← FAT_GET_MNT vfs;
  match m with
  | None => fail_rc FR_OK
  | Some _ =>
      rc ← host_op (f_unlink fn);
      if negb (rc =? FR_OK) then fail_rc rc else mret 0
  end.

Definition fat_mkdir (vfs : vfs_handler_t) (fn : option string) : M Z :=
  m ← FAT_GET_MNT vfs;
  match m with
  | None => fail_rc FR_OK
  | Some _ =>
      rc ← host_op (f_mkdir fn);
      if negb (rc =? FR_OK) then fail_rc rc else mret 0
  end.

(** [fat_rmdir] calls [f_unlink], as [fat_unlink] does. *)
Definition fat_rmdir (vfs : vfs_handler_t) (fn : option string) : M Z :=
  m ← FAT_GET_MNT vfs;
  match m with
  | None => fail_rc FR_OK
  | Some _ =>
      rc ← host_op (f_unlink fn);
      if negb (rc =? FR_OK) then fail_rc rc else mret 0
  end.

(** The permission bits every stat answers with. *)
Definition stat_rwx : Z :=
  Z.lor (Z.lor (Z.lor (Z.lor (Z.lor S_IRUSR S_IRGRP) S_IROTH) S_IXUSR) S_IXGRP) S_IXOTH.

(** [fat_stat(vfs, path, st, flag)]: the result is the return value with the
    contents of [*st] after the call; [st] is its contents before.  [st_dev]
    is the address of the handler. *)
Definition fat_stat (vfs : vfs_handler_t) (path : option string) (st : stat * stat_times)
  : M (Z * (stat * stat_times)) :=
  m ← FAT_GET_MNT vfs;
  match m with
  | None => r ← fail_rc FR_OK; mret (r, st)
  | Some mnt =>
      path ← deref path;
      let len := String.length path in
      let dev_no := Z.of_N (vh_addr vfs) in
      let st0 := (mk_stat dev_no stat_rwx 1 0 0 0, mk_times 0 0 0) in
      (* Root directory *)
      if (len =? 0)%nat || ((len =? 1)%nat && String.eqb path "/") then
        mret (0, (mk_stat dev_no (Z.lor stat_rwx S_IFDIR) 1 (-1) 0 0, mk_times 0 0 0))
      else
        r ← host_op (f_stat path);
        let inf := r.2 in
        if negb (r.1 =? FR_OK) then r ← fail_rc r.1; mret (r, st0)
        else
          (* FIXME *)
          let t := fi_fdate inf + fi_ftime inf in
          if negb (Z.land (fi_fattrib inf) AM_DIR =? 0) then
            mret (0, (mk_stat dev_no (Z.lor stat_rwx S_IFDIR) 1 (-1) 0 0, mk_times t t t))
          else
            dev ← deref (mnt_dev mnt);
            h ← gets host;
            let blksize := Z.shiftl 1 (l_block_size dev h) in
            let blocks := Z.shiftr (fi_fsize inf) (l_block_size dev h) in
            let blocks := if negb (Z.land (fi_fsize inf) (blksize - 1) =? 0)
                          then blocks + 1 else blocks in
            mret (0, (mk_stat dev_no (Z.lor stat_rwx S_IFREG) 1 (fi_fsize inf) blksize blocks,
                      mk_times t t t))
  end.

(** ** dc.c: mmap *)

(** [fat_mmap(hnd)]: the result is the block, [None] for NULL.  [size] and
    [cnt] are [int]; [free(NULL)] does nothing. *)
Definition fat_mmap (hnd : Z) : M (option N) :=
  t ← fat_total hnd;
  let size := s32 t in
  if negb (size =? 0) then
    data ← call (Ev_memalign 32 (u32 size)) (memalign 32 (u32 size));
    cnt ← fat_read hnd (addr_of data) (u32 size);
    if negb (cnt =? size) then
      free_if data;;
      mret None
    else mret data
  else mret None.

(** ** dc.c: the rest of diskio *)

Definition set_dev_stat (v : Z) (m : fatfs_mnt_t) : fatfs_mnt_t :=
  mk_mnt (mnt_fs m) (mnt_vfsh m) (mnt_dev m) (mnt_dev_dma m) v (mnt_dev_id m)
    (mnt_dev_path m) (mnt_dmabuf m).

(** [dev_stat |= STA_NOINIT] and [dev_stat &= ~STA_NOINIT] on a BYTE. *)
Definition stat_set (s : Z) : Z := Z.lor s STA_NOINIT mod 256.
Definition stat_clear (s : Z) : Z := Z.land s (Z.lnot STA_NOINIT) mod 256.

Definition disk_initialize (pdrv : Z) : M Z :=
  FAT_GET_MOUNT pdrv (fun mnt pio =>
    let i := Z.to_nat (pdrv mod 256) in
    rv ← call (Ev_init pio) (bd_init pio);
    let s := if rv <? 0 then stat_set (mnt_dev_stat mnt) else stat_clear (mnt_dev_stat mnt) in
    put_mnt i (set_dev_stat s mnt);;
    s ← match mnt_dev_dma mnt with
        | Some dma =>
            rv ← call (Ev_init dma) (bd_init dma);
            if rv <? 0 then
              put_mnt i (set_dev_stat (stat_set s) mnt);;
              mret (stat_set s)
            else mret s
        | None => mret s
        end;
    mret s).

Definition disk_status (pdrv : Z) : M Z :=
  FAT_GET_MOUNT pdrv (fun mnt _ => mret (mnt_dev_stat mnt)).

(** ** dc.c: the time stamp for the engine *)

(** The value [get_fattime] packs from a broken-down time.  Every field is
    cast to DWORD before it is shifted; [tm_sec / 2] is an [int] division. *)
Definition fattime (t : tm) : Z :=
  Z.lor (Z.lor (Z.lor (Z.lor (Z.lor
    (u32 (Z.shiftl (u32 (tm_year t - 80)) 25))   (* tm_year is years since 1900; FAT starts from 1980 *)
    (u32 (Z.shiftl (u32 (tm_mon t + 1)) 21)))    (* tm_mon ranges from 0 to 11; add 1 for FAT *)
    (u32 (Z.shiftl (u32 (tm_mday t)) 16)))       (* tm_mday ranges from 1 to 31 *)
    (u32 (Z.shiftl (u32 (tm_hour t)) 11)))       (* tm_hour ranges from 0 to 23 *)
    (u32 (Z.shiftl (u32 (tm_min t)) 5)))         (* tm_min ranges from 0 to 59 *)
    (u32 (Z.quot (tm_sec t) 2)).                 (* FAT stores seconds in 2-second steps *)

Definition get_fattime : M Z :=
  unix_time ← host_op rtc_unix_secs;
  time ← host_op (gmtime unix_time);
  mret (match time with
        | Some t => fattime t
        | None => 0
        end).

(** ** dc_bdev.c: unmounting the SD card and the G1 ATA disk *)

(** The name [fs_fat_unmount_sd] looks for: [strcpy(path, "/sd")] for the
    first partition, [sprintf(path, "/sd%d", i)] for the others. *)
Definition sd_unmount_path (i : Z) : string :=
  if i =? 0 then "/sd" else "/sd" +:+ pretty i.

(** One turn of the loop of [fs_fat_unmount_sd], on [sd_dev[i]]. *)
Definition unmount_sd_partition (base : N) (i : Z) : M unit :=
  let dev := (base + Z.to_N (i * sizeof_kos_blockdev_t))%N in
  h ← gets host;
  match dev_data dev h with
  | Some _ =>
      fs_fat_unmount (sd_unmount_path i);;
      call (Ev_shutdown dev) (bd_shutdown dev);;
      mret tt
  | None => mret tt
  end.









(** ** dc.c: shutdown *)




(** ** Well-formed states *)

(** A record of the mount table is either free and zeroed, as [memset]
    leaves it, or holds a mounted volume: device, engine work area and
    handler are there, the handler points back at the record, and the drive
    path names the record. *)
Definition mnt_ok (i : nat) (m : fatfs_mnt_t) : Prop :=
  m = mnt_zero \/
  (exists dev fs v,
     mnt_dev m = Some dev /\ mnt_fs m = Some fs /\ mnt_vfsh m = Some v /\
     privdata v = Some i /\
     mnt_dev_id m = Z.of_nat i mod 256 /\
     mnt_dev_path m = drive_path (mnt_dev_id m)).

Definition registry_ok (tbl : list fatfs_mnt_t) : Prop :=
  length tbl = MAX_FAT_MOUNTS /\
  forall i m, tbl !! i = Some m -> mnt_ok i m.

(** The state [w] with record [i] of the mount table, the partition table
    and the collaborators replaced, and calls added: what mounting and
    unmounting can change. *)
Definition at_mnt (w : world) (i : nat) (m : fatfs_mnt_t) (vp : list PARTITION)
    (h : hst) (evs : list event) : world :=
  mk_world (initted w) (fh w) (<[i := m]> (fat_mnt w)) vp
    (sd_dev w) (g1_dev w) (g1_dev_dma w) (cl_heap w) h (trace w ++ evs).




(** The calls [fs_fat_free] makes on a record, in order. *)
Definition release_calls (m : fatfs_mnt_t) : list event :=
  match mnt_vfsh m with Some v => [Ev_free (vh_addr v)] | None => [] end ++
  match mnt_fs m with Some fs => [Ev_free fs] | None => [] end ++
  match mnt_dev m with Some d => [Ev_shutdown d] | None => [] end ++
  match mnt_dev_dma m with Some d => [Ev_shutdown d] | None => [] end ++
  (if FATFS_USE_DMA_BUF
   then match mnt_dmabuf m with Some b => [Ev_free b] | None => [] end
   else []).

(** The engine's side of close: [f_close] does not reassign [fp->cltbl]. *)
Definition close_keeps_cltbl : Prop :=
  forall (fil : FIL) (h : hst), fil_cltbl (f_close fil h).1.2 = fil_cltbl fil.

End AdapterRest.

(** ** A host to run the model on

    The theorems below hold for every host.  To evaluate the model on
    concrete inputs, this is one: the constants are the usual ones of newlib,
    KallistiOS and FatFs where those are standard and arbitrary otherwise, and
    the collaborators are small deterministic stand-ins. *)

Module Sim.

(** The constants, for a given access-mode mask and setting of the DMA
    scratch buffer option. *)
Definition consts (mode_mask : Z) (dma_buf : bool) : HostConsts := {|
  EIO := 5; EFAULT := 14; ENODEV := 19; ENOENT := 2; EINVAL := 22; ENOSPC := 28;
  EACCES := 13; EBADF := 9; EROFS := 30; ENXIO := 6; EIDRM := 36; ETIME := 62;
  EAGAIN := 11; ENOMEM := 12; EMFILE := 24; ENFILE := 23; EOVERFLOW := 139;
  O_MODE_MASK := mode_mask; O_RDONLY := 0; O_WRONLY := 1; O_RDWR := 2;
  O_APPEND := 0x0008; O_TRUNC := 0x0400; O_DIR := 0x1000;
  STAT_TYPE_FILE := 1; STAT_TYPE_DIR := 2;
  SEEK_SET := 0; SEEK_CUR := 1; SEEK_END := 2;
  F_GETFL := 3; F_SETFL := 4; F_GETFD := 1; F_SETFD := 2;
  S_IRUSR := 256; S_IRGRP := 32; S_IROTH := 4; S_IXUSR := 64; S_IXGRP := 8; S_IXOTH := 1;
  S_IFDIR := 0x4000; S_IFREG := 0x8000;
  NAME_MAX := 256;
  FA_READ := 0x01; FA_WRITE := 0x02; FA_OPEN_EXISTING := 0x00; FA_CREATE_NEW := 0x04;
  FA_CREATE_ALWAYS := 0x08; CREATE_LINKMAP := 0xFFFFFFFF; AM_DIR := 0x10;
  STA_NOINIT := 0x01; RES_OK := 0; RES_ERROR := 1; RES_PARERR := 4;
  CTRL_SYNC := 0; GET_SECTOR_COUNT := 1; GET_SECTOR_SIZE := 2;
  GET_BLOCK_SIZE := 3; CTRL_TRIM := 4;
  FATFS_IOCTL_GET_BOOT_SECTOR_DATA := 32; FATFS_IOCTL_GET_FD_LBA := 33;
  FATFS_IOCTL_GET_FD_LINK_MAP := 34;
  sizeof_vfs_handler_t := 160; sizeof_FATFS := 560; sizeof_kos_blockdev_t := 40;
  _VOLUMES := 4;
  FATFS_USE_DMA_BUF := dma_buf
|}.

(** The state of the stand-ins: an allocator that hands out consecutive
    addresses while it has blocks left, one file of [sim_size] bytes whose
    cluster chain needs a link map of [sim_chain] cells, the result of the next
    close, the cluster size in sectors, and the first sector of the card. *)
Record sim_sys := mk_sim {
  sim_next : N;
  sim_blocks : nat;
  sim_size : Z;
  sim_chain : Z;
  sim_close_rc : FRESULT;
  sim_csize : Z;
  sim_mbr : list Z
}.

Global Instance types : EngineTypes := {|
  sys := sim_sys;
  FILX := unit;
  FILX0 := tt;
  DIR := Z;
  DIR0 := 0
|}.

Definition alloc (h : hst) : option N * hst :=
  let s := h_sys h in
  match sim_blocks s with
  | O => (None, mk_hst 12 s)
  | S n => (Some (sim_next s),
            mk_hst (h_errno h)
              (mk_sim (sim_next s + 0x100) n (sim_size s) (sim_chain s)
                 (sim_close_rc s) (sim_csize s) (sim_mbr s)))
  end.

Definition set_fptr (v : Z) (f : FIL) : FIL :=
  mk_FIL (fil_fs f) v (fil_fsize f) (fil_sclust f) (fil_cltbl f) (fil_x f).

(** The sentinel seek builds the link map when the array it is given is
    large enough and reports the size it needs in the first cell; any other
    seek moves the cursor, not beyond the end of the file. *)
Definition lseek (fil : FIL) (tbl : option (list Z)) (ofs : Z) (h : hst)
  : (FRESULT * FIL * list Z) * hst :=
  if ofs =? 0xFFFFFFFF then
    match tbl with
    | Some (n :: cells) =>
        let need := sim_chain (h_sys h) in
        if n <? need then ((FR_NOT_ENOUGH_CORE, fil, need :: cells), h)
        else ((FR_OK, fil, need :: cells), h)
    | Some [] | None => ((FR_INVALID_OBJECT, fil, []), h)
    end
  else ((FR_OK, set_fptr (Z.min ofs (fil_fsize fil)) fil, default [] tbl), h).

Definition read (fil : FIL) (tbl : option (list Z)) (buff btr : Z) (h : hst)
  : (FRESULT * FIL * Z) * hst :=
  let n := Z.min btr (fil_fsize fil - fil_fptr fil) in
  ((FR_OK, set_fptr (fil_fptr fil + n) fil, n), h).

Definition write (fil : FIL) (tbl : option (list Z)) (buff btw : Z) (h : hst)
  : (FRESULT * FIL * Z) * hst :=
  let p := fil_fptr fil + btw in
  ((FR_OK, mk_FIL (fil_fs fil) p (Z.max p (fil_fsize fil)) (fil_sclust fil)
             (fil_cltbl fil) (fil_x fil), btw), h).

Global Instance sim_host : Host := {|
  f_chdrive := fun _ h => (FR_OK, h);
  f_mount := fun _ _ _ h => (FR_OK, h);
  f_getfree := fun _ h => ((FR_OK, 1000, Some 0x8000%N), h);
  f_open := fun fil _ _ h =>
    ((FR_OK, mk_FIL (Some 0x8000%N) 0 (sim_size (h_sys h)) 2 CL_NULL tt), h);
  f_close := fun fil h => ((sim_close_rc (h_sys h), fil), h);
  f_sync := fun fil h => ((FR_OK, fil), h);
  f_lseek := lseek;
  f_read := read;
  f_write := write;
  f_opendir := fun _ _ h => ((FR_OK, 0), h);
  f_closedir := fun d h => ((sim_close_rc (h_sys h), d), h);
  f_readdir := fun d _ h =>
    ((FR_OK, d + 1, mk_FILINFO 0 0 0 0 (if d =? 0 then "FILE.TXT" else "") ""), h);
  f_rewinddir := fun _ h => ((FR_OK, 0), h);
  clust2sect := fun _ c h => if c <? 2 then 0 else (c - 2) * sim_csize (h_sys h) + 64;
  FATFS_csize := fun _ h => sim_csize (h_sys h);
  FATFS_drv := fun _ _ => 0;
  l_block_size := fun _ _ => 9;
  dev_data := fun _ _ => None;
  bd_init := fun _ h => (0, h);
  bd_shutdown := fun _ h => (0, h);
  bd_read_blocks := fun _ _ _ _ h => (0, h);
  bd_write_blocks := fun _ _ _ _ h => (0, h);
  bd_count_blocks := fun _ h => (0x10000, h);
  bd_flush := fun _ h => (0, h);
  nmmgr_handler_add := fun _ h => (0, h);
  nmmgr_handler_remove := fun _ h => (0, h);
  malloc := fun _ => alloc;
  calloc := fun _ _ => alloc;
  memalign := fun _ _ => alloc;
  free := fun _ h => (tt, h);
  store := fun _ _ _ h => (tt, h);
  memcpy := fun _ _ _ h => (tt, h);
  memset := fun _ _ _ h => (tt, h);
  sd_init := fun h => (0, h);
  scif_init := fun h => (0, h);
  sd_read_blocks := fun _ _ h => ((0, sim_mbr (h_sys h)), h);
  sd_blockdev_for_partition := fun part _ h =>
    ((0, default 0 (sim_mbr (h_sys h) !! Z.to_nat (450 + 16 * part))), h);
  sd_get_size := fun h => (0x2000000, h);
  set_dev_data := fun _ _ _ _ h => (tt, h);
  g1_ata_init := fun h => (0, h);
  g1_ata_lba_mode := fun h => (1, h);
  g1_ata_read_lba := fun _ _ h => ((0, sim_mbr (h_sys h)), h);
  g1_ata_read_chs := fun _ _ _ _ h => ((0, sim_mbr (h_sys h)), h);
  g1_ata_blockdev_for_partition := fun part _ _ h =>
    ((0, default 0 (sim_mbr (h_sys h) !! Z.to_nat (450 + 16 * part))), h);
  g1_ata_blockdev_for_device := fun _ _ h => (0, h)
|}.

(** A card-less machine with [blocks] allocations left, holding a file of
    [size] bytes in clusters of 8 sectors whose link map takes [chain] cells. *)
Definition machine (blocks : nat) (size chain : Z) (close_rc : FRESULT) : hst :=
  mk_hst 0 (mk_sim 0x1000 blocks size chain close_rc 8 Bdev.blank_sector).

(** A first sector with the MBR signature and the given partition types,
    and a machine with such a card and [blocks] allocations left. *)
Definition mbr_entry (ptype : Z) : list Z := [0; 0; 0; 0; ptype] ++ replicate 11 0.

Definition mbr_of (types : list Z) : list Z :=
  replicate 446 0 ++ concat (map mbr_entry types) ++ [0x55; 0xAA].

Definition card (types : list Z) (blocks : nat) : hst :=
  mk_hst 0 (mk_sim 0x1000 blocks 0 0 FR_OK 8 (mbr_of types)).

(** A mounted volume on drive 0, with or without a DMA device. *)
Definition volume (dma : option N) (dmabuf : option N) : fatfs_mnt_t :=
  mk_mnt (Some 0x8000%N) (Some (mk_vfs_handler 0x9000 "/sd" (Some 0%nat)))
    (Some 0x100%N) dma 0 0 "0:" dmabuf.

(** An open descriptor 1 on that volume. *)
Definition open_file (mode : Z) (size : Z) (cl : cltbl_ptr) : fatfs_t :=
  mk_fatfs (mk_FIL (Some 0x8000%N) 0 size 2 cl tt) 0 1 1 mode
    (replicate 32 0) dent_zero (Some 0%nat).

Definition pool_with (sf : fatfs_t) : list fatfs_t :=
  sf :: replicate 15 fatfs_zero.

Definition mounts_with (m : fatfs_mnt_t) : list fatfs_mnt_t :=
  m :: replicate 3 mnt_zero.

Definition boot (pool : list fatfs_t) (mounts : list fatfs_mnt_t)
    (hp : gmap N (list Z)) (h : hst) : world :=
  mk_world 1 pool mounts (replicate 16 (mk_PARTITION 0 0)) None None None hp h [].

End Sim.

(** A stand-in for the second interface: one file, "/log.txt", that can be
    renamed, removed and examined, and a clock that stands still. *)

Module SimFs.

Definition is_log (fn : option string) : bool :=
  match fn with
  | Some s => String.eqb s "/log.txt"
  | None => false
  end.

Global Instance sim_paths : HostPaths (ET := Sim.types) := {|
  f_rename := fun fn1 _ h => (if is_log fn1 then FR_OK else FR_NO_FILE, h);
  f_unlink := fun fn h => (if is_log fn then FR_OK else FR_NO_FILE, h);
  f_mkdir := fun fn h => (if is_log fn then FR_EXIST else FR_OK, h);
  f_stat := fun path h =>
    if String.eqb path "/log.txt"
    then ((FR_OK, mk_FILINFO (Sim.sim_size (h_sys h)) 0x5A21 0x6000 0x20 "LOG.TXT" ""), h)
    else ((FR_NO_FILE, mk_FILINFO 0 0 0 0 "" ""), h);
  rtc_unix_secs := fun h => (1735733730, h);
  gmtime := fun secs h =>
    (if secs <? 0 then None else Some (mk_tm 30 15 12 1 0 125), h)
|}.

(** The first stand-in with two knobs: what the [dev_data] field of every
    block device holds, and a result code with which every seek is refused
    ([None]: seeks behave as before). *)
Definition variant (data : option N) (seek_rc : option FRESULT) : Host (ET := Sim.types) := {|
  f_chdrive := f_chdrive (Host := Sim.sim_host);
  f_mount := f_mount (Host := Sim.sim_host);
  f_getfree := f_getfree (Host := Sim.sim_host);
  f_open := f_open (Host := Sim.sim_host);
  f_close := f_close (Host := Sim.sim_host);
  f_sync := f_sync (Host := Sim.sim_host);
  f_lseek := match seek_rc with
             | Some rc => fun fil _ _ h => ((rc, fil, []), h)
             | None => Sim.lseek
             end;
  f_read := f_read (Host := Sim.sim_host);
  f_write := f_write (Host := Sim.sim_host);
  f_opendir := f_opendir (Host := Sim.sim_host);
  f_closedir := f_closedir (Host := Sim.sim_host);
  f_readdir := f_readdir (Host := Sim.sim_host);
  f_rewinddir := f_rewinddir (Host := Sim.sim_host);
  clust2sect := clust2sect (Host := Sim.sim_host);
  FATFS_csize := FATFS_csize (Host := Sim.sim_host);
  FATFS_drv := FATFS_drv (Host := Sim.sim_host);
  l_block_size := l_block_size (Host := Sim.sim_host);
  dev_data := fun _ _ => data;
  bd_init := bd_init (Host := Sim.sim_host);
  bd_shutdown := bd_shutdown (Host := Sim.sim_host);
  bd_read_blocks := bd_read_blocks (Host := Sim.sim_host);
  bd_write_blocks := bd_write_blocks (Host := Sim.sim_host);
  bd_count_blocks := bd_count_blocks (Host := Sim.sim_host);
  bd_flush := bd_flush (Host := Sim.sim_host);
  nmmgr_handler_add := nmmgr_handler_add (Host := Sim.sim_host);
  nmmgr_handler_remove := nmmgr_handler_remove (Host := Sim.sim_host);
  malloc := malloc (Host := Sim.sim_host);
  calloc := calloc (Host := Sim.sim_host);
  memalign := memalign (Host := Sim.sim_host);
  free := free (Host := Sim.sim_host);
  store := store (Host := Sim.sim_host);
  memcpy := memcpy (Host := Sim.sim_host);
  memset := memset (Host := Sim.sim_host);
  sd_init := sd_init (Host := Sim.sim_host);
  scif_init := scif_init (Host := Sim.sim_host);
  sd_read_blocks := sd_read_blocks (Host := Sim.sim_host);
  sd_blockdev_for_partition := sd_blockdev_for_partition (Host := Sim.sim_host);
  sd_get_size := sd_get_size (Host := Sim.sim_host);
  set_dev_data := set_dev_data (Host := Sim.sim_host);
  g1_ata_init := g1_ata_init (Host := Sim.sim_host);
  g1_ata_lba_mode := g1_ata_lba_mode (Host := Sim.sim_host);
  g1_ata_read_lba := g1_ata_read_lba (Host := Sim.sim_host);
  g1_ata_read_chs := g1_ata_read_chs (Host := Sim.sim_host);
  g1_ata_blockdev_for_partition := g1_ata_blockdev_for_partition (Host := Sim.sim_host);
  g1_ata_blockdev_for_device := g1_ata_blockdev_for_device (Host := Sim.sim_host)
|}.

End SimFs.

(** ** Properties of the error translator *)

Section ErrorTranslatorFacts.
Context `{HostConsts}.

Lemma fatfs_set_errno_unknown rc errno :
  rc < 0 \/ 19 < rc -> fatfs_set_errno rc errno = 0.
Proof.
  intros Hrc. unfold fatfs_set_errno.
  repeat match goal with
         | |- context [?a =? ?b] =>
             destruct (Z.eqb_spec a b) as [->|_];
             [unfold FR_OK, FR_DISK_ERR, FR_INT_ERR, FR_NOT_READY, FR_NO_FILE,
               FR_NO_PATH, FR_INVALID_NAME, FR_DENIED, FR_EXIST,
               FR_INVALID_OBJECT, FR_WRITE_PROTECTED, FR_INVALID_DRIVE,
               FR_NOT_ENABLED, FR_NO_FILESYSTEM, FR_MKFS_ABORTED, FR_TIMEOUT,
               FR_LOCKED, FR_NOT_ENOUGH_CORE, FR_TOO_MANY_OPEN_FILES,
               FR_INVALID_PARAMETER in Hrc; lia|]
         end.
  reflexivity.
Qed.

Lemma fatfs_set_errno_table rc e errno :
  (rc, e) ∈ errno_table -> fatfs_set_errno rc errno = e.
Proof.
  unfold errno_table. rewrite !elem_of_cons, elem_of_nil.
  intros Hin.
  repeat (destruct Hin as [Hin|Hin]; [injection Hin as -> ->; reflexivity|]).
  destruct Hin.
Qed.

(** C4.  The error translator is total over the engine result codes: each of
    the twenty enumerated codes other than FR_DISK_ERR assigns the errno of
    the table whatever errno was before; FR_DISK_ERR leaves errno as the
    disk layer set it; and every code outside the enumeration resets errno
    to 0 ("no error"). *)
Theorem fatfs_set_errno_total :
  forall rc errno : Z,
    (rc ∈ fresult_codes ->
       rc = FR_DISK_ERR \/ exists e, (rc, e) ∈ errno_table) /\
    (forall e, (rc, e) ∈ errno_table -> fatfs_set_errno rc errno = e) /\
    (rc = FR_DISK_ERR -> fatfs_set_errno rc errno = errno) /\
    (rc ∉ fresult_codes -> fatfs_set_errno rc errno = 0).
Proof.
  intros rc errno. repeat split.
  - unfold fresult_codes, errno_table.
    rewrite !elem_of_cons, elem_of_nil. intros Hin.
    repeat (destruct Hin as [->|Hin];
            [first [left; reflexivity
                   | right; eexists; rewrite !elem_of_cons;
                     repeat (first [left; reflexivity | right])]|]).
    destruct Hin.
  - intros e. apply fatfs_set_errno_table.
  - intros ->. reflexivity.
  - intros Hout. apply fatfs_set_errno_unknown.
    destruct (decide (rc < 0 \/ 19 < rc)) as [|Hn]; [assumption|].
    exfalso. apply Hout. unfold fresult_codes.
    assert (Hc : rc = 0 \/ rc = 1 \/ rc = 2 \/ rc = 3 \/ rc = 4 \/ rc = 5 \/
                 rc = 6 \/ rc = 7 \/ rc = 8 \/ rc = 9 \/ rc = 10 \/ rc = 11 \/
                 rc = 12 \/ rc = 13 \/ rc = 14 \/ rc = 15 \/ rc = 16 \/
                 rc = 17 \/ rc = 18 \/ rc = 19) by lia.
    rewrite !elem_of_cons.
    repeat (destruct Hc as [->|Hc]; [repeat (first [left; reflexivity | right])|]).
    subst rc. repeat (first [left; reflexivity | right]).
Qed.
End ErrorTranslatorFacts.

(** ** Properties of the partition scanner *)

Section ScannerFacts.
Import Bdev.

Lemma buf_at_in_range (buf : list Z) (i : Z) :
  0 <= i < Z.of_nat (length buf) -> is_Some (buf_at buf i).
Proof.
  intros Hi. unfold buf_at.
  destruct (Z.ltb_spec i 0) as [|_]; [lia|].
  apply lookup_lt_is_Some. lia.
Qed.

Lemma check_partition_no_mbr (buf : list Z) (part : Z) :
  length buf = 512%nat -> ~ has_mbr_signature buf ->
  check_partition buf part = Some (-1).
Proof.
  intros Hlen Hsig. unfold check_partition, has_mbr_signature in *.
  destruct (buf_at_in_range buf 510) as [b0 Hb0]; [lia|].
  destruct (buf_at_in_range buf 511) as [b1 Hb1]; [lia|].
  change 0x01FE with 510. change 0x1FF with 511.
  rewrite Hb0, Hb1 in *. simpl.
  destruct (Z.eqb_spec b0 0x55) as [->|]; simpl; [|reflexivity].
  destruct (Z.eqb_spec b1 0xAA) as [->|]; simpl; [|reflexivity].
  exfalso. apply Hsig. split; reflexivity.
Qed.

Lemma check_partition_mbr (buf : list Z) (part t : Z) :
  has_mbr_signature buf -> slot_type buf part = Some t ->
  check_partition buf part = Some (if t =? 0 then -1 else 0).
Proof.
  intros [Hb0 Hb1] Ht. unfold check_partition, slot_type in *.
  change 0x01FE with 510. change 0x1FF with 511.
  rewrite Hb0. simpl. rewrite Hb1. simpl.
  replace (16 * part + 0x01BE + 4) with (446 + 16 * part + 4) by lia.
  rewrite Ht. simpl. by destruct (t =? 0).
Qed.

(** C3, as amended.  On a 512-byte sector and a slot 0-3 the scan always
    answers, and its answer is -1 when the signature bytes 0x55 0xAA are not
    at offsets 510-511, -1 again when they are and the type byte of the slot
    is zero, and 0 when they are and the type byte is not zero: a missing MBR
    and an empty slot give the same result. *)
Theorem check_partition_results (buf : list Z) (part : Z) :
  length buf = 512%nat -> 0 <= part <= 3 ->
  exists t, slot_type buf part = Some t /\
    (~ has_mbr_signature buf -> check_partition buf part = Some (-1)) /\
    (has_mbr_signature buf -> t = 0 -> check_partition buf part = Some (-1)) /\
    (has_mbr_signature buf -> t <> 0 -> check_partition buf part = Some 0).
Proof.
  intros Hlen Hpart.
  destruct (buf_at_in_range buf (446 + 16 * part + 4)) as [t Ht]; [lia|].
  exists t. split; [exact Ht|]. split; [|split].
  - intros Hsig. by apply check_partition_no_mbr.
  - intros Hsig ->. by rewrite (check_partition_mbr buf part 0).
  - intros Hsig Hne. rewrite (check_partition_mbr buf part t) by done.
    destruct (Z.eqb_spec t 0); [done|reflexivity].
Qed.

Lemma check_partition_results_witness :
  exists t, slot_type empty_mbr 2 = Some t /\
    (~ has_mbr_signature empty_mbr -> check_partition empty_mbr 2 = Some (-1)) /\
    (has_mbr_signature empty_mbr -> t = 0 -> check_partition empty_mbr 2 = Some (-1)) /\
    (has_mbr_signature empty_mbr -> t <> 0 -> check_partition empty_mbr 2 = Some 0).
Proof. apply (check_partition_results empty_mbr 2); [reflexivity | lia]. Defined.

(** C3, as stated, fails: a sector of zeros has no signature, [empty_mbr] has
    the signature and a zero type byte in slot 0, and the scan returns the
    same value for both. *)
Lemma check_partition_no_mbr_same_as_empty :
  length blank_sector = 512%nat /\ length empty_mbr = 512%nat /\
  ~ has_mbr_signature blank_sector /\
  has_mbr_signature empty_mbr /\ slot_type empty_mbr 0 = Some 0 /\
  check_partition blank_sector 0 = Some (-1) /\
  check_partition empty_mbr 0 = Some (-1) /\
  check_partition blank_sector 0 = check_partition empty_mbr 0.
Proof.
  repeat split; try reflexivity.
  intros [H _]. vm_compute in H. discriminate H.
Qed.

Lemma is_fat_partition_cases (t : Z) :
  (t = 0x04 \/ t = 0x06 -> is_fat_partition t = 16) /\
  (t = 0x0B \/ t = 0x0C -> is_fat_partition t = 32) /\
  (t <> 0x04 -> t <> 0x06 -> t <> 0x0B -> t <> 0x0C -> is_fat_partition t = 0).
Proof.
  repeat split.
  - intros [-> | ->]; reflexivity.
  - intros [-> | ->]; reflexivity.
  - intros H4 H6 HB HC. unfold is_fat_partition.
    destruct t as [|p|p]; try reflexivity.
    repeat (first [reflexivity | congruence | destruct p as [p|p|]]).
Qed.

End ScannerFacts.

(** ** Properties of the mount registry *)

Section RegistryFacts.
Context {HC : HostConsts} {ET : EngineTypes} {HO : Host}.

Lemma mounted_at_registered (tbl : list fatfs_mnt_t) (mp : string) (i : nat) (m : fatfs_mnt_t) :
  (i < MAX_FAT_MOUNTS)%nat -> tbl !! i = Some m ->
  Is_true (mounted_at mp m) <-> registered tbl mp i.
Proof.
  intros Hi Hm. unfold mounted_at, registered. split.
  - destruct (mnt_vfsh m) as [v|] eqn:Hv; [|intros []].
    intros Heq. apply Is_true_true, String.eqb_eq in Heq.
    split; [exact Hi|]. exists m, v. done.
  - intros (_ & m' & v & Hm' & Hv & Hp).
    rewrite Hm in Hm'. injection Hm' as <-. rewrite Hv.
    apply Is_true_true, String.eqb_eq. done.
Qed.

Lemma find_mount_hit (tbl : list fatfs_mnt_t) (mp : string) (i : nat) :
  registered tbl mp i ->
  (forall j, (j < i)%nat -> ~ registered tbl mp j) ->
  find_mount mp tbl = Some i.
Proof.
  intros Hreg Hmin. pose proof Hreg as (Hi & m & v & Hm & _).
  unfold find_mount.
  assert (Hf : list_find (fun m => Is_true (mounted_at mp m)) (take MAX_FAT_MOUNTS tbl)
               = Some (i, m)).
  { apply list_find_Some. split; [|split].
    - by rewrite lookup_take_lt.
    - by apply (mounted_at_registered tbl mp i).
    - intros j y Hy Hji Hmt. apply (Hmin j Hji).
      apply lookup_take_Some in Hy as [Hy Hj].
      by apply (mounted_at_registered tbl mp j y). }
  by rewrite Hf.
Qed.

Lemma find_mount_miss (tbl : list fatfs_mnt_t) (mp : string) :
  (forall i, ~ registered tbl mp i) -> find_mount mp tbl = None.
Proof.
  intros Hnone. unfold find_mount.
  destruct (list_find _ _) as [[i m]|] eqn:Hf; [|done].
  apply list_find_Some in Hf as (Hm & Hmt & _).
  apply lookup_take_Some in Hm as [Hm Hi].
  exfalso. apply (Hnone i). by apply (mounted_at_registered tbl mp i m).
Qed.

Lemma find_mount_registered (tbl : list fatfs_mnt_t) (mp : string) (i : nat) :
  find_mount mp tbl = Some i -> registered tbl mp i.
Proof.
  unfold find_mount. destruct (list_find _ _) as [[i' m]|] eqn:Hf; [|done].
  simpl. intros [= ->].
  apply list_find_Some in Hf as (Hm & Hmt & _).
  apply lookup_take_Some in Hm as [Hm Hi].
  by apply (mounted_at_registered tbl mp i m).
Qed.

(** C8.  [fs_fat_is_mounted] changes nothing and returns the index of the
    first slot registered under the path, plus one; whenever some slot is
    registered under the path its result is such a positive number, slot 0
    giving 1; when no slot is registered under the path it returns 0, and
    [fs_fat_unmount] returns -1 with errno ENOENT, all else unchanged. *)
Theorem is_mounted_and_unmount_miss (mp : string) (w : world) :
  (forall i, registered (fat_mnt w) mp i ->
     (forall j, (j < i)%nat -> ~ registered (fat_mnt w) mp j) ->
     fs_fat_is_mounted mp w = Some (Z.of_nat i + 1, w)) /\
  (forall i, registered (fat_mnt w) mp i ->
     exists k, registered (fat_mnt w) mp k /\ 0 < Z.of_nat k + 1 /\
       fs_fat_is_mounted mp w = Some (Z.of_nat k + 1, w)) /\
  ((forall i, ~ registered (fat_mnt w) mp i) ->
     fs_fat_is_mounted mp w = Some (0, w) /\
     fs_fat_unmount mp w = Some (-1, set_host (mk_hst ENOENT (h_sys (host w))) w)).
Proof.
  split; [|split].
  - intros i Hreg Hmin. unfold fs_fat_is_mounted.
    unfold mbind, M_bind, bindM, gets. simpl.
    by rewrite (find_mount_hit _ _ _ Hreg Hmin).
  - intros i Hreg. unfold fs_fat_is_mounted.
    unfold mbind, M_bind, bindM, gets. simpl.
    destruct (find_mount mp (fat_mnt w)) as [k|] eqn:Hf.
    + exists k. split; [by apply find_mount_registered|]. split; [lia|done].
    + exfalso. unfold find_mount in Hf.
      destruct (list_find _ _) as [[k m]|] eqn:Hl; [done|].
      destruct Hreg as (Hi & m & v & Hm & Hv & Hp).
      eapply list_find_None in Hl. rewrite Forall_forall in Hl.
      apply (Hl m).
      * apply list_elem_of_lookup. exists i. by rewrite lookup_take_lt.
      * apply (mounted_at_registered (fat_mnt w) mp i m Hi Hm).
        split; [done|]. by exists m, v.
  - intros Hnone. unfold fs_fat_is_mounted, fs_fat_unmount.
    unfold mbind, M_bind, bindM, gets, set_errno, modify. simpl.
    by rewrite (find_mount_miss _ _ Hnone).
Qed.

End RegistryFacts.

Lemma is_mounted_and_unmount_miss_witness :
  let w := Sim.boot (Sim.pool_with fatfs_zero)
             (Sim.mounts_with (Sim.volume None None)) ∅ (Sim.machine 0 0 0 0) in
  fs_fat_is_mounted (HC := Sim.consts 0x0f false) "/sd" w = Some (1, w) /\
  fs_fat_is_mounted (HC := Sim.consts 0x0f false) "/cd" w = Some (0, w) /\
  fs_fat_unmount (HC := Sim.consts 0x0f false) "/cd" w
    = Some (-1, set_host (mk_hst 2 (h_sys (host w))) w).
Proof.
  intros w.
  destruct (is_mounted_and_unmount_miss (HC := Sim.consts 0x0f false) "/sd" w)
    as (Hhit & _ & _).
  destruct (is_mounted_and_unmount_miss (HC := Sim.consts 0x0f false) "/cd" w)
    as (_ & _ & Hmiss).
  split; [|apply Hmiss].
  - apply (Hhit 0%nat).
    + split; [vm_compute; lia|].
      eexists _, _. repeat split; reflexivity.
    + intros j Hj. lia.
  - intros i (Hi & m & v & Hm & Hv & Hp).
    change (@MAX_FAT_MOUNTS (Sim.consts 0x0f false)) with 4%nat in Hi.
    destruct i as [|[|[|[|i]]]]; try lia;
      simpl in Hm; injection Hm as <-; simpl in Hv; try discriminate Hv.
    injection Hv as <-. simpl in Hp. discriminate Hp.
Defined.

(** ** Properties of the block device router *)

Section RouterFacts.
Context {HC : HostConsts} {ET : EngineTypes} {HO : Host}.

Lemma FAT_GET_MOUNT_mounted (w : world) (pdrv : Z) (mnt : fatfs_mnt_t) (pio : N)
    (body : fatfs_mnt_t -> N -> M Z) :
  0 <= pdrv < 256 -> pdrv < Z.of_nat MAX_FAT_MOUNTS ->
  fat_mnt w !! Z.to_nat pdrv = Some mnt -> mnt_dev mnt = Some pio ->
  FAT_GET_MOUNT pdrv body w = body mnt pio w.
Proof.
  intros Hb Hlt Hm Hd. unfold FAT_GET_MOUNT.
  rewrite (Z.mod_small pdrv 256) by lia.
  destruct (Z.ltb_spec pdrv (Z.of_nat MAX_FAT_MOUNTS)); [|lia].
  unfold mbind, M_bind, bindM, get_mnt. rewrite Hm, Hd. reflexivity.
Qed.

Lemma disk_result_total (rv : Z) (w : world) :
  exists r, disk_result rv w = Some (r, w).
Proof.
  unfold disk_result. destruct (rv <? 0); eexists; reflexivity.
Qed.

Lemma disk_read_run (w : world) (mnt : fatfs_mnt_t) (pio dev : N)
    (buff sector count dest : Z) :
  disk_read_route mnt pio buff count w = Some ((dev, dest), w) ->
  exists r w',
    (r ← disk_read_route mnt pio buff count;
     rv ← call (Ev_read_blocks r.1 sector count r.2) (bd_read_blocks r.1 sector count r.2);
     (if FATFS_USE_DMA_BUF && negb (r.2 =? buff) then
        h ← gets host;
        call (Ev_memcpy buff r.2 (Z.shiftl count (l_block_size r.1 h)))
             (memcpy buff r.2 (Z.shiftl count (l_block_size r.1 h)))
      else mret tt);;
     disk_result rv) w = Some (r, w') /\
    calls_made w w'
      (Ev_read_blocks dev sector count dest ::
       if FATFS_USE_DMA_BUF && negb (dest =? buff)
       then [Ev_memcpy buff dest
               (Z.shiftl count
                  (l_block_size dev (bd_read_blocks dev sector count dest (host w)).2))]
       else []).
Proof.
  intros Hroute. unfold calls_made.
  unfold mbind, M_bind, bindM at 1. rewrite Hroute. simpl.
  unfold bindM at 1. unfold call at 1.
  destruct (bd_read_blocks dev sector count dest (host w)) as [rv h'] eqn:Hrd.
  simpl. unfold bindM at 1.
  destruct (FATFS_USE_DMA_BUF && negb (dest =? buff)).
  - unfold bindM, gets, call. simpl.
    destruct (memcpy _ _ _ h') as [[] h''].
    destruct (disk_result_total rv
      (set_host h'' (set_trace ((trace w ++ [Ev_read_blocks dev sector count dest]) ++
         [Ev_memcpy buff dest (Z.shiftl count (l_block_size dev h'))])
         (set_host h' (set_trace (trace w ++ [Ev_read_blocks dev sector count dest]) w)))))
      as [r Hr].
    exists r. eexists. split; [exact Hr|]. simpl. by rewrite <- app_assoc.
  - unfold mret, M_ret, retM.
    destruct (disk_result_total rv
      (set_host h' (set_trace (trace w ++ [Ev_read_blocks dev sector count dest]) w)))
      as [r Hr].
    exists r. eexists. split; [exact Hr|]. reflexivity.
Qed.

(** The routes of a transfer, for either setting of the build option
    FATFS_USE_DMA_BUF.  On a mounted drive: a write makes exactly one device
    call, to the primary device with the caller's buffer.  A read makes
    exactly one device call: to the DMA device with the caller's buffer when
    the request has more than one sector, a DMA device is registered and the
    buffer is 32-byte aligned; to the DMA device with the scratch buffer of
    the volume, followed by a copy to the caller's buffer, when the DMA
    scratch buffer is compiled in and an unaligned request of more than one
    sector and at most one cluster meets a registered DMA device; and to the
    primary device with the caller's buffer in every other case. *)
Lemma disk_routing (w : world) (pdrv buff sector count : Z)
    (mnt : fatfs_mnt_t) (pio : N) :
  0 <= pdrv < 256 -> pdrv < Z.of_nat MAX_FAT_MOUNTS ->
  fat_mnt w !! Z.to_nat pdrv = Some mnt -> mnt_dev mnt = Some pio ->
  (exists r w', disk_write pdrv buff sector count w = Some (r, w') /\
     calls_made w w' [Ev_write_blocks pio sector count buff]) /\
  (forall dma, mnt_dev_dma mnt = Some dma -> 1 < count -> Z.land buff 31 = 0 ->
     exists r w', disk_read pdrv buff sector count w = Some (r, w') /\
       calls_made w w' [Ev_read_blocks dma sector count buff]) /\
  (forall dma fs, mnt_dev_dma mnt = Some dma -> 1 < count -> Z.land buff 31 <> 0 ->
     FATFS_USE_DMA_BUF = true -> mnt_fs mnt = Some fs ->
     count <= FATFS_csize fs (host w) ->
     let scratch := addr_of (mnt_dmabuf mnt) in
     exists r w', disk_read pdrv buff sector count w = Some (r, w') /\
       calls_made w w'
         (Ev_read_blocks dma sector count scratch ::
          if negb (scratch =? buff)
          then [Ev_memcpy buff scratch
                  (Z.shiftl count
                     (l_block_size dma (bd_read_blocks dma sector count scratch (host w)).2))]
          else [])) /\
  (mnt_dev_dma mnt = None \/ count <= 1 \/
   (Z.land buff 31 <> 0 /\
    (FATFS_USE_DMA_BUF = false \/
     exists fs, mnt_fs mnt = Some fs /\ FATFS_csize fs (host w) < count)) ->
   exists r w', disk_read pdrv buff sector count w = Some (r, w') /\
     calls_made w w' [Ev_read_blocks pio sector count buff]).
Proof.
  intros Hb Hlt Hm Hd. repeat split.
  - unfold disk_write. rewrite (FAT_GET_MOUNT_mounted w pdrv mnt pio) by done.
    unfold mbind, M_bind, bindM, call.
    destruct (bd_write_blocks pio sector count buff (host w)) as [rv h'].
    destruct (disk_result_total rv
      (set_host h' (set_trace (trace w ++ [Ev_write_blocks pio sector count buff]) w)))
      as [r Hr].
    exists r. eexists. split; [exact Hr|]. reflexivity.
  - intros dma Hdma Hcnt Hal.
    unfold disk_read. rewrite (FAT_GET_MOUNT_mounted w pdrv mnt pio) by done.
    destruct (disk_read_run w mnt pio dma buff sector count buff) as (r & w' & Hrun & Hev).
    { unfold disk_read_route. rewrite Hdma.
      destruct (Z.ltb_spec 1 count); [|lia]. rewrite Hal. reflexivity. }
    exists r, w'. split; [exact Hrun|].
    rewrite Z.eqb_refl, andb_false_r in Hev. exact Hev.
  - intros dma fs Hdma Hcnt Hal Hbuf Hfs Hcs scratch.
    unfold disk_read. rewrite (FAT_GET_MOUNT_mounted w pdrv mnt pio) by done.
    destruct (disk_read_run w mnt pio dma buff sector count scratch) as (r & w' & Hrun & Hev).
    { unfold disk_read_route. rewrite Hdma.
      destruct (Z.ltb_spec 1 count); [|lia].
      destruct (Z.eqb_spec (Z.land buff 31) 0); [done|].
      rewrite Hbuf, Hfs. unfold mbind, M_bind, bindM, deref, gets, mret, M_ret, retM.
      destruct (Z.leb_spec count (FATFS_csize fs (host w))); [reflexivity|lia]. }
    exists r, w'. split; [exact Hrun|].
    rewrite Hbuf in Hev. exact Hev.
  - intros Hpio.
    unfold disk_read. rewrite (FAT_GET_MOUNT_mounted w pdrv mnt pio) by done.
    destruct (disk_read_run w mnt pio pio buff sector count buff) as (r & w' & Hrun & Hev).
    { unfold disk_read_route.
      destruct (mnt_dev_dma mnt) as [dma|]; [|reflexivity].
      destruct (Z.ltb_spec 1 count); [|reflexivity].
      destruct Hpio as [Hpio|[Hpio|[Hal Hpio]]]; [done|lia|].
      destruct (Z.eqb_spec (Z.land buff 31) 0); [done|].
      destruct Hpio as [->|(fs & Hfs & Hcs)]; [reflexivity|].
      destruct FATFS_USE_DMA_BUF; [|reflexivity].
      rewrite Hfs. unfold mbind, M_bind, bindM, deref, gets, mret, M_ret, retM.
      destruct (Z.leb_spec count (FATFS_csize fs (host w))); [lia|reflexivity]. }
    exists r, w'. split; [exact Hrun|].
    rewrite Z.eqb_refl, andb_false_r in Hev. exact Hev.
Qed.

(** C2.  The sources do not define FATFS_USE_DMA_BUF, so the blocks under
    [#ifdef FATFS_USE_DMA_BUF] are not compiled.  Then, on a mounted drive,
    a read makes exactly one device call, with the caller's buffer and
    nothing copied afterwards: to the DMA device if the request has more than
    one sector, a DMA device is registered for the volume and the buffer is
    32-byte aligned, and to the primary device in every other case.  A write
    makes exactly one device call, to the primary device with the caller's
    buffer, whatever the count and the alignment. *)
Theorem disk_routing_as_built (w : world) (pdrv buff sector count : Z)
    (mnt : fatfs_mnt_t) (pio : N) :
  FATFS_USE_DMA_BUF = false ->
  0 <= pdrv < 256 -> pdrv < Z.of_nat MAX_FAT_MOUNTS ->
  fat_mnt w !! Z.to_nat pdrv = Some mnt -> mnt_dev mnt = Some pio ->
  (exists r w' dev,
     disk_read pdrv buff sector count w = Some (r, w') /\
     calls_made w w' [Ev_read_blocks dev sector count buff] /\
     ((mnt_dev_dma mnt = Some dev /\ 1 < count /\ Z.land buff 31 = 0) \/
      (dev = pio /\ (mnt_dev_dma mnt = None \/ count <= 1 \/ Z.land buff 31 <> 0)))) /\
  (exists r w',
     disk_write pdrv buff sector count w = Some (r, w') /\
     calls_made w w' [Ev_write_blocks pio sector count buff]).
Proof.
  intros Hoff Hb Hlt Hm Hd.
  destruct (disk_routing w pdrv buff sector count mnt pio Hb Hlt Hm Hd)
    as (Hwr & Hdma & _ & Hpio).
  split; [|exact Hwr].
  destruct (mnt_dev_dma mnt) as [dma|] eqn:Hdev.
  - destruct (Z.lt_ge_cases 1 count) as [Hcnt|Hcnt].
    + destruct (Z.eq_dec (Z.land buff 31) 0) as [Hal|Hal].
      * destruct (Hdma dma eq_refl Hcnt Hal) as (r & w' & Hrun & Hev).
        exists r, w', dma. split; [exact Hrun|]. split; [exact Hev|]. by left.
      * destruct Hpio as (r & w' & Hrun & Hev); [right; right; split; [done|by left]|].
        exists r, w', pio. split; [exact Hrun|]. split; [exact Hev|].
        right. split; [done|]. by right; right.
    + destruct Hpio as (r & w' & Hrun & Hev); [right; left; lia|].
      exists r, w', pio. split; [exact Hrun|]. split; [exact Hev|].
      right. split; [done|]. right; left; lia.
  - destruct Hpio as (r & w' & Hrun & Hev); [by left|].
    exists r, w', pio. split; [exact Hrun|]. split; [exact Hev|].
    right. split; [done|]. by left.
Qed.

End RouterFacts.

Lemma disk_routing_as_built_witness :
  let w := Sim.boot (Sim.pool_with fatfs_zero)
             (Sim.mounts_with (Sim.volume (Some 0x200%N) None)) ∅ (Sim.machine 0 0 0 0) in
  (exists r w', disk_read (HC := Sim.consts 0x0f false) 0 0x2000 64 8 w = Some (r, w') /\
     calls_made w w' [Ev_read_blocks 0x200 64 8 0x2000]) /\
  (exists r w', disk_read (HC := Sim.consts 0x0f false) 0 0x2001 64 2 w = Some (r, w') /\
     calls_made w w' [Ev_read_blocks 0x100 64 2 0x2001]) /\
  (exists r w', disk_write (HC := Sim.consts 0x0f false) 0 0x2000 64 8 w = Some (r, w') /\
     calls_made w w' [Ev_write_blocks 0x100 64 8 0x2000]).
Proof.
  intros w.
  destruct (disk_routing_as_built (HC := Sim.consts 0x0f false) w 0 0x2000 64 8
              (Sim.volume (Some 0x200%N) None) 0x100%N)
    as ((r1 & w1 & dev1 & Hrun1 & Hev1 & Hdev1) & Hwr);
    [reflexivity | lia | vm_compute; reflexivity | reflexivity | reflexivity |].
  destruct (disk_routing_as_built (HC := Sim.consts 0x0f false) w 0 0x2001 64 2
              (Sim.volume (Some 0x200%N) None) 0x100%N)
    as ((r2 & w2 & dev2 & Hrun2 & Hev2 & Hdev2) & _);
    [reflexivity | lia | vm_compute; reflexivity | reflexivity | reflexivity |].
  split; [|split; [|exact Hwr]].
  - exists r1, w1. split; [exact Hrun1|].
    destruct Hdev1 as [(Hd & _)|(_ & [Hd|[Hd|Hd]])];
      [by injection Hd as <- | discriminate Hd | lia | by contradict Hd].
  - exists r2, w2. split; [exact Hrun2|].
    destruct Hdev2 as [(_ & _ & Hal)|(-> & _)]; [discriminate Hal|exact Hev2].
Defined.

(** Remark.  A build that defines FATFS_USE_DMA_BUF routes differently: a
    read of two sectors into the unaligned buffer 0x2001, on a volume with
    the DMA device 0x200 and the scratch buffer 0x7000, then goes to the DMA
    device with the scratch buffer, not to the primary device 0x100 with the
    caller's buffer. *)
Lemma disk_read_unaligned_uses_scratch_buffer :
  let w := Sim.boot (Sim.pool_with fatfs_zero)
             (Sim.mounts_with (Sim.volume (Some 0x200%N) (Some 0x7000%N))) ∅
             (Sim.machine 0 0 0 0) in
  Z.land 0x2001 31 <> 0 /\
  (fun r => (r.1, trace r.2)) <$> disk_read (HC := Sim.consts 0x0f true) 0 0x2001 64 2 w
    = Some (0, [Ev_read_blocks 0x200 64 2 0x7000; Ev_memcpy 0x2001 0x7000 1024]) /\
  (fun r => (r.1, trace r.2)) <$> disk_read (HC := Sim.consts 0x0f true) 0 0x2001 64 2 w
    <> Some (0, [Ev_read_blocks 0x100 64 2 0x2001]).
Proof.
  intros w. split; [|split].
  - vm_compute. discriminate.
  - vm_compute. reflexivity.
  - vm_compute. discriminate.
Qed.

(** ** Running the operations on one descriptor *)

Section RunLemmas.
Context {HC : HostConsts} {ET : EngineTypes} {HO : Host}.

Lemma bindM_run {A B} (m : M A) (k : A -> M B) (w w1 : world) (a : A) :
  m w = Some (a, w1) -> bindM m k w = k a w1.
Proof. intros H. unfold bindM. by rewrite H. Qed.

Lemma at_fd_start (w : world) (fd : nat) (sf : fatfs_t) :
  fh w !! fd = Some sf -> w = at_fd w fd sf (cl_heap w) (host w) [].
Proof.
  intros Hsf. unfold at_fd. rewrite list_insert_id by done.
  rewrite app_nil_r. by destruct w.
Qed.

Lemma run_from_start {A} (m : M A) (w : world) (fd : nat) (sf : fatfs_t) :
  fh w !! fd = Some sf -> m w = m (at_fd w fd sf (cl_heap w) (host w) []).
Proof. intros Hsf. by rewrite <- (at_fd_start w fd sf Hsf). Qed.

Lemma at_fd_again (w : world) (fd : nat) (sf sf' : fatfs_t)
    (hp hp' : gmap N (list Z)) (h h' : hst) (evs evs' : list event) :
  at_fd (at_fd w fd sf hp h evs) fd sf' hp' h' evs' = at_fd w fd sf' hp' h' (evs ++ evs').
Proof.
  unfold at_fd. simpl. by rewrite list_insert_insert_eq, app_assoc.
Qed.

Section Steps.
Variables (w : world) (fd : nat).
Hypothesis Hfd : (fd < length (fh w))%nat.

Lemma get_fh_at sf hp h evs :
  get_fh fd (at_fd w fd sf hp h evs) = Some (sf, at_fd w fd sf hp h evs).
Proof. unfold get_fh, at_fd. simpl. by rewrite list_lookup_insert_eq. Qed.

Lemma upd_fh_at (f : fatfs_t -> fatfs_t) sf hp h evs :
  upd_fh fd f (at_fd w fd sf hp h evs) = Some (tt, at_fd w fd (f sf) hp h evs).
Proof.
  unfold upd_fh, at_fd. simpl. rewrite list_lookup_insert_eq by done.
  unfold set_fh. simpl. by rewrite list_insert_insert_eq.
Qed.

Lemma get_mnt_at (i : nat) (m : fatfs_mnt_t) sf hp h evs :
  fat_mnt w !! i = Some m ->
  get_mnt i (at_fd w fd sf hp h evs) = Some (m, at_fd w fd sf hp h evs).
Proof. intros Hm. unfold get_mnt, at_fd. simpl. by rewrite Hm. Qed.

Lemma set_errno_at (e : Z) sf hp h evs :
  set_errno e (at_fd w fd sf hp h evs) = Some (tt, at_fd w fd sf hp (mk_hst e (h_sys h)) evs).
Proof. reflexivity. Qed.

Lemma call_at {A} (ev : event) (op : hst -> A * hst) sf hp h evs :
  call ev op (at_fd w fd sf hp h evs)
  = Some ((op h).1, at_fd w fd sf hp (op h).2 (evs ++ [ev])).
Proof.
  unfold call, at_fd. simpl. destruct (op h) as [a h']. simpl.
  by rewrite app_assoc.
Qed.

Lemma set_heap_at (f : gmap N (list Z) -> gmap N (list Z)) sf hp h evs :
  modify (fun w => set_cl_heap (f (cl_heap w)) w) (at_fd w fd sf hp h evs)
  = Some (tt, at_fd w fd sf (f hp) h evs).
Proof. reflexivity. Qed.

Lemma fail_rc_at (rc : FRESULT) sf hp h evs :
  fail_rc rc (at_fd w fd sf hp h evs)
  = Some (-1, at_fd w fd sf hp (mk_hst (fatfs_set_errno rc (h_errno h)) (h_sys h)) evs).
Proof. reflexivity. Qed.

Lemma cltbl_load_at (t : option (list Z)) sf hp h evs :
  tbl_of sf hp = Some t ->
  cltbl_load fd (at_fd w fd sf hp h evs) = Some (t, at_fd w fd sf hp h evs).
Proof.
  unfold tbl_of, cltbl_load. intros Ht.
  unfold mbind, M_bind. rewrite (bindM_run _ _ _ _ _ (get_fh_at _ _ _ _)).
  destruct (fil_cltbl (sf_fil sf)) as [| |a].
  - by injection Ht as <-.
  - by injection Ht as <-.
  - unfold bindM, gets, deref. simpl.
    destruct (hp !! a) as [t'|]; [|done]. by injection Ht as <-.
Qed.

Lemma cltbl_store_at (p : cltbl_ptr) (t : list Z) sf hp h evs :
  cltbl_store fd p t (at_fd w fd sf hp h evs)
  = Some (tt, match p with
              | CL_NULL => at_fd w fd sf hp h evs
              | CL_INLINE => at_fd w fd (set_lktbl t sf) hp h evs
              | CL_HEAP a => at_fd w fd sf (<[a := t]> hp) h evs
              end).
Proof.
  unfold cltbl_store. destruct p; [reflexivity | apply upd_fh_at | reflexivity].
Qed.

(** [f_lseek] on the slot: the FIL and the link map go to the engine and
    come back. *)
Lemma do_f_lseek_at (ofs : Z) (t : option (list Z)) sf hp h evs :
  tbl_of sf hp = Some t ->
  let r := f_lseek (sf_fil sf) t ofs h in
  let ev := Ev_f_lseek fd ofs (fil_cltbl (sf_fil sf)) t in
  do_f_lseek fd ofs (at_fd w fd sf hp h evs)
  = Some (r.1.1.1,
          match fil_cltbl (sf_fil sf) with
          | CL_NULL => at_fd w fd (set_fil r.1.1.2 sf) hp r.2 (evs ++ [ev])
          | CL_INLINE => at_fd w fd (set_lktbl r.1.2 (set_fil r.1.1.2 sf)) hp r.2 (evs ++ [ev])
          | CL_HEAP a => at_fd w fd (set_fil r.1.1.2 sf) (<[a := r.1.2]> hp) r.2 (evs ++ [ev])
          end).
Proof.
  intros Ht r ev. unfold do_f_lseek.
  unfold mbind, M_bind. rewrite (bindM_run _ _ _ _ _ (get_fh_at _ _ _ _)).
  rewrite (bindM_run _ _ _ _ _ (cltbl_load_at t _ _ _ _ Ht)).
  rewrite (bindM_run _ _ _ _ _ (call_at _ _ _ _ _ _)).
  fold r. fold ev.
  rewrite (bindM_run _ _ _ _ _ (upd_fh_at _ _ _ _ _)).
  rewrite (bindM_run _ _ _ _ _ (cltbl_store_at _ _ _ _ _ _)).
  unfold mret, M_ret, retM. by destruct (fil_cltbl (sf_fil sf)).
Qed.

End Steps.
End RunLemmas.

(** ** Properties of the link map builder *)

Ltac astep :=
  unfold mbind, M_bind, mret, M_ret; lazy beta iota;
  first
    [ erewrite (bindM_run (get_fh _)) by (apply get_fh_at; assumption)
    | erewrite (bindM_run (upd_fh _ _)) by (apply upd_fh_at; assumption)
    | erewrite (bindM_run (get_mnt _)) by (apply get_mnt_at; eassumption)
    | erewrite (bindM_run (call _ _)) by (apply call_at)
    | erewrite (bindM_run (set_errno _)) by (apply set_errno_at)
    | erewrite (bindM_run (modify _)) by (apply set_heap_at)
    | erewrite (bindM_run (fail_rc _)) by (apply fail_rc_at)
    | erewrite (bindM_run (gets _)) by reflexivity
    | erewrite (bindM_run (retM _)) by reflexivity ].

Ltac slot_simpl :=
  cbn [sf_fil sf_dir sf_type sf_used sf_mode sf_lktbl sf_dent sf_mnt
       set_fil set_dir set_type set_used set_mode set_lktbl set_dent set_mnt
       fil_cltbl fil_fs fil_fptr fil_fsize fil_sclust fil_x set_cltbl].

Ltac bsimpl := rewrite ?Z.eqb_refl; cbn [negb andb orb]; lazy beta iota.

Ltac rc_ok H :=
  match goal with
  | |- context [negb (?x =? FR_OK)] =>
      replace (x =? FR_OK) with true by (symmetry; apply Z.eqb_eq; exact H)
  end;
  bsimpl.

Ltac from_start Hsf :=
  match goal with
  | |- ?m ?w = _ => rewrite (run_from_start m w _ _ Hsf)
  end.

Section LinkmapFacts.
Context {HC : HostConsts} {ET : EngineTypes} {HO : Host}.

Lemma bindM_assoc {A B C} (m : M A) (k1 : A -> M B) (k2 : B -> M C) (w : world) :
  bindM (bindM m k1) k2 w = bindM m (fun a => bindM (k1 a) k2) w.
Proof. unfold bindM. by destruct (m w) as [[a w1]|]. Qed.

Lemma cltbl_first_at (w : world) (fd : nat) (Hfd : (fd < length (fh w))%nat)
    sf hp h evs (t : list Z) (v : Z) :
  tbl_of sf hp = Some (Some t) -> t !! 0%nat = Some v ->
  cltbl_first fd (at_fd w fd sf hp h evs) = Some (v, at_fd w fd sf hp h evs).
Proof.
  intros Ht Hv. unfold cltbl_first.
  unfold mbind, M_bind.
  rewrite (bindM_run _ _ _ _ _ (cltbl_load_at w fd Hfd _ _ _ _ _ Ht)).
  unfold bindM, deref, retM. simpl. by rewrite Hv.
Qed.

Lemma cltbl_set_first_at (w : world) (fd : nat) (Hfd : (fd < length (fh w))%nat)
    sf hp h evs (a : N) (x : Z) (t : list Z) (v : Z) :
  fil_cltbl (sf_fil sf) = CL_HEAP a -> hp !! a = Some (x :: t) ->
  cltbl_set_first fd v (at_fd w fd sf hp h evs)
  = Some (tt, at_fd w fd sf (<[a := v :: t]> hp) h evs).
Proof.
  intros Hcl Ha. unfold cltbl_set_first.
  astep.
  erewrite (bindM_run (cltbl_load _)).
  2:{ apply cltbl_load_at; [assumption|]. unfold tbl_of. rewrite Hcl, Ha. reflexivity. }
  unfold bindM at 1. unfold deref, retM.
  rewrite cltbl_store_at by assumption. by rewrite Hcl.
Qed.

Lemma free_cltbl_at (w : world) (fd : nat) (Hfd : (fd < length (fh w))%nat)
    sf hp h evs (a : N) :
  fil_cltbl (sf_fil sf) = CL_HEAP a ->
  free_cltbl fd (at_fd w fd sf hp h evs)
  = Some (tt, at_fd w fd sf (delete a hp) (free a h).2 (evs ++ [Ev_free a])).
Proof.
  intros Hcl. unfold free_cltbl. astep. rewrite Hcl. astep.
  apply set_heap_at.
Qed.

Lemma linkmap_at (w : world) (fd : nat) (Hfd : (fd < length (fh w))%nat) sf hp h evs :
  lseek_keeps_cltbl ->
  fil_cltbl (sf_fil sf) = CL_NULL ->
  let first := Ev_f_lseek fd CREATE_LINKMAP CL_INLINE (Some lktbl_fresh) in
  let r1 := f_lseek (set_cltbl CL_INLINE (sf_fil sf)) (Some lktbl_fresh) CREATE_LINKMAP h in
  let rc1 := r1.1.1.1 in
  (rc1 <> FR_NOT_ENOUGH_CORE ->
     exists sf',
       fat_create_linkmap fd (at_fd w fd sf hp h evs)
       = Some (rc1, at_fd w fd sf' hp r1.2 (evs ++ [first])) /\
       fil_cltbl (sf_fil sf') = (if rc1 =? FR_OK then CL_INLINE else CL_NULL) /\
       sf_lktbl sf' = r1.1.2 /\ sf_used sf' = sf_used sf) /\
  (rc1 = FR_NOT_ENOUGH_CORE -> forall lms cells, r1.1.2 = lms :: cells ->
     let alloc := Ev_calloc lms 4 in
     let p := calloc lms 4 r1.2 in
     match p.1 with
     | None =>
         exists sf',
           fat_create_linkmap fd (at_fd w fd sf hp h evs)
           = Some (FR_NOT_ENOUGH_CORE, at_fd w fd sf' hp p.2 (evs ++ [first; alloc])) /\
           fil_cltbl (sf_fil sf') = CL_NULL /\ sf_used sf' = sf_used sf
     | Some a =>
         0 < lms ->
         let blk := lms :: replicate (Z.to_nat lms - 1) 0 in
         let second := Ev_f_lseek fd CREATE_LINKMAP (CL_HEAP a) (Some blk) in
         let r2 := f_lseek (set_cltbl (CL_HEAP a) r1.1.1.2) (Some blk) CREATE_LINKMAP p.2 in
         let rc2 := r2.1.1.1 in
         exists sf' hp' h' evs',
           fat_create_linkmap fd (at_fd w fd sf hp h evs)
           = Some (rc2, at_fd w fd sf' hp' h' (evs ++ evs')) /\
           sf_used sf' = sf_used sf /\
           if rc2 =? FR_OK
           then evs' = [first; alloc; second] /\ fil_cltbl (sf_fil sf') = CL_HEAP a /\
                hp' !! a = Some r2.1.2
           else evs' = [first; alloc; second; Ev_free a] /\
                fil_cltbl (sf_fil sf') = CL_NULL /\ hp' !! a = None
     end).
Proof.
  intros Hkeep Hnull first r1 rc1.
  assert (Hrun : fat_create_linkmap fd (at_fd w fd sf hp h evs)
    = bindM
        (if rc1 =? FR_NOT_ENOUGH_CORE then
           bindM (cltbl_first fd) (fun lms =>
             bindM (call (Ev_calloc lms 4) (calloc lms 4)) (fun p =>
               match p with
               | Some a =>
                   bindM (modify (fun w => set_cl_heap (<[a := replicate (Z.to_nat lms) 0]> (cl_heap w)) w)) (fun _ =>
                   bindM (upd_fh fd (fun sf => set_fil (set_cltbl (CL_HEAP a) (sf_fil sf)) sf)) (fun _ =>
                   bindM (cltbl_set_first fd lms) (fun _ =>
                   bindM (do_f_lseek fd CREATE_LINKMAP) (fun rc =>
                   bindM (if negb (rc =? FR_OK) then free_cltbl fd else retM tt) (fun _ =>
                   retM rc)))))
               | None =>
                   bindM (upd_fh fd (fun sf => set_fil (set_cltbl CL_NULL (sf_fil sf)) sf)) (fun _ => retM rc1)
               end))
         else retM rc1)
        (fun rc => bindM (if negb (rc =? FR_OK) then upd_fh fd detach else retM tt)
                     (fun _ => retM rc))
        (at_fd w fd (set_lktbl r1.1.2 (set_fil r1.1.1.2
                       (set_lktbl lktbl_fresh (set_fil (set_cltbl CL_INLINE (sf_fil sf)) sf))))
           hp r1.2 (evs ++ [first]))).
  { unfold fat_create_linkmap. astep. rewrite Hnull. astep. astep. astep.
    erewrite (bindM_run (do_f_lseek _ _)).
    2:{ apply do_f_lseek_at; [assumption|]. reflexivity. }
    reflexivity. }
  rewrite Hrun. clear Hrun.
  assert (Hcl1 : fil_cltbl r1.1.1.2 = CL_INLINE) by apply Hkeep.
  split.
  - intros Hne. destruct (Z.eqb_spec rc1 FR_NOT_ENOUGH_CORE) as [|_]; [done|].
    astep. destruct (rc1 =? FR_OK) eqn:Hok; simpl negb; lazy iota.
    + astep. eexists. split; [reflexivity|]. simpl. by rewrite Hcl1.
    + astep. eexists. split; [reflexivity|]. done.
  - intros Heq lms cells Htbl alloc p.
    rewrite Heq, Z.eqb_refl.
    rewrite bindM_assoc.
    erewrite (bindM_run (cltbl_first _)).
    2:{ apply (cltbl_first_at w fd Hfd _ _ _ _ r1.1.2 lms).
        - unfold tbl_of. simpl. by rewrite Hcl1.
        - by rewrite Htbl. }
    rewrite bindM_assoc. astep. fold alloc. fold p.
    destruct p.1 as [a|].
    + intros Hlms.
      set (blk := lms :: replicate (Z.to_nat lms - 1) 0).
      set (second := Ev_f_lseek fd CREATE_LINKMAP (CL_HEAP a) (Some blk)).
      set (r2 := f_lseek (set_cltbl (CL_HEAP a) r1.1.1.2) (Some blk) CREATE_LINKMAP p.2).
      set (rc2 := r2.1.1.1).
      rewrite bindM_assoc. astep.
      rewrite bindM_assoc. astep.
      rewrite bindM_assoc.
      erewrite (bindM_run (cltbl_set_first _ _)).
      2:{ apply (cltbl_set_first_at w fd Hfd _ _ _ _ a 0 (replicate (Z.to_nat lms - 1) 0)).
          - reflexivity.
          - rewrite lookup_insert_eq. f_equal.
            destruct (Z.to_nat lms) as [|n] eqn:Hn; [lia|].
            simpl. by rewrite Nat.sub_0_r. }
      rewrite insert_insert_eq. fold blk.
      rewrite bindM_assoc.
      erewrite (bindM_run (do_f_lseek _ _)).
      2:{ apply do_f_lseek_at; [assumption|]. unfold tbl_of. simpl.
          rewrite lookup_insert_eq. reflexivity. }
      simpl fil_cltbl. lazy iota. simpl sf_fil. fold r2. fold second. fold rc2.
      assert (Hcl2 : fil_cltbl r2.1.1.2 = CL_HEAP a) by apply Hkeep.
      rewrite insert_insert_eq.
      destruct (rc2 =? FR_OK) eqn:Hok; simpl negb; lazy iota.
      * eexists _, _, _, _. split.
        { rewrite bindM_assoc. astep. astep. rewrite Hok. simpl negb. astep.
          unfold retM. rewrite <- !app_assoc. reflexivity. }
        split; [reflexivity|]. split; [reflexivity|]. split; [exact Hcl2|].
        apply lookup_insert_eq.
      * eexists _, _, _, _. split.
        { rewrite bindM_assoc.
          erewrite (bindM_run (free_cltbl _)).
          2:{ apply free_cltbl_at; [assumption|]. exact Hcl2. }
          astep. rewrite Hok. simpl negb. astep.
          unfold retM. rewrite <- !app_assoc. reflexivity. }
        split; [reflexivity|]. split; [reflexivity|]. split; [reflexivity|].
        rewrite delete_insert_eq. apply lookup_delete_eq.
    + eexists. split.
      { rewrite bindM_assoc. astep. astep. rewrite Heq.
        change (negb (FR_NOT_ENOUGH_CORE =? FR_OK)) with true. astep.
        unfold retM. rewrite <- !app_assoc. reflexivity. }
      done.
Qed.

(** C1.  On a handle that already has a link map the builder returns FR_OK
    and does nothing, the engine is not called.  Otherwise it attaches the
    inline array with 32 in its first cell and calls the engine's sentinel
    seek once; unless the engine answers FR_NOT_ENOUGH_CORE that is the only
    call, the engine's result is returned, and the link map stays attached
    exactly when the result is FR_OK.  On FR_NOT_ENOUGH_CORE, with [lms] the
    value the engine left in the first cell, one block of [lms] cells is
    requested from calloc; if there is none, no second call is made, the link
    map pointer is NULL and FR_NOT_ENOUGH_CORE is returned; if there is one,
    its first cell is set to [lms] and the engine is called exactly once more
    on it; FR_OK leaves the block attached, any other result frees the block,
    resets the pointer to NULL and is returned. *)
Theorem fat_create_linkmap_protocol (w : world) (fd : nat) (sf : fatfs_t) :
  fh w !! fd = Some sf ->
  lseek_keeps_cltbl ->
  (fil_cltbl (sf_fil sf) <> CL_NULL -> fat_create_linkmap fd w = Some (FR_OK, w)) /\
  (fil_cltbl (sf_fil sf) = CL_NULL ->
   let first := Ev_f_lseek fd CREATE_LINKMAP CL_INLINE (Some lktbl_fresh) in
   let r1 := f_lseek (set_cltbl CL_INLINE (sf_fil sf)) (Some lktbl_fresh)
               CREATE_LINKMAP (host w) in
   let rc1 := r1.1.1.1 in
   (rc1 <> FR_NOT_ENOUGH_CORE ->
      exists w' sf',
        fat_create_linkmap fd w = Some (rc1, w') /\
        calls_made w w' [first] /\
        fh w' !! fd = Some sf' /\
        fil_cltbl (sf_fil sf') = (if rc1 =? FR_OK then CL_INLINE else CL_NULL) /\
        sf_lktbl sf' = r1.1.2) /\
   (rc1 = FR_NOT_ENOUGH_CORE -> forall lms cells, r1.1.2 = lms :: cells ->
      let alloc := Ev_calloc lms 4 in
      let p := calloc lms 4 r1.2 in
      match p.1 with
      | None =>
          exists w' sf',
            fat_create_linkmap fd w = Some (FR_NOT_ENOUGH_CORE, w') /\
            calls_made w w' [first; alloc] /\
            fh w' !! fd = Some sf' /\
            fil_cltbl (sf_fil sf') = CL_NULL
      | Some a =>
          0 < lms ->
          let blk := lms :: replicate (Z.to_nat lms - 1) 0 in
          let second := Ev_f_lseek fd CREATE_LINKMAP (CL_HEAP a) (Some blk) in
          let r2 := f_lseek (set_cltbl (CL_HEAP a) r1.1.1.2) (Some blk)
                      CREATE_LINKMAP p.2 in
          let rc2 := r2.1.1.1 in
          exists w' sf',
            fat_create_linkmap fd w = Some (rc2, w') /\
            fh w' !! fd = Some sf' /\
            if rc2 =? FR_OK
            then calls_made w w' [first; alloc; second] /\
                 fil_cltbl (sf_fil sf') = CL_HEAP a /\
                 cl_heap w' !! a = Some r2.1.2
            else calls_made w w' [first; alloc; second; Ev_free a] /\
                 fil_cltbl (sf_fil sf') = CL_NULL /\
                 cl_heap w' !! a = None
      end)).
Proof.
  intros Hsf Hkeep.
  assert (Hfd : (fd < length (fh w))%nat) by (by eapply lookup_lt_Some).
  split.
  - intros Hcl. unfold fat_create_linkmap, mbind, M_bind, bindM, get_fh.
    rewrite Hsf. by destruct (fil_cltbl (sf_fil sf)).
  - intros Hnull first r1 rc1.
    destruct (linkmap_at w fd Hfd sf (cl_heap w) (host w) [] Hkeep Hnull) as [H1 H2].
    rewrite <- (at_fd_start w fd sf Hsf) in H1, H2.
    split.
    + intros Hne. destruct (H1 Hne) as (sf' & Hrun & Hcl & Htbl & _).
      eexists _, sf'. split; [exact Hrun|]. split; [reflexivity|].
      split; [by apply list_lookup_insert_eq|]. done.
    + intros Heq lms cells Htbl. cbv zeta.
      specialize (H2 Heq lms cells Htbl). cbv zeta in H2.
      subst first r1 rc1. revert H2.
      destruct (calloc lms 4 _).1 as [a|]; intros H2; lazy beta iota in H2 |- *.
      * intros Hlms. specialize (H2 Hlms).
        destruct H2 as (sf' & hp' & h' & evs' & Hrun & Hused & Hres).
        eexists _, sf'. split; [exact Hrun|].
        split; [by apply list_lookup_insert_eq|].
        revert Hres.
        match goal with |- (if ?c then _ else _) -> _ => destruct c end;
          intros (-> & Hcl & Hhp); done.
      * destruct H2 as (sf' & Hrun & Hcl & _).
        eexists _, sf'. split; [exact Hrun|]. split; [reflexivity|].
        split; [by apply list_lookup_insert_eq|]. done.
Qed.

End LinkmapFacts.

Lemma sim_lseek_keeps_cltbl : lseek_keeps_cltbl (HO := Sim.sim_host).
Proof.
  intros fil tbl ofs h. simpl. unfold Sim.lseek.
  destruct (ofs =? 0xFFFFFFFF); [|reflexivity].
  destruct tbl as [[|n cells]|]; try reflexivity.
  by destruct (n <? _).
Qed.

Lemma fat_create_linkmap_protocol_witness :
  let w := Sim.boot (Sim.pool_with (Sim.open_file 0 100000 CL_NULL))
             (Sim.mounts_with (Sim.volume None None)) ∅ (Sim.machine 1 100000 40 FR_OK) in
  exists w' sf',
    fat_create_linkmap (HC := Sim.consts 0x0f false) 0 w = Some (FR_OK, w') /\
    fh w' !! 0%nat = Some sf' /\
    calls_made w w'
      [Ev_f_lseek 0 0xFFFFFFFF CL_INLINE (Some (32 :: replicate 31 0));
       Ev_calloc 40 4;
       Ev_f_lseek 0 0xFFFFFFFF (CL_HEAP 0x1000) (Some (40 :: replicate 39 0))] /\
    fil_cltbl (sf_fil sf') = CL_HEAP 0x1000 /\
    cl_heap w' !! 0x1000%N = Some (40 :: replicate 39 0).
Proof.
  intros w.
  destruct (fat_create_linkmap_protocol (HC := Sim.consts 0x0f false) w 0
              (Sim.open_file 0 100000 CL_NULL) eq_refl sim_lseek_keeps_cltbl)
    as [_ Hbuild].
  destruct (Hbuild eq_refl) as [_ Hretry].
  specialize (Hretry eq_refl 40 (replicate 31 0) eq_refl).
  destruct (Hretry ltac:(lia)) as (w' & sf' & Hrun & Hsf' & Hcalls & Hcl & Hhp).
  exists w', sf'. repeat split; assumption.
Defined.

(** ** Properties of the descriptor guard and of close *)

Section CloseFacts.
Context {HC : HostConsts} {ET : EngineTypes} {HO : Host}.

Lemma FAT_GET_HND_in {A} (hnd : Z) (rv : A) (body : nat -> M A) :
  1 <= hnd <= MAX_FAT_FILES ->
  FAT_GET_HND hnd rv body = body (Z.to_nat (hnd - 1)).
Proof.
  intros Hh. unfold FAT_GET_HND.
  destruct (Z.ltb_spec (-1) (hnd - 1)); [|lia].
  destruct (Z.ltb_spec (hnd - 1) MAX_FAT_FILES); [|lia].
  reflexivity.
Qed.

Lemma FAT_GET_HND_out {A} (hnd : Z) (rv : A) (body : nat -> M A) (w : world) :
  hnd < 1 \/ MAX_FAT_FILES < hnd ->
  FAT_GET_HND hnd rv body w = Some (rv, set_host (mk_hst ENFILE (h_sys (host w))) w).
Proof.
  intros Hh. unfold FAT_GET_HND.
  destruct (Z.ltb_spec (-1) (hnd - 1)); destruct (Z.ltb_spec (hnd - 1) MAX_FAT_FILES);
    try lia; reflexivity.
Qed.

(** C6.  On a descriptor 1..16 whose slot holds a file or a directory,
    [fat_close] always ends with the slot marked free.  For a file it frees
    the link map exactly when the pointer is a calloc'ed block (nothing is
    freed for the inline array or for NULL), then closes the file in the
    engine; for a directory it closes the directory and frees nothing.  The
    result is 0 when the engine close returns FR_OK and -1, with errno
    translated from the engine result, when it does not; the slot is free in
    both cases. *)
Theorem fat_close_releases (w : world) (hnd : Z) (sf : fatfs_t) :
  1 <= hnd <= MAX_FAT_FILES ->
  let fd := Z.to_nat (hnd - 1) in
  fh w !! fd = Some sf ->
  (sf_type sf = STAT_TYPE_FILE ->
     let frees := match fil_cltbl (sf_fil sf) with
                  | CL_HEAP a => [Ev_free a]
                  | CL_NULL | CL_INLINE => []
                  end in
     let h1 := match fil_cltbl (sf_fil sf) with
               | CL_HEAP a => (free a (host w)).2
               | CL_NULL | CL_INLINE => host w
               end in
     let rc := (f_close (sf_fil sf) h1).1.1 in
     exists w' sf',
       fat_close hnd w = Some (if rc =? FR_OK then 0 else -1, w') /\
       fh w' !! fd = Some sf' /\ sf_used sf' = 0 /\
       calls_made w w' (frees ++ [Ev_f_close fd]) /\
       (forall a, fil_cltbl (sf_fil sf) = CL_HEAP a -> cl_heap w' !! a = None) /\
       (fil_cltbl (sf_fil sf) = CL_NULL \/ fil_cltbl (sf_fil sf) = CL_INLINE ->
          cl_heap w' = cl_heap w) /\
       (rc <> FR_OK ->
          errno w' = fatfs_set_errno rc (h_errno (f_close (sf_fil sf) h1).2))) /\
  (sf_type sf <> STAT_TYPE_FILE -> sf_type sf = STAT_TYPE_DIR ->
     let rc := (f_closedir (sf_dir sf) (host w)).1.1 in
     exists w' sf',
       fat_close hnd w = Some (if rc =? FR_OK then 0 else -1, w') /\
       fh w' !! fd = Some sf' /\ sf_used sf' = 0 /\
       calls_made w w' [Ev_f_closedir fd] /\
       cl_heap w' = cl_heap w /\
       (rc <> FR_OK ->
          errno w' = fatfs_set_errno rc (h_errno (f_closedir (sf_dir sf) (host w)).2))).
Proof.
  intros Hh fd Hsf.
  assert (Hfd : (fd < length (fh w))%nat) by (by eapply lookup_lt_Some).
  unfold fat_close. rewrite FAT_GET_HND_in by done. fold fd.
  split; cbv zeta.
  - intros Hty.
    set (frees := match fil_cltbl (sf_fil sf) with
                  | CL_HEAP a => [Ev_free a]
                  | CL_NULL | CL_INLINE => []
                  end).
    set (h1 := match fil_cltbl (sf_fil sf) with
               | CL_HEAP a => (free a (host w)).2
               | CL_NULL | CL_INLINE => host w
               end).
    set (rc := (f_close (sf_fil sf) h1).1.1).
    assert (Hfree :
      (match fil_cltbl (sf_fil sf) with
       | CL_HEAP _ => free_cltbl fd
       | CL_NULL | CL_INLINE => mret tt
       end) (at_fd w fd (set_used 0 sf) (cl_heap w) (host w) [])
      = Some (tt, at_fd w fd (set_used 0 sf)
                    (match fil_cltbl (sf_fil sf) with
                     | CL_HEAP a => delete a (cl_heap w)
                     | CL_NULL | CL_INLINE => cl_heap w
                     end) h1 ([] ++ frees))).
    { subst frees h1. destruct (fil_cltbl (sf_fil sf)) as [| |a] eqn:Hcl;
        [reflexivity | reflexivity |].
      by apply free_cltbl_at. }
    assert (Hrun : exists e,
      fat_close_fd fd w
      = Some (if rc =? FR_OK then 0 else -1,
              at_fd w fd (set_fil (f_close (sf_fil sf) h1).1.2 (set_used 0 sf))
                (match fil_cltbl (sf_fil sf) with
                 | CL_HEAP a => delete a (cl_heap w)
                 | CL_NULL | CL_INLINE => cl_heap w
                 end)
                (mk_hst e (h_sys (f_close (sf_fil sf) h1).2))
                (frees ++ [Ev_f_close fd])) /\
      (rc <> FR_OK -> e = fatfs_set_errno rc (h_errno (f_close (sf_fil sf) h1).2))).
    { assert (Hbody : fat_close_fd fd w
        = (if negb (rc =? FR_OK) then fail_rc rc else mret 0)
            (at_fd w fd (set_fil (f_close (sf_fil sf) h1).1.2 (set_used 0 sf))
               (match fil_cltbl (sf_fil sf) with
                | CL_HEAP a => delete a (cl_heap w)
                | CL_NULL | CL_INLINE => cl_heap w
                end)
               (f_close (sf_fil sf) h1).2 (frees ++ [Ev_f_close fd]))).
      { unfold fat_close_fd. from_start Hsf.
        astep. astep. slot_simpl. rewrite Hty, Z.eqb_refl.
        rewrite (bindM_run _ _ _ _ _ Hfree).
        astep. astep. reflexivity. }
      rewrite Hbody. destruct (rc =? FR_OK) eqn:Hok; simpl negb; lazy iota.
      - exists (h_errno (f_close (sf_fil sf) h1).2). split.
        + unfold mret, M_ret, retM. by destruct (f_close (sf_fil sf) h1).2.
        + apply Z.eqb_eq in Hok. done.
      - eexists. split; [apply fail_rc_at|]. done. }
    destruct Hrun as (e & Hrun & He).
    eexists _, _. split; [exact Hrun|].
    split; [by apply list_lookup_insert_eq|]. split; [reflexivity|].
    split; [reflexivity|]. split; [|split].
    + intros a Ha. simpl. rewrite Ha. apply lookup_delete_eq.
    + intros [Hcl|Hcl]; simpl; by rewrite Hcl.
    + exact He.
  - intros Hnf Hty.
    set (rc := (f_closedir (sf_dir sf) (host w)).1.1).
    assert (Hrun : exists e,
      fat_close_fd fd w
      = Some (if rc =? FR_OK then 0 else -1,
              at_fd w fd (set_dir (f_closedir (sf_dir sf) (host w)).1.2 (set_used 0 sf))
                (cl_heap w)
                (mk_hst e (h_sys (f_closedir (sf_dir sf) (host w)).2))
                [Ev_f_closedir fd]) /\
      (rc <> FR_OK -> e = fatfs_set_errno rc (h_errno (f_closedir (sf_dir sf) (host w)).2))).
    { assert (Hbody : fat_close_fd fd w
        = (if negb (rc =? FR_OK) then fail_rc rc else mret 0)
            (at_fd w fd (set_dir (f_closedir (sf_dir sf) (host w)).1.2 (set_used 0 sf))
               (cl_heap w) (f_closedir (sf_dir sf) (host w)).2 [Ev_f_closedir fd])).
      { unfold fat_close_fd. from_start Hsf. astep. astep. slot_simpl.
        destruct (Z.eqb_spec (sf_type sf) STAT_TYPE_FILE) as [|_]; [done|].
        rewrite Hty, Z.eqb_refl.
        astep. astep. reflexivity. }
      rewrite Hbody. destruct (rc =? FR_OK) eqn:Hok; simpl negb; lazy iota.
      - exists (h_errno (f_closedir (sf_dir sf) (host w)).2). split.
        + unfold mret, M_ret, retM. by destruct (f_closedir (sf_dir sf) (host w)).2.
        + apply Z.eqb_eq in Hok. done.
      - eexists. split; [apply fail_rc_at|]. done. }
    destruct Hrun as (e & Hrun & He).
    eexists _, _. split; [exact Hrun|].
    split; [by apply list_lookup_insert_eq|]. split; [reflexivity|].
    split; [reflexivity|]. split; [reflexivity|]. exact He.
Qed.

End CloseFacts.

Lemma fat_close_releases_witness :
  let w := Sim.boot (Sim.pool_with (Sim.open_file 0 100000 (CL_HEAP 0x1000)))
             (Sim.mounts_with (Sim.volume None None))
             {[ 0x1000%N := 40 :: replicate 39 0 ]} (Sim.machine 0 100000 40 FR_DISK_ERR) in
  exists w' sf',
    fat_close (HC := Sim.consts 0x0f false) 1 w = Some (-1, w') /\
    fh w' !! 0%nat = Some sf' /\ sf_used sf' = 0 /\
    calls_made w w' [Ev_free 0x1000; Ev_f_close 0] /\
    cl_heap w' !! 0x1000%N = None.
Proof.
  intros w.
  destruct (fat_close_releases (HC := Sim.consts 0x0f false) w 1
              (Sim.open_file 0 100000 (CL_HEAP 0x1000)))
    as [Hfile _]; [unfold MAX_FAT_FILES; lia | reflexivity |].
  destruct (Hfile eq_refl) as (w' & sf' & Hrun & Hsf' & Hused & Hcalls & Hheap & _).
  exists w', sf'. repeat split; try assumption.
  exact (Hheap 0x1000%N eq_refl).
Defined.

(** ** Properties of read *)

Section ReadFacts.
Context {HC : HostConsts} {ET : EngineTypes} {HO : Host}.

Lemma wants_linkmap_no (w : world) (fd : nat) (sf : fatfs_t) :
  fh w !! fd = Some sf ->
  fil_cltbl (sf_fil sf) <> CL_NULL \/ Z.land (sf_mode sf) O_MODE_MASK <> O_RDONLY ->
  wants_linkmap fd w = Some (false, w).
Proof.
  intros Hsf Hno. unfold wants_linkmap, mbind, M_bind, bindM, get_fh. rewrite Hsf.
  destruct (fil_cltbl (sf_fil sf)); try reflexivity.
  destruct Hno as [Hno|Hno]; [done|].
  by destruct (Z.eqb_spec (Z.land (sf_mode sf) O_MODE_MASK) O_RDONLY).
Qed.

Lemma wants_linkmap_size (w : world) (fd : nat) (sf : fatfs_t)
    (mi : nat) (mnt : fatfs_mnt_t) (fs dev : N) :
  fh w !! fd = Some sf ->
  fil_cltbl (sf_fil sf) = CL_NULL -> Z.land (sf_mode sf) O_MODE_MASK = O_RDONLY ->
  sf_mnt sf = Some mi -> fat_mnt w !! mi = Some mnt ->
  mnt_fs mnt = Some fs -> mnt_dev mnt = Some dev ->
  wants_linkmap fd w
  = Some (u32 (FATFS_csize fs (host w) * Z.shiftl 1 (l_block_size dev (host w)))
            <? fil_fsize (sf_fil sf), w).
Proof.
  intros Hsf Hcl Hmode Hmi Hmnt Hfs Hdev.
  unfold wants_linkmap, mbind, M_bind, bindM, get_fh, get_mnt. rewrite Hsf, Hcl.
  rewrite Hmode, Z.eqb_refl, Hmi. simpl. rewrite Hmnt, Hfs. simpl. rewrite Hdev.
  reflexivity.
Qed.

(** The calls a run can make, built up from its steps. *)
Lemma only_calls_ret {A} (P : event -> Prop) (a : A) : only_calls P (retM a).
Proof.
  intros w r [= <-]. exists []. split; [|constructor].
  unfold calls_made. simpl. by rewrite app_nil_r.
Qed.

Lemma only_calls_bind {A B} (P : event -> Prop) (m : M A) (k : A -> M B) :
  only_calls P m -> (forall a, only_calls P (k a)) -> only_calls P (bindM m k).
Proof.
  intros Hm Hk w r Hrun. unfold bindM in Hrun.
  destruct (m w) as [[a w1]|] eqn:Hmw; [|done].
  destruct (Hm w _ Hmw) as (e1 & H1 & HP1).
  destruct (Hk a w1 r Hrun) as (e2 & H2 & HP2).
  exists (e1 ++ e2). split; [|by apply Forall_app].
  unfold calls_made in *. simpl in *. by rewrite H2, H1, app_assoc.
Qed.

Lemma only_calls_quiet {A} (P : event -> Prop) (m : M A) :
  (forall w r, m w = Some r -> trace r.2 = trace w) -> only_calls P m.
Proof.
  intros Hq w r Hrun. exists []. split; [|constructor].
  unfold calls_made. rewrite app_nil_r. by apply Hq.
Qed.

Lemma only_calls_call {A} (P : event -> Prop) (ev : event) (op : hst -> A * hst) :
  P ev -> only_calls P (call ev op).
Proof.
  intros Hev w r. unfold call. destruct (op (host w)) as [a h]. intros [= <-].
  exists [ev]. split; [reflexivity|]. by constructor.
Qed.

Lemma only_calls_get_fh (P : event -> Prop) (fd : nat) : only_calls P (get_fh fd).
Proof.
  apply only_calls_quiet. intros w r. unfold get_fh.
  destruct (fh w !! fd); [|done]. by intros [= <-].
Qed.

Lemma only_calls_upd_fh (P : event -> Prop) (fd : nat) (f : fatfs_t -> fatfs_t) :
  only_calls P (upd_fh fd f).
Proof.
  apply only_calls_quiet. intros w r. unfold upd_fh.
  destruct (fh w !! fd); [|done]. by intros [= <-].
Qed.

Lemma only_calls_get_mnt (P : event -> Prop) (i : nat) : only_calls P (get_mnt i).
Proof.
  apply only_calls_quiet. intros w r. unfold get_mnt.
  destruct (fat_mnt w !! i); [|done]. by intros [= <-].
Qed.

Lemma only_calls_deref {A} (P : event -> Prop) (o : option A) : only_calls P (deref o).
Proof. destruct o; [apply only_calls_ret|]. by intros w r. Qed.

Lemma only_calls_undefined {A} (P : event -> Prop) : only_calls P (undefined (A := A)).
Proof. by intros w r. Qed.

Lemma only_calls_gets {A} (P : event -> Prop) (f : world -> A) : only_calls P (gets f).
Proof. apply only_calls_quiet. by intros w r [= <-]. Qed.

Lemma only_calls_modify (P : event -> Prop) (f : world -> world) :
  (forall w, trace (f w) = trace w) -> only_calls P (modify f).
Proof. intros Hf. apply only_calls_quiet. intros w r [= <-]. apply Hf. Qed.

End ReadFacts.

Ltac calls :=
  repeat first
    [ progress unfold mbind, M_bind, mret, M_ret
    | apply only_calls_bind; [|intros ?]
    | apply only_calls_ret
    | apply only_calls_get_fh
    | apply only_calls_upd_fh
    | apply only_calls_get_mnt
    | apply only_calls_deref
    | apply only_calls_undefined
    | apply only_calls_gets
    | apply only_calls_modify; reflexivity
    | apply only_calls_call; exact I
    | apply only_calls_call; reflexivity
    | match goal with
      | |- only_calls _ (match ?c with _ => _ end) => destruct c
      end
    | progress unfold do_f_lseek, cltbl_first, cltbl_set_first, free_cltbl,
        cltbl_load, cltbl_store, set_errno ].

Section ReadZeroFacts.
Context {HC : HostConsts} {ET : EngineTypes} {HO : Host}.

Lemma fat_create_linkmap_calls (fd : nat) : only_calls linkmap_call (fat_create_linkmap fd).
Proof. unfold fat_create_linkmap. calls. Qed.

Lemma wants_linkmap_calls (fd : nat) : only_calls linkmap_call (wants_linkmap fd).
Proof. unfold wants_linkmap. calls. Qed.

Lemma fat_read_fd_zero (fd : nat) (buffer : Z) (w : world) (r : Z * world) :
  fat_read_fd fd buffer 0 w = Some r ->
  r.1 = 0 /\ exists evs, calls_made w r.2 evs /\ Forall linkmap_call evs.
Proof.
  intros Hrun. split.
  - revert Hrun. unfold fat_read_fd, mbind, M_bind, mret, M_ret, bindM.
    destruct (wants_linkmap fd w) as [[[] w1]|]; [| |done].
    + destruct (fat_create_linkmap fd w1) as [[rc w2]|]; [|done].
      simpl. by intros [= <-].
    + simpl. by intros [= <-].
  - revert w r Hrun. change (only_calls linkmap_call (fat_read_fd fd buffer 0)).
    unfold fat_read_fd. calls.
Qed.

End ReadZeroFacts.

(** ** Properties of open *)

Section OpenFacts.
Context {HC : HostConsts} {ET : EngineTypes} {HO : Host}.

Lemma find_free_fd_slot (pool : list fatfs_t) (fd : nat) :
  find_free_fd pool = Some fd ->
  exists sf, pool !! fd = Some sf /\ sf_used sf = 0 /\ (fd < Z.to_nat MAX_FAT_FILES)%nat.
Proof.
  unfold find_free_fd. destruct (list_find _ _) as [[i sf]|] eqn:Hf; [|done].
  simpl. intros [= ->]. apply list_find_Some in Hf as (Hsf & Hused & _).
  apply lookup_take_Some in Hsf as [Hsf Hlt]. by exists sf.
Qed.

(** The append branch.  Take an open of a file (no O_DIR) that succeeds: the handler has a
    mount, a slot [fd] is free, the engine accepts the drive, the access mode
    translates to engine flags, and the engine opens the file.  Let [size] be
    the size of the file the engine reports once it is open (after the flush
    that follows a write-capable open).  If O_APPEND is set and [size] is
    positive, the last thing open does before it returns descriptor [fd + 1]
    is one engine seek to offset [size - 1]; the handle holds the FIL as that
    seek left it, so where the engine honours the request the cursor is at
    [size - 1], and not at [size]. *)
Lemma fat_open_append_seeks (w : world) (vfs : vfs_handler_t) (fn : option string)
    (flags : Z) (mi fd : nat) (mnt : fatfs_mnt_t) (fat_flags : Z) (t : option (list Z)) :
  privdata vfs = Some mi -> fat_mnt w !! mi = Some mnt ->
  find_free_fd (fh w) = Some fd ->
  let c := f_chdrive (mnt_dev_path mnt) (host w) in
  c.1 = FR_OK ->
  Z.land flags O_DIR = 0 ->
  open_fat_flags flags = Some fat_flags ->
  let o := f_open FIL_zero (path_or_root fn) fat_flags c.2 in
  o.1.1 = FR_OK ->
  let s := if negb (Z.land fat_flags FA_WRITE =? 0)
           then f_sync o.1.2 o.2 else ((FR_OK, o.1.2), o.2) in
  let fil := s.1.2 in
  let size := fil_fsize fil in
  Z.land flags O_APPEND <> 0 -> 0 < size < 2 ^ 32 ->
  tbl_of (set_fil fil fatfs_zero) (cl_heap w) = Some t ->
  let k := f_lseek fil t (size - 1) s.2 in
  exists w' sf' evs,
    fat_open vfs fn flags w = Some (Z.of_nat fd + 1, w') /\
    fh w' !! fd = Some sf' /\ sf_used sf' = 1 /\ sf_fil sf' = k.1.1.2 /\
    calls_made w w' (evs ++ [Ev_f_lseek fd (size - 1) (fil_cltbl fil) t]) /\
    (fil_fptr k.1.1.2 = size - 1 ->
       fil_fptr (sf_fil sf') = size - 1 /\ fil_fptr (sf_fil sf') <> size).
Proof.
  intros Hpriv Hmnt Hfree c Hc Hdir Hflags o Ho s fil size Happ Hsize Ht k.
  destruct (find_free_fd_slot _ _ Hfree) as (sf0 & Hsf0 & _ & _).
  assert (Hfd : (fd < length (fh w))%nat) by (by eapply lookup_lt_Some).
  assert (Hrun : fat_open vfs fn flags w
    = Some (Z.of_nat fd + 1,
            at_fd w fd
              (set_used 1
                 (match fil_cltbl fil with
                  | CL_INLINE => set_lktbl k.1.2
                  | CL_NULL | CL_HEAP _ => fun sf => sf
                  end
                    (set_fil k.1.1.2
                       (set_fil fil
                          (set_fil o.1.2
                             (set_type STAT_TYPE_FILE
                                (set_mnt (Some mi) (set_mode flags fatfs_zero))))))))
              (match fil_cltbl fil with
               | CL_HEAP a => <[a := k.1.2]> (cl_heap w)
               | CL_NULL | CL_INLINE => cl_heap w
               end)
              k.2
              (([Ev_f_chdrive (mnt_dev_path mnt);
                 Ev_f_open fd (path_or_root fn) fat_flags] ++
                (if negb (Z.land fat_flags FA_WRITE =? 0) then [Ev_f_sync fd] else [])) ++
               [Ev_f_lseek fd (size - 1) (fil_cltbl fil) t]))).
  { unfold fat_open. rewrite Hpriv.
    unfold mbind, M_bind. rewrite (bindM_run (gets fh) _ w w (fh w)) by reflexivity.
    rewrite Hfree. from_start Hsf0.
    astep. astep. astep. lazy beta iota.
    rc_ok Hc.
    astep. astep. lazy beta iota. rewrite Hdir. bsimpl.
    rewrite Hflags. astep. astep. astep. lazy beta iota. slot_simpl.
    change (sf_fil fatfs_zero) with FIL_zero.
    astep. lazy beta iota. rc_ok Ho.
    assert (Hsync :
      (if negb (Z.land fat_flags FA_WRITE =? 0)
       then bindM (get_fh fd) (fun sf =>
              bindM (call (Ev_f_sync fd) (f_sync (sf_fil sf)))
                (fun r => upd_fh fd (set_fil r.2)))
       else retM ())
        (at_fd w fd
           (set_fil o.1.2
              (set_type STAT_TYPE_FILE (set_mnt (Some mi) (set_mode flags fatfs_zero))))
           (cl_heap w) o.2
           (([] ++ [Ev_f_chdrive (mnt_dev_path mnt)]) ++
            [Ev_f_open fd (path_or_root fn) fat_flags]))
      = Some (tt,
          at_fd w fd
            (set_fil fil
               (set_fil o.1.2
                  (set_type STAT_TYPE_FILE (set_mnt (Some mi) (set_mode flags fatfs_zero)))))
            (cl_heap w) s.2
            ([Ev_f_chdrive (mnt_dev_path mnt); Ev_f_open fd (path_or_root fn) fat_flags] ++
             (if negb (Z.land fat_flags FA_WRITE =? 0) then [Ev_f_sync fd] else [])))).
    { subst fil s. destruct (negb (Z.land fat_flags FA_WRITE =? 0)).
      - astep. astep. slot_simpl. rewrite upd_fh_at by done. reflexivity.
      - reflexivity. }
    rewrite (bindM_run _ _ _ _ _ Hsync).
    astep. lazy beta iota. slot_simpl. fold size.
    destruct (Z.eqb_spec (Z.land flags O_APPEND) 0) as [|_]; [done|].
    destruct (Z.ltb_spec 0 size) as [_|]; [|lia].
    bsimpl.
    rewrite bindM_assoc.
    erewrite (bindM_run (do_f_lseek _ _)).
    2:{ apply do_f_lseek_at; [assumption|]. exact Ht. }
    lazy beta iota. slot_simpl. unfold u32. rewrite (Z.mod_small (size - 1)) by lia. fold k.
    astep.
    destruct (fil_cltbl fil); astep; reflexivity. }
  eexists _, _, _. split; [exact Hrun|].
  split; [by apply list_lookup_insert_eq|].
  split; [reflexivity|]. split; [by destruct (fil_cltbl fil)|].
  split; [reflexivity|].
  intros Hk. replace (sf_fil _) with k.1.1.2 by (by destruct (fil_cltbl fil)).
  split; [exact Hk|lia].
Qed.



End OpenFacts.

Lemma fat_open_append_seeks_witness :
  let w := Sim.boot (replicate 16 fatfs_zero) (Sim.mounts_with (Sim.volume None None)) ∅
             (Sim.machine 0 5000 1 FR_OK) in
  exists w' sf',
    fat_open (HC := Sim.consts 3 false) (mk_vfs_handler 0x9000 "/sd" (Some 0%nat))
      (Some "/log.txt") 10 w = Some (1, w') /\
    fh w' !! 0%nat = Some sf' /\ sf_used sf' = 1 /\
    fil_fsize (sf_fil sf') = 5000 /\ fil_fptr (sf_fil sf') = 4999.
Proof.
  intros w.
  destruct (fat_open_append_seeks (HC := Sim.consts 3 false) w
              (mk_vfs_handler 0x9000 "/sd" (Some 0%nat)) (Some "/log.txt") 10
              0%nat 0%nat (Sim.volume None None) 7 None)
    as (w' & sf' & evs & Hrun & Hsf' & Hused & Hfil & _ & Hcur);
    [reflexivity | reflexivity | reflexivity | reflexivity | reflexivity | reflexivity
    | reflexivity | vm_compute; discriminate | vm_compute; split; reflexivity
    | reflexivity |].
  exists w', sf'. split; [exact Hrun|]. split; [exact Hsf'|]. split; [exact Hused|].
  split; [by rewrite Hfil|]. by apply Hcur.
Defined.


(** With the mode mask 0x0f, which covers the O_APPEND bit 0x08, the same
    open is refused with EINVAL before the engine is asked to open anything. *)
Lemma fat_open_append_refused_by_wide_mask :
  let w := Sim.boot (replicate 16 fatfs_zero) (Sim.mounts_with (Sim.volume None None)) ∅
             (Sim.machine 0 5000 1 FR_OK) in
  (fun r => (r.1, errno r.2, trace r.2))
    <$> fat_open (HC := Sim.consts 0x0f false) (mk_vfs_handler 0x9000 "/sd" (Some 0%nat))
          (Some "/log.txt") 10 w
  = Some (0, 22, [Ev_f_chdrive "0:"]).
Proof. intros w. vm_compute. reflexivity. Qed.

(** ** Properties of the descriptor guard *)

Section GuardSteps.
Context {HC : HostConsts} {ET : EngineTypes} {HO : Host}.


Lemma cl_heap_at (w : world) fd sf hp h evs : cl_heap (at_fd w fd sf hp h evs) = hp.
Proof. reflexivity. Qed.
Lemma host_at (w : world) fd sf hp h evs : host (at_fd w fd sf hp h evs) = h.
Proof. reflexivity. Qed.
Lemma errno_at (w : world) fd sf hp h evs : errno (at_fd w fd sf hp h evs) = h_errno h.
Proof. reflexivity. Qed.
Lemma fat_mnt_at (w : world) fd sf hp h evs : fat_mnt (at_fd w fd sf hp h evs) = fat_mnt w.
Proof. reflexivity. Qed.

Lemma bindM_get_mnt_at {B} (i : nat) (k : fatfs_mnt_t -> M B) (w : world) fd sf hp h evs :
  bindM (get_mnt i) k (at_fd w fd sf hp h evs)
  = match fat_mnt w !! i with
    | Some m => k m (at_fd w fd sf hp h evs)
    | None => None
    end.
Proof. unfold bindM, get_mnt. simpl. by destruct (fat_mnt w !! i). Qed.

Lemma bindM_deref {A B} (o : option A) (k : A -> M B) (w : world) :
  bindM (deref o) k w = match o with Some a => k a w | None => None end.
Proof. by destruct o. Qed.

Lemma bindM_undefined {A B} (k : A -> M B) (w : world) :
  bindM undefined k w = None.
Proof. reflexivity. Qed.

End GuardSteps.

Ltac lock :=
  repeat first
    [ astep
    | progress slot_simpl
    | rewrite bindM_assoc
    | rewrite bindM_get_mnt_at
    | rewrite bindM_deref
    | rewrite bindM_undefined
    | progress unfold mbind, M_bind, mret, M_ret
    | progress unfold do_f_lseek, cltbl_first, cltbl_set_first, free_cltbl,
        cltbl_load, cltbl_store, fail_rc
    | progress rewrite ?cl_heap_at, ?host_at, ?errno_at, ?fat_mnt_at
    | match goal with
      | |- context [match ?c with _ => _ end] =>
          lazymatch c with
          | context [at_fd] => fail
          | _ => destruct c eqn:?
          end
      end ].



Section GuardFacts.
Context {HC : HostConsts} {ET : EngineTypes} {HO : Host}.



















End GuardFacts.


(** A descriptor that has been closed is still served: after [fat_close 1]
    the slot is free, yet [fat_total 1] answers with the size left in the slot
    and [fat_read 1] goes to the engine. *)
Lemma closed_descriptor_is_served :
  let w := Sim.boot (Sim.pool_with (Sim.open_file 1 5000 CL_NULL))
             (Sim.mounts_with (Sim.volume None None)) ∅ (Sim.machine 0 5000 1 FR_OK) in
  exists w1,
    fat_close (HC := Sim.consts 0x0f false) 1 w = Some (0, w1) /\
    sf_used <$> fh w1 !! 0%nat = Some 0 /\
    fst <$> fat_total (HC := Sim.consts 0x0f false) 1 w1 = Some 5000 /\
    (fun r => (r.1, errno r.2, trace r.2))
      <$> fat_read (HC := Sim.consts 0x0f false) 1 0x2000 512 w1
    = Some (512, 0, [Ev_f_close 0; Ev_f_read 0 0x2000 512]).
Proof. intros w. eexists. repeat split; vm_compute; reflexivity. Qed.
(** ** A read of size 0 *)

Section ReadZeroCursor.
Context {HC : HostConsts} {ET : EngineTypes} {HO : Host}.

(** The link map builder does not move the cursor, if the engine's sentinel
    seek does not. *)
Lemma fat_create_linkmap_cursor (w : world) (fd : nat) sf hp h evs :
  (fd < length (fh w))%nat ->
  sentinel_seek_keeps_cursor ->
  cursor_at w fd (fil_fptr (sf_fil sf)) (fat_create_linkmap fd (at_fd w fd sf hp h evs)).
Proof.
  intros Hfd Hframe. unfold fat_create_linkmap. lock;
    first [ exact I
          | simpl; eexists _, _, _, _; split; [reflexivity|];
            repeat first [ progress slot_simpl | rewrite Hframe ]; reflexivity ].
Qed.

Lemma wants_linkmap_quiet (fd : nat) (w : world) (r : bool * world) :
  wants_linkmap fd w = Some r -> r.2 = w.
Proof.
  unfold wants_linkmap, mbind, M_bind, mret, M_ret, bindM, get_fh, get_mnt, deref, gets, retM.
  destruct (fh w !! fd) as [sf|]; [|done].
  destruct (fil_cltbl (sf_fil sf)); try (by intros [= <-]).
  destruct (_ =? O_RDONLY); [|by intros [= <-]].
  destruct (sf_mnt sf) as [mi|]; [|done]. simpl.
  destruct (fat_mnt w !! mi) as [mnt|]; [|done].
  destruct (mnt_fs mnt); [|done]. simpl. destruct (mnt_dev mnt); [|done]. simpl.
  by intros [= <-].
Qed.

Lemma fat_read_fd_zero_cursor (w : world) (fd : nat) (buffer : Z) (sf : fatfs_t)
    (r : Z * world) :
  sentinel_seek_keeps_cursor ->
  fh w !! fd = Some sf ->
  fat_read_fd fd buffer 0 w = Some r ->
  exists sf', fh r.2 !! fd = Some sf' /\ fil_fptr (sf_fil sf') = fil_fptr (sf_fil sf).
Proof.
  intros Hframe Hsf.
  assert (Hfd : (fd < length (fh w))%nat) by (by eapply lookup_lt_Some).
  unfold fat_read_fd, mbind, M_bind, mret, M_ret. unfold bindM at 1.
  destruct (wants_linkmap fd w) as [[b w1]|] eqn:Hwant; [|done].
  apply wants_linkmap_quiet in Hwant. simpl in Hwant. subst w1.
  destruct b.
  - rewrite bindM_assoc. unfold bindM at 1.
    rewrite (run_from_start (fat_create_linkmap fd) w fd sf Hsf).
    pose proof (fat_create_linkmap_cursor w fd sf (cl_heap w) (host w) [] Hfd Hframe) as Hc.
    destruct (fat_create_linkmap fd _) as [[rc w1]|]; [|done].
    destruct Hc as (sf' & hp' & h' & evs' & Hw1 & Hptr). simpl in Hw1. subst w1.
    unfold bindM, retM. simpl. intros [= <-]. exists sf'. split; [|exact Hptr].
    simpl. by apply list_lookup_insert_eq.
  - unfold bindM, retM. simpl. intros [= <-]. by exists sf.
Qed.

(** C7, as amended.  On a descriptor 1..16, a read of size 0 returns 0,
    never calls the engine's read and does not move the cursor of the
    handle.  It changes nothing at all (no call, the handle as before) when
    the handle has a link map, or is not read-only, or its file is not larger
    than one cluster; on a read-only handle without a link map whose file is
    larger than one cluster it runs the link map builder first, and does
    nothing else.  In every case the only calls a read of size 0 can make
    are those of the builder: sentinel seeks, calloc and free.  The adapter
    itself never assigns the cursor on this path, so with an engine whose
    sentinel seek leaves the cursor alone the cursor after the read is the
    cursor before it, on the builder's branch too. *)
Theorem fat_read_zero (w : world) (hnd buffer : Z) (sf : fatfs_t) :
  1 <= hnd <= MAX_FAT_FILES ->
  let fd := Z.to_nat (hnd - 1) in
  fh w !! fd = Some sf ->
  (forall r, fat_read hnd buffer 0 w = Some r ->
     r.1 = 0 /\ exists evs, calls_made w r.2 evs /\ Forall linkmap_call evs) /\
  (fil_cltbl (sf_fil sf) <> CL_NULL \/ Z.land (sf_mode sf) O_MODE_MASK <> O_RDONLY ->
     fat_read hnd buffer 0 w = Some (0, w)) /\
  (forall mi mnt fs dev,
     fil_cltbl (sf_fil sf) = CL_NULL -> Z.land (sf_mode sf) O_MODE_MASK = O_RDONLY ->
     sf_mnt sf = Some mi -> fat_mnt w !! mi = Some mnt ->
     mnt_fs mnt = Some fs -> mnt_dev mnt = Some dev ->
     let cluster := u32 (FATFS_csize fs (host w) * Z.shiftl 1 (l_block_size dev (host w))) in
     (fil_fsize (sf_fil sf) <= cluster -> fat_read hnd buffer 0 w = Some (0, w)) /\
     (cluster < fil_fsize (sf_fil sf) ->
        fat_read hnd buffer 0 w
        = match fat_create_linkmap fd w with
          | Some (_, w') => Some (0, w')
          | None => None
          end)) /\
  (sentinel_seek_keeps_cursor ->
   forall r, fat_read hnd buffer 0 w = Some r ->
     exists sf', fh r.2 !! fd = Some sf' /\
       fil_fptr (sf_fil sf') = fil_fptr (sf_fil sf)).
Proof.
  intros Hh fd Hsf.
  unfold fat_read. rewrite FAT_GET_HND_in by done. fold fd.
  split; [apply fat_read_fd_zero|].
  split; [|split;
    [|intros Hframe r Hrun; by apply (fat_read_fd_zero_cursor w fd buffer sf r Hframe Hsf)]];
    unfold fat_read_fd, mbind, M_bind, mret, M_ret.
  - intros Hno. by rewrite (bindM_run _ _ _ _ _ (wants_linkmap_no w fd sf Hsf Hno)).
  - intros mi mnt fs dev Hcl Hmode Hmi Hmnt Hfs Hdev.
    set (cluster := u32 (FATFS_csize fs (host w) * Z.shiftl 1 (l_block_size dev (host w)))).
    rewrite (bindM_run _ _ _ _ _
               (wants_linkmap_size w fd sf mi mnt fs dev Hsf Hcl Hmode Hmi Hmnt Hfs Hdev)).
    fold cluster. split.
    + intros Hle. by destruct (Z.ltb_spec cluster (fil_fsize (sf_fil sf))); [lia|].
    + intros Hlt. destruct (Z.ltb_spec cluster (fil_fsize (sf_fil sf))); [|lia].
      unfold bindM. by destruct (fat_create_linkmap fd w) as [[rc w']|].
Qed.

End ReadZeroCursor.

Lemma sim_sentinel_seek_keeps_cursor (mask : Z) (dma_buf : bool) :
  sentinel_seek_keeps_cursor (HC := Sim.consts mask dma_buf) (HO := Sim.sim_host).
Proof.
  intros fil tbl h. simpl. unfold Sim.lseek. simpl.
  destruct tbl as [[|n cells]|]; try reflexivity.
  by destruct (n <? _).
Qed.

Lemma fat_read_zero_witness :
  let sf := mk_fatfs (mk_FIL (Some 0x8000%N) 4096 100000 2 CL_NULL tt) 0 1 1 0
              (replicate 32 0) dent_zero (Some 0%nat) in
  let w := Sim.boot (Sim.pool_with sf)
             (Sim.mounts_with (Sim.volume None None)) ∅ (Sim.machine 1 100000 20 FR_OK) in
  exists w' sf',
    fat_read (HC := Sim.consts 0x0f false) 1 0x2000 0 w = Some (0, w') /\
    calls_made w w' [Ev_f_lseek 0 0xFFFFFFFF CL_INLINE (Some (32 :: replicate 31 0))] /\
    fh w' !! 0%nat = Some sf' /\
    fil_cltbl (sf_fil sf') = CL_INLINE /\ fil_fptr (sf_fil sf') = 4096.
Proof.
  intros sf w.
  destruct (fat_read (HC := Sim.consts 0x0f false) 1 0x2000 0 w) as [[n w']|] eqn:Hrun;
    [|vm_compute in Hrun; discriminate].
  destruct (fat_read_zero (HC := Sim.consts 0x0f false) w 1 0x2000 sf)
    as (Hret & _ & _ & Hcur); [unfold MAX_FAT_FILES; lia | reflexivity |].
  destruct (Hret _ Hrun) as [Hn _]. simpl in Hn. subst n.
  destruct (Hcur (sim_sentinel_seek_keeps_cursor 0x0f false) _ Hrun) as (sf' & Hsf' & Hptr).
  simpl in Hsf', Hptr.
  exists w', sf'. split; [reflexivity|].
  pose proof Hrun as Hval. vm_compute in Hval. injection Hval as <-.
  split; [reflexivity|]. split; [exact Hsf'|]. split; [|exact Hptr].
  vm_compute in Hsf'. by injection Hsf' as <-.
Defined.

(** C7, as stated, fails: descriptor 1 is open read-only on a file of 100000
    bytes, larger than the cluster of 8 sectors of 512 bytes, and has no link
    map yet.  A read of size 0 returns 0, but it has called the engine (the
    sentinel seek that builds the link map) and has attached the link map to
    the handle. *)
Lemma fat_read_zero_calls_engine :
  let w := Sim.boot (Sim.pool_with (Sim.open_file 0 100000 CL_NULL))
             (Sim.mounts_with (Sim.volume None None)) ∅ (Sim.machine 1 100000 20 FR_OK) in
  trace w = [] /\
  (fun r => (r.1, trace r.2)) <$> fat_read (HC := Sim.consts 0x0f false) 1 0x2000 0 w
    = Some (0, [Ev_f_lseek 0 0xFFFFFFFF CL_INLINE (Some (32 :: replicate 31 0))]) /\
  (fun r => fil_cltbl <$> (sf_fil <$> fh r.2 !! 0%nat))
    <$> fat_read (HC := Sim.consts 0x0f false) 1 0x2000 0 w
    = Some (Some CL_INLINE) /\
  fil_cltbl <$> (sf_fil <$> fh w !! 0%nat) = Some CL_NULL.
Proof. intros w. repeat split; vm_compute; reflexivity. Qed.

(** ** Properties of the partition classifier and of its callers *)

Section ClassifierFacts.
Context {HC : HostConsts} {ET : EngineTypes} {HO : Host}.

(** C9.  [is_fat_partition] answers 16 for the type bytes 0x04 and 0x06, 32
    for 0x0B and 0x0C, and 0 for every other value, zero included.  In both
    callers, a turn of the partition loop that meets a present partition
    whose type is not recognised only shuts the probe device down: nothing is
    initialised or mounted, no state of the adapter changes, and the loop goes
    on with the next partition. *)
Theorem is_fat_partition_classes (t : Z) :
  (t = 0x04 \/ t = 0x06 -> Bdev.is_fat_partition t = 16) /\
  (t = 0x0B \/ t = 0x0C -> Bdev.is_fat_partition t = 32) /\
  (t <> 0x04 -> t <> 0x06 -> t <> 0x0B -> t <> 0x0C -> Bdev.is_fat_partition t = 0) /\
  (forall (w : world) (buf : list Z) (base : N) (part : Z) (turns : nat),
     let dev := (base + Z.to_N (part * sizeof_kos_blockdev_t))%N in
     let r := sd_blockdev_for_partition part dev (host w) in
     Bdev.check_partition buf part = Some 0 ->
     r.1.1 = 0 -> r.1.2 = t -> Bdev.is_fat_partition t = 0 ->
     let w1 := after_calls w (bd_shutdown dev r.2).2
                 [Ev_sd_blockdev_for_partition part dev; Ev_shutdown dev] in
     mount_sd_partition buf base part w = Some (tt, w1) /\
     mount_sd_loop buf base part (S turns) w = mount_sd_loop buf base (part + 1) turns w1) /\
  (forall (w : world) (buf : list Z) (base base_dma : N) (part : Z) (turns : nat),
     let dev := (base + Z.to_N (part * sizeof_kos_blockdev_t))%N in
     let r := g1_ata_blockdev_for_partition part 0 dev (host w) in
     Bdev.check_partition buf part = Some 0 ->
     r.1.1 = 0 -> r.1.2 = t -> Bdev.is_fat_partition t = 0 ->
     let w1 := after_calls w (bd_shutdown dev r.2).2
                 [Ev_g1_ata_blockdev_for_partition part 0 dev; Ev_shutdown dev] in
     mount_ide_partition buf base base_dma part w = Some (tt, w1) /\
     mount_ide_loop buf base base_dma part (S turns) w
     = mount_ide_loop buf base base_dma (part + 1) turns w1).
Proof.
  destruct (is_fat_partition_cases t) as (H16 & H32 & H0).
  split; [exact H16|]. split; [exact H32|]. split; [exact H0|].
  split.
  - intros w buf base part turns dev r Hchk Hrv Hty Hfat w1.
    assert (Hturn : mount_sd_partition buf base part w = Some (tt, w1)).
    { unfold mount_sd_partition. fold dev. rewrite Hchk.
      unfold mbind, M_bind, mret, M_ret, bindM, deref, retM, call. simpl.
      fold r. destruct r as [[rv ty] h1] eqn:Hr. simpl in Hrv, Hty. subst rv ty.
      simpl. rewrite Hfat. simpl.
      destruct (bd_shutdown dev h1) as [rv2 h2] eqn:Hsd.
      subst w1. unfold after_calls. simpl. rewrite Hsd. simpl.
      by rewrite <- app_assoc. }
    split; [exact Hturn|].
    simpl. unfold mbind, M_bind, bindM. by rewrite Hturn.
  - intros w buf base base_dma part turns dev r Hchk Hrv Hty Hfat w1.
    assert (Hturn : mount_ide_partition buf base base_dma part w = Some (tt, w1)).
    { unfold mount_ide_partition. fold dev. rewrite Hchk.
      unfold mbind, M_bind, mret, M_ret, bindM, deref, retM, call. simpl.
      fold r. destruct r as [[rv ty] h1] eqn:Hr. simpl in Hrv, Hty. subst rv ty.
      simpl. rewrite Hfat. simpl.
      destruct (bd_shutdown dev h1) as [rv2 h2] eqn:Hsd.
      subst w1. unfold after_calls. simpl. rewrite Hsd. simpl.
      by rewrite <- app_assoc. }
    split; [exact Hturn|].
    simpl. unfold mbind, M_bind, bindM. by rewrite Hturn.
Qed.

End ClassifierFacts.

Lemma is_fat_partition_classes_witness :
  let w := mk_world 0 [] [] (replicate 16 (mk_PARTITION 0 0)) (Some 0x1000%N) None None ∅
             (Sim.card [0x83; 0x0B; 0; 0] 8) [] in
  Bdev.is_fat_partition 0x0B = 32 /\
  Bdev.is_fat_partition 0x83 = 0 /\
  mount_sd_partition (HC := Sim.consts 0x0f false) (Sim.mbr_of [0x83; 0x0B; 0; 0]) 0x1000 0 w
  = Some (tt, after_calls w (host w) [Ev_sd_blockdev_for_partition 0 0x1000; Ev_shutdown 0x1000]).
Proof.
  intros w.
  destruct (is_fat_partition_classes (HC := Sim.consts 0x0f false)
              (HO := Sim.sim_host) 0x0B) as (_ & H32 & _).
  destruct (is_fat_partition_classes (HC := Sim.consts 0x0f false)
              (HO := Sim.sim_host) 0x83) as (_ & _ & H0 & Hsd & _).
  split; [apply H32; left; reflexivity|].
  assert (Hzero : Bdev.is_fat_partition 0x83 = 0) by (apply H0; discriminate).
  split; [exact Hzero|].
  destruct (Hsd w (Sim.mbr_of [0x83; 0x0B; 0; 0]) 0x1000%N 0 0%nat) as [Hturn _];
    [reflexivity | reflexivity | reflexivity | exact Hzero |].
  exact Hturn.
Defined.

(** The whole of [fs_fat_mount_sd] on a card whose first partition is of type
    0x83 and whose second is FAT32: the call returns 0, the first partition
    gets its probe device shut down and nothing more, and the second one is
    mounted. *)
Lemma fs_fat_mount_sd_skips_unknown_partition :
  let w := mk_world 0 [] [] (replicate 16 (mk_PARTITION 0 0)) None None None ∅
             (Sim.card [0x83; 0x0B; 0; 0] 8) [] in
  (fun r => (r.1, trace r.2, pathname <$> (fat_mnt r.2 !! 0%nat ≫= mnt_vfsh)))
    <$> fs_fat_mount_sd (HC := Sim.consts 0x0f false) w
  = Some (0,
          [Ev_sd_init; Ev_sd_get_size; Ev_sd_read_blocks 0 1;
           Ev_malloc 160; Ev_memset 4096 0 160;
           Ev_sd_blockdev_for_partition 0 4096; Ev_shutdown 4096;
           Ev_sd_blockdev_for_partition 1 4136; Ev_shutdown 4136;
           Ev_malloc 16; Ev_sd_get_size; Ev_set_dev_data 4136 4352;
           Ev_init 4136; Ev_malloc 160; Ev_malloc 560;
           Ev_f_mount (Some 4864%N) "0:" 1; Ev_f_getfree "0:";
           Ev_count_blocks 4136; Ev_nmmgr_handler_add "sd1"],
          Some "sd1").
Proof. intros w. vm_compute. reflexivity. Qed.

(** ** Properties of the time stamp *)

Section FattimeFacts.
Context {HC : HostConsts} {ET : EngineTypes} {HO : Host} {HP : HostPaths}.

Lemma lor_disjoint (hi lo n : Z) :
  0 <= n -> 0 <= lo < 2 ^ n -> Z.lor (hi * 2 ^ n) lo = hi * 2 ^ n + lo.
Proof.
  intros Hn Hlo.
  assert (Hand : Z.land (hi * 2 ^ n) lo = 0).
  { apply Z.bits_inj'. intros i Hi. rewrite Z.land_spec, Z.bits_0.
    destruct (Z.lt_ge_cases i n) as [Hlt|Hge].
    - by rewrite Z.mul_pow2_bits_low by lia.
    - destruct (Z.eq_dec lo 0) as [->|Hne].
      + rewrite Z.bits_0. apply andb_false_r.
      + rewrite (Z.bits_above_log2 lo i); [apply andb_false_r|lia|].
        apply Z.lt_le_trans with n; [|lia].
        apply Z.log2_lt_pow2; lia. }
  rewrite <- Z.lxor_lor by done. symmetry. by apply Z.add_nocarry_lxor.
Qed.

(** The packed value as a sum of its fields. *)
Lemma fattime_sum (t : tm) :
  0 <= tm_mon t <= 11 -> 1 <= tm_mday t <= 31 -> 0 <= tm_hour t <= 23 ->
  0 <= tm_min t <= 59 -> 0 <= tm_sec t <= 61 ->
  fattime t
  = ((tm_year t - 80) mod 128) * 2 ^ 25 + (tm_mon t + 1) * 2 ^ 21 + tm_mday t * 2 ^ 16
    + tm_hour t * 2 ^ 11 + tm_min t * 2 ^ 5 + tm_sec t / 2.
Proof.
  intros Hmon Hday Hhour Hmin Hsec. unfold fattime, u32.
  rewrite !Z.shiftl_mul_pow2 by lia.
  rewrite Z.quot_div_nonneg by lia.
  assert (Hy : ((tm_year t - 80) mod 2 ^ 32 * 2 ^ 25) mod 2 ^ 32
               = ((tm_year t - 80) mod 128) * 2 ^ 25).
  { change (2 ^ 32) with (2 ^ 7 * 2 ^ 25) at 2.
    rewrite Z.mul_mod_distr_r by lia. f_equal.
    apply Z.mod_mod_divide. exists (2 ^ 25). reflexivity. }
  rewrite Hy.
  pose proof (Z.mod_pos_bound (tm_year t - 80) 128 ltac:(lia)) as Hyr.
  set (y := (tm_year t - 80) mod 128) in *.
  rewrite (Z.mod_small (tm_mon t + 1)), (Z.mod_small (tm_mday t)),
    (Z.mod_small (tm_hour t)), (Z.mod_small (tm_min t)) by lia.
  rewrite (Z.mod_small ((tm_mon t + 1) * 2 ^ 21)) by lia.
  rewrite (Z.mod_small (tm_mday t * 2 ^ 16)) by lia.
  rewrite (Z.mod_small (tm_hour t * 2 ^ 11)) by lia.
  rewrite (Z.mod_small (tm_min t * 2 ^ 5)) by lia.
  assert (Hhalf : 0 <= tm_sec t / 2 <= 30) by (clear -Hsec; Z.div_mod_to_equations; lia).
  rewrite (Z.mod_small (tm_sec t / 2)) by lia.
  rewrite (lor_disjoint y _ 25) by lia.
  replace (y * 2 ^ 25 + (tm_mon t + 1) * 2 ^ 21)
    with ((y * 16 + (tm_mon t + 1)) * 2 ^ 21) by lia.
  rewrite lor_disjoint by lia.
  replace ((y * 16 + (tm_mon t + 1)) * 2 ^ 21 + tm_mday t * 2 ^ 16)
    with (((y * 16 + (tm_mon t + 1)) * 32 + tm_mday t) * 2 ^ 16) by lia.
  rewrite lor_disjoint by lia.
  replace (((y * 16 + (tm_mon t + 1)) * 32 + tm_mday t) * 2 ^ 16 + tm_hour t * 2 ^ 11)
    with ((((y * 16 + (tm_mon t + 1)) * 32 + tm_mday t) * 32 + tm_hour t) * 2 ^ 11) by lia.
  rewrite lor_disjoint by lia.
  replace ((((y * 16 + (tm_mon t + 1)) * 32 + tm_mday t) * 32 + tm_hour t) * 2 ^ 11
           + tm_min t * 2 ^ 5)
    with (((((y * 16 + (tm_mon t + 1)) * 32 + tm_mday t) * 32 + tm_hour t) * 64
           + tm_min t) * 2 ^ 5) by lia.
  rewrite lor_disjoint by lia.
  lia.
Qed.

(** X1.  [get_fattime] returns 0 when [gmtime] has no answer.  Otherwise,
    for a broken-down time whose month, day, hour, minute and second are in
    their ranges, the stamp is a 32-bit value from which the FAT fields read
    back what went in: month + 1, day, hour, minute, the second rounded down
    to an even number, and the year since 1980 modulo 128, so the years 1980
    to 2107 are kept and any other year wraps into that range. *)
Theorem get_fattime_fields (w : world) :
  let c := rtc_unix_secs (host w) in
  let g := gmtime c.1 c.2 in
  (g.1 = None -> get_fattime w = Some (0, set_host g.2 w)) /\
  (forall t, g.1 = Some t ->
     0 <= tm_mon t <= 11 -> 1 <= tm_mday t <= 31 -> 0 <= tm_hour t <= 23 ->
     0 <= tm_min t <= 59 -> 0 <= tm_sec t <= 61 ->
     exists x, get_fattime w = Some (x, set_host g.2 w) /\
       0 <= x < 2 ^ 32 /\
       Z.shiftr x 25 = (tm_year t - 80) mod 128 /\
       (80 <= tm_year t <= 207 -> Z.shiftr x 25 + 1980 = tm_year t + 1900) /\
       Z.land (Z.shiftr x 21) 15 = tm_mon t + 1 /\
       Z.land (Z.shiftr x 16) 31 = tm_mday t /\
       Z.land (Z.shiftr x 11) 31 = tm_hour t /\
       Z.land (Z.shiftr x 5) 63 = tm_min t /\
       2 * Z.land x 31 = tm_sec t - tm_sec t mod 2).
Proof.
  intros c g.
  assert (Hrun : get_fattime w
    = Some (match g.1 with Some t => fattime t | None => 0 end, set_host g.2 w)).
  { unfold get_fattime, mbind, M_bind, mret, M_ret, bindM, host_op, retM.
    fold c. destruct c as [secs h1] eqn:Hc. simpl. subst g. simpl.
    by destruct (gmtime secs h1) as [o h2]. }
  split.
  - intros Hnone. by rewrite Hrun, Hnone.
  - intros t Hsome Hmon Hday Hhour Hmin Hsec.
    rewrite Hrun, Hsome. exists (fattime t). split; [reflexivity|].
    rewrite (fattime_sum t) by assumption.
    pose proof (Z.mod_pos_bound (tm_year t - 80) 128 ltac:(lia)) as Hyr.
    assert (Hy : 80 <= tm_year t <= 207 -> (tm_year t - 80) mod 128 = tm_year t - 80)
      by (intros; apply Z.mod_small; lia).
    set (y := (tm_year t - 80) mod 128) in *.
    rewrite !Z.shiftr_div_pow2 by lia.
    change 15 with (Z.ones 4). change 31 with (Z.ones 5). change 63 with (Z.ones 6).
    rewrite !Z.land_ones by lia.
    change (2 ^ 25) with 33554432. change (2 ^ 21) with 2097152.
    change (2 ^ 16) with 65536. change (2 ^ 11) with 2048. change (2 ^ 5) with 32.
    change (2 ^ 4) with 16. change (2 ^ 6) with 64. change (2 ^ 32) with 4294967296.
    clearbody y.
    repeat split; intros; try specialize (Hy ltac:(assumption));
      Z.div_mod_to_equations; lia.
Qed.

End FattimeFacts.

Lemma get_fattime_fields_witness :
  let w := Sim.boot (Sim.pool_with fatfs_zero) (Sim.mounts_with mnt_zero) ∅
             (Sim.machine 0 0 0 FR_OK) in
  exists x, get_fattime (HP := SimFs.sim_paths) w = Some (x, w) /\
    Z.shiftr x 25 + 1980 = 2025 /\ Z.land (Z.shiftr x 21) 15 = 1 /\
    Z.land (Z.shiftr x 16) 31 = 1 /\ Z.land (Z.shiftr x 11) 31 = 12 /\
    Z.land (Z.shiftr x 5) 63 = 15 /\ 2 * Z.land x 31 = 30.
Proof.
  intros w.
  destruct (get_fattime_fields (HP := SimFs.sim_paths) w) as [_ Hsome].
  destruct (Hsome (mk_tm 30 15 12 1 0 125) eq_refl) as (x & Hrun & _ & _ & Hy & Hrest);
    simpl; try lia.
  exists x. split; [exact Hrun|]. split; [apply Hy; simpl; lia|]. exact Hrest.
Defined.

(** ** Properties of the operations on paths *)

Section PathFacts.
Context {HC : HostConsts} {ET : EngineTypes} {HO : Host} {HP : HostPaths}.

Lemma fail_rc_ok (w : world) :
  fail_rc FR_OK w = Some (-1, set_host (mk_hst 0 (h_sys (host w))) w).
Proof. reflexivity. Qed.

Lemma FAT_GET_MNT_unmounted (vfs : vfs_handler_t) (w : world) :
  privdata vfs = None -> FAT_GET_MNT vfs w = Some (None, w).
Proof. intros Hp. unfold FAT_GET_MNT. by rewrite Hp. Qed.

Lemma FAT_GET_MNT_mounted (vfs : vfs_handler_t) (w : world) (mi : nat) (mnt : fatfs_mnt_t) :
  privdata vfs = Some mi -> fat_mnt w !! mi = Some mnt ->
  let c := f_chdrive (mnt_dev_path mnt) (host w) in
  FAT_GET_MNT vfs w
  = Some (if c.1 =? FR_OK then Some mnt else None,
          after_calls w c.2 [Ev_f_chdrive (mnt_dev_path mnt)]).
Proof.
  intros Hp Hm c. unfold FAT_GET_MNT. rewrite Hp.
  unfold mbind, M_bind, mret, M_ret, bindM, get_mnt, call, retM. rewrite Hm.
  fold c. destruct c as [rc h]. simpl. by destruct (rc =? FR_OK).
Qed.

(** X2.  The five operations on paths fail with errno 0.  When the handler
    has no mount, or when the engine refuses to change to the drive of the
    mount, rename, unlink, mkdir, rmdir and stat return -1 and set errno to 0
    ("no error"): the jump to the error label is taken with the result code
    still FR_OK, and the engine's own code is dropped.  The operation itself
    is not attempted, and stat leaves the caller's buffer as it was. *)
Theorem path_ops_fail_with_errno_zero (vfs : vfs_handler_t) (w : world) :
  (privdata vfs = None ->
     let w' := set_host (mk_hst 0 (h_sys (host w))) w in
     (forall fn1 fn2, fat_rename vfs fn1 fn2 w = Some (-1, w')) /\
     (forall fn, fat_unlink vfs fn w = Some (-1, w')) /\
     (forall fn, fat_mkdir vfs fn w = Some (-1, w')) /\
     (forall fn, fat_rmdir vfs fn w = Some (-1, w')) /\
     (forall path st, fat_stat vfs path st w = Some ((-1, st), w')) /\
     errno w' = 0) /\
  (forall mi mnt, privdata vfs = Some mi -> fat_mnt w !! mi = Some mnt ->
     let c := f_chdrive (mnt_dev_path mnt) (host w) in
     c.1 <> FR_OK ->
     let w' := after_calls w (mk_hst 0 (h_sys c.2)) [Ev_f_chdrive (mnt_dev_path mnt)] in
     (forall fn1 fn2, fat_rename vfs fn1 fn2 w = Some (-1, w')) /\
     (forall fn, fat_unlink vfs fn w = Some (-1, w')) /\
     (forall fn, fat_mkdir vfs fn w = Some (-1, w')) /\
     (forall fn, fat_rmdir vfs fn w = Some (-1, w')) /\
     (forall path st, fat_stat vfs path st w = Some ((-1, st), w')) /\
     errno w' = 0).
Proof.
  split.
  - intros Hp w'.
    unfold fat_rename, fat_unlink, fat_mkdir, fat_rmdir, fat_stat, mbind, M_bind.
    repeat split; intros;
      rewrite ?(bindM_run _ _ _ _ _ (FAT_GET_MNT_unmounted vfs w Hp)); reflexivity.
  - intros mi mnt Hp Hm c Hc w'.
    pose proof (FAT_GET_MNT_mounted vfs w mi mnt Hp Hm) as Hg. cbv zeta in Hg. fold c in Hg.
    destruct (Z.eqb_spec c.1 FR_OK) as [|_]; [done|].
    unfold fat_rename, fat_unlink, fat_mkdir, fat_rmdir, fat_stat, mbind, M_bind.
    repeat split; intros; rewrite ?(bindM_run _ _ _ _ _ Hg); reflexivity.
Qed.

(** X3.  stat of the root directory does not ask the engine.  On a mounted
    handler whose drive change succeeds, stat of the empty path or of "/"
    returns 0 and describes a directory of size -1 with one link, the device
    number of the handler and no time stamps; [f_stat] is not called, so the
    answer is the same whatever the volume holds. *)
Theorem fat_stat_root (vfs : vfs_handler_t) (w : world) (mi : nat) (mnt : fatfs_mnt_t)
    (path : string) (st : stat * stat_times) :
  privdata vfs = Some mi -> fat_mnt w !! mi = Some mnt ->
  let c := f_chdrive (mnt_dev_path mnt) (host w) in
  c.1 = FR_OK ->
  path = "" \/ path = "/" ->
  fat_stat vfs (Some path) st w
  = Some ((0, (mk_stat (Z.of_N (vh_addr vfs)) (Z.lor stat_rwx S_IFDIR) 1 (-1) 0 0,
               mk_times 0 0 0)),
          after_calls w c.2 [Ev_f_chdrive (mnt_dev_path mnt)]).
Proof.
  intros Hp Hm c Hc Hpath.
  pose proof (FAT_GET_MNT_mounted vfs w mi mnt Hp Hm) as Hg. cbv zeta in Hg. fold c in Hg.
  rewrite Hc in Hg. change (FR_OK =? FR_OK) with true in Hg. lazy iota in Hg.
  unfold fat_stat, mbind, M_bind. rewrite (bindM_run _ _ _ _ _ Hg).
  by destruct Hpath as [-> | ->].
Qed.

(** With the drive changed, each operation reports what the engine
    answers: 0 for FR_OK, and -1 with errno translated otherwise. *)
Lemma fat_unlink_mounted (vfs : vfs_handler_t) (w : world) (mi : nat) (mnt : fatfs_mnt_t)
    (fn : option string) :
  privdata vfs = Some mi -> fat_mnt w !! mi = Some mnt ->
  let c := f_chdrive (mnt_dev_path mnt) (host w) in
  c.1 = FR_OK ->
  let u := f_unlink fn c.2 in
  fat_unlink vfs fn w
  = Some (if u.1 =? FR_OK then 0 else -1,
          after_calls w
            (if u.1 =? FR_OK then u.2
             else mk_hst (fatfs_set_errno u.1 (h_errno u.2)) (h_sys u.2))
            [Ev_f_chdrive (mnt_dev_path mnt)]).
Proof.
  intros Hp Hm c Hc u.
  pose proof (FAT_GET_MNT_mounted vfs w mi mnt Hp Hm) as Hg. cbv zeta in Hg. fold c in Hg.
  rewrite Hc in Hg. change (FR_OK =? FR_OK) with true in Hg. lazy iota in Hg.
  unfold fat_unlink, mbind, M_bind. rewrite (bindM_run _ _ _ _ _ Hg).
  unfold bindM, host_op, after_calls. simpl. fold u.
  destruct u as [rc h]. simpl. by destruct (rc =? FR_OK).
Qed.

End PathFacts.

Lemma path_ops_fail_with_errno_zero_witness :
  let w := Sim.boot (Sim.pool_with fatfs_zero) (Sim.mounts_with mnt_zero) ∅
             (mk_hst 5 (h_sys (Sim.machine 0 0 0 FR_OK))) in
  let vfs := mk_vfs_handler 0x9000 "/sd" None in
  errno w = 5 /\
  fat_unlink (HC := Sim.consts 0x0f false) (HP := SimFs.sim_paths) vfs (Some "/log.txt") w
  = Some (-1, set_host (mk_hst 0 (h_sys (host w))) w).
Proof.
  intros w vfs. split; [reflexivity|].
  destruct (path_ops_fail_with_errno_zero (HC := Sim.consts 0x0f false)
              (HP := SimFs.sim_paths) vfs w) as [Hnone _].
  destruct (Hnone eq_refl) as (_ & Hunlink & _).
  apply Hunlink.
Defined.

Lemma fat_stat_root_witness :
  let w := Sim.boot (Sim.pool_with fatfs_zero) (Sim.mounts_with (Sim.volume None None)) ∅
             (Sim.machine 0 0 0 FR_OK) in
  let vfs := mk_vfs_handler 0x9000 "/sd" (Some 0%nat) in
  fat_stat (HC := Sim.consts 0x0f false) (HP := SimFs.sim_paths) vfs (Some "/")
    (stat_zero, mk_times 0 0 0) w
  = Some ((0, (mk_stat 0x9000 0x416D 1 (-1) 0 0, mk_times 0 0 0)),
          after_calls w (host w) [Ev_f_chdrive "0:"]).
Proof.
  intros w vfs.
  exact (fat_stat_root (HC := Sim.consts 0x0f false) (HP := SimFs.sim_paths)
           vfs w 0%nat (Sim.volume None None) "/" (stat_zero, mk_times 0 0 0)
           eq_refl eq_refl eq_refl (or_intror eq_refl)).
Defined.

(** ** Running the operations on one record of the mount table *)

Section MountSteps.
Context {HC : HostConsts} {ET : EngineTypes} {HO : Host}.

Lemma at_mnt_start (w : world) (i : nat) (m : fatfs_mnt_t) :
  fat_mnt w !! i = Some m -> w = at_mnt w i m (VolToPart w) (host w) [].
Proof.
  intros Hm. unfold at_mnt. rewrite list_insert_id by done.
  rewrite app_nil_r. by destruct w.
Qed.

Lemma run_from_start_mnt {A} (m : M A) (w : world) (i : nat) (r : fatfs_mnt_t) :
  fat_mnt w !! i = Some r -> m w = m (at_mnt w i r (VolToPart w) (host w) []).
Proof. intros Hm. by rewrite <- (at_mnt_start w i r Hm). Qed.

Lemma at_mnt_again (w : world) (i : nat) (m m' : fatfs_mnt_t) (vp vp' : list PARTITION)
    (h h' : hst) (evs evs' : list event) :
  at_mnt (at_mnt w i m vp h evs) i m' vp' h' evs' = at_mnt w i m' vp' h' (evs ++ evs').
Proof. unfold at_mnt. simpl. by rewrite list_insert_insert_eq, app_assoc. Qed.

Section Steps.
Variables (w : world) (i : nat).
Hypothesis Hi : (i < length (fat_mnt w))%nat.

Lemma get_mnt_at_mnt m vp h evs :
  get_mnt i (at_mnt w i m vp h evs) = Some (m, at_mnt w i m vp h evs).
Proof. unfold get_mnt, at_mnt. simpl. by rewrite list_lookup_insert_eq. Qed.

Lemma put_mnt_at_mnt (m' : fatfs_mnt_t) m vp h evs :
  put_mnt i m' (at_mnt w i m vp h evs) = Some (tt, at_mnt w i m' vp h evs).
Proof.
  unfold put_mnt, at_mnt. simpl. rewrite list_lookup_insert_eq by done.
  unfold set_fat_mnt. simpl. by rewrite list_insert_insert_eq.
Qed.

Lemma call_at_mnt {A} (ev : event) (op : hst -> A * hst) m vp h evs :
  call ev op (at_mnt w i m vp h evs)
  = Some ((op h).1, at_mnt w i m vp (op h).2 (evs ++ [ev])).
Proof.
  unfold call, at_mnt. simpl. destruct (op h) as [a h']. simpl.
  by rewrite app_assoc.
Qed.

Lemma set_errno_at_mnt (e : Z) m vp h evs :
  set_errno e (at_mnt w i m vp h evs) = Some (tt, at_mnt w i m vp (mk_hst e (h_sys h)) evs).
Proof. reflexivity. Qed.

Lemma set_parts_at_mnt (v : list PARTITION) m vp h evs :
  modify (set_VolToPart v) (at_mnt w i m vp h evs) = Some (tt, at_mnt w i m v h evs).
Proof. reflexivity. Qed.

Lemma free_if_at_mnt (p : option N) m vp h evs :
  free_if p (at_mnt w i m vp h evs)
  = Some (tt, at_mnt w i m vp
                (match p with Some a => (free a h).2 | None => h end)
                (evs ++ match p with Some a => [Ev_free a] | None => [] end)).
Proof.
  destruct p as [a|]; simpl.
  - rewrite call_at_mnt. by destruct (free a h) as [[] h'].
  - by rewrite app_nil_r.
Qed.

Lemma shutdown_if_at_mnt (p : option N) m vp h evs :
  shutdown_if p (at_mnt w i m vp h evs)
  = Some (tt, at_mnt w i m vp
                (match p with Some d => (bd_shutdown d h).2 | None => h end)
                (evs ++ match p with Some d => [Ev_shutdown d] | None => [] end)).
Proof.
  destruct p as [d|]; simpl.
  - unfold mbind, M_bind, bindM. by rewrite call_at_mnt.
  - by rewrite app_nil_r.
Qed.

(** [fs_fat_free] on a record: the record is zeroed, and the calls are
    those of [release_calls]. *)
Lemma fs_fat_free_at_mnt m vp h evs :
  exists h',
    fs_fat_free (Some i) (at_mnt w i m vp h evs)
    = Some (tt, at_mnt w i mnt_zero vp h' (evs ++ release_calls m)) /\
    h_errno h' = h_errno
      (let h1 := match vh_addr <$> mnt_vfsh m with Some a => (free a h).2 | None => h end in
       let h2 := match mnt_fs m with Some a => (free a h1).2 | None => h1 end in
       let h3 := match mnt_dev m with Some d => (bd_shutdown d h2).2 | None => h2 end in
       let h4 := match mnt_dev_dma m with Some d => (bd_shutdown d h3).2 | None => h3 end in
       if FATFS_USE_DMA_BUF
       then match mnt_dmabuf m with Some a => (free a h4).2 | None => h4 end
       else h4).
Proof.
  unfold fs_fat_free, mbind, M_bind, mret, M_ret.
  rewrite (bindM_run _ _ _ _ _ (get_mnt_at_mnt m vp h evs)).
  rewrite (bindM_run _ _ _ _ _ (free_if_at_mnt _ m vp h evs)).
  rewrite (bindM_run _ _ _ _ _ (free_if_at_mnt _ m vp _ _)).
  rewrite (bindM_run _ _ _ _ _ (shutdown_if_at_mnt _ m vp _ _)).
  rewrite (bindM_run _ _ _ _ _ (shutdown_if_at_mnt _ m vp _ _)).
  unfold release_calls.
  destruct FATFS_USE_DMA_BUF.
  - rewrite (bindM_run _ _ _ _ _ (free_if_at_mnt _ m vp _ _)).
    rewrite put_mnt_at_mnt. eexists. split; [|reflexivity].
    do 2 f_equal. rewrite <- !app_assoc. by destruct (mnt_vfsh m).
  - unfold retM, bindM. rewrite put_mnt_at_mnt. eexists. split; [|reflexivity].
    do 2 f_equal. rewrite <- !app_assoc, app_nil_r. by destruct (mnt_vfsh m).
Qed.

End Steps.

(** Runs that only call the collaborators. *)
Lemma after_calls_start (w : world) : w = after_calls w (host w) [].
Proof. unfold after_calls. rewrite app_nil_r. by destruct w. Qed.

Lemma run_from_calls {A} (m : M A) (w : world) : m w = m (after_calls w (host w) []).
Proof. by rewrite <- after_calls_start. Qed.

Lemma call_after {A} (ev : event) (op : hst -> A * hst) (w : world) h evs :
  call ev op (after_calls w h evs) = Some ((op h).1, after_calls w (op h).2 (evs ++ [ev])).
Proof.
  unfold call, after_calls. simpl. destruct (op h) as [a h']. simpl.
  by rewrite app_assoc.
Qed.

Lemma set_errno_after (e : Z) (w : world) h evs :
  set_errno e (after_calls w h evs) = Some (tt, after_calls w (mk_hst e (h_sys h)) evs).
Proof. reflexivity. Qed.

Lemma set_sd_dev_after (p : option N) (w : world) h evs :
  modify (set_sd_dev p) (after_calls w h evs) = Some (tt, after_calls (set_sd_dev p w) h evs).
Proof. reflexivity. Qed.

Lemma parts_at_mnt (w : world) i m vp h evs : VolToPart (at_mnt w i m vp h evs) = vp.
Proof. reflexivity. Qed.
Lemma host_at_mnt (w : world) i m vp h evs : host (at_mnt w i m vp h evs) = h.
Proof. reflexivity. Qed.
Lemma errno_at_mnt (w : world) i m vp h evs : errno (at_mnt w i m vp h evs) = h_errno h.
Proof. reflexivity. Qed.

Lemma FAT_GET_MOUNT_unmounted (w : world) (pdrv : Z) (body : fatfs_mnt_t -> N -> M Z) :
  (Z.of_nat MAX_FAT_MOUNTS <= pdrv mod 256 \/
   exists m, fat_mnt w !! Z.to_nat (pdrv mod 256) = Some m /\ mnt_dev m = None) ->
  FAT_GET_MOUNT pdrv body w = Some (STA_NOINIT, w).
Proof.
  intros Hun. unfold FAT_GET_MOUNT.
  destruct (Z.ltb_spec (pdrv mod 256) (Z.of_nat MAX_FAT_MOUNTS)) as [Hlt|Hge]; [|done].
  destruct Hun as [Hge|(m & Hm & Hd)]; [lia|].
  unfold mbind, M_bind, bindM, get_mnt. by rewrite Hm, Hd.
Qed.

End MountSteps.

Ltac cstep :=
  unfold mbind, M_bind, mret, M_ret; lazy beta iota;
  first
    [ erewrite (bindM_run (call _ _)) by (apply call_after)
    | erewrite (bindM_run (set_errno _)) by (apply set_errno_after)
    | erewrite (bindM_run (modify (set_sd_dev _))) by (apply set_sd_dev_after)
    | erewrite (bindM_run (gets _)) by reflexivity
    | erewrite (bindM_run (retM _)) by reflexivity ].

Ltac mstep :=
  unfold mbind, M_bind, mret, M_ret; lazy beta iota;
  first
    [ erewrite (bindM_run (get_mnt _)) by (apply get_mnt_at_mnt; assumption)
    | erewrite (bindM_run (put_mnt _ _)) by (apply put_mnt_at_mnt; assumption)
    | erewrite (bindM_run (call _ _)) by (apply call_at_mnt)
    | erewrite (bindM_run (set_errno _)) by (apply set_errno_at_mnt)
    | erewrite (bindM_run (modify (set_VolToPart _))) by (apply set_parts_at_mnt)
    | erewrite (bindM_run (free_if _)) by (apply free_if_at_mnt)
    | erewrite (bindM_run (shutdown_if _)) by (apply shutdown_if_at_mnt)
    | erewrite (bindM_run (gets _)) by reflexivity
    | erewrite (bindM_run (retM _)) by reflexivity ].

(** ** Properties of the disk I/O entry points *)

Section DiskFacts.
Context {HC : HostConsts} {ET : EngineTypes} {HO : Host}.

(** X4.  A drive that is not mounted answers STA_NOINIT.  When the drive
    number (a byte) is not below the number of mount records, or its record
    has no device, [disk_initialize], [disk_status], [disk_read],
    [disk_write] and [disk_ioctl] all return STA_NOINIT, also where the
    result is a DRESULT, and do nothing: no device is called and no state
    changes. *)
Theorem disk_ops_unmounted (w : world) (pdrv : Z) :
  (Z.of_nat MAX_FAT_MOUNTS <= pdrv mod 256 \/
   exists m, fat_mnt w !! Z.to_nat (pdrv mod 256) = Some m /\ mnt_dev m = None) ->
  disk_initialize pdrv w = Some (STA_NOINIT, w) /\
  disk_status pdrv w = Some (STA_NOINIT, w) /\
  (forall buff sector count, disk_read pdrv buff sector count w = Some (STA_NOINIT, w)) /\
  (forall buff sector count, disk_write pdrv buff sector count w = Some (STA_NOINIT, w)) /\
  (forall cmd buff, disk_ioctl pdrv cmd buff w = Some (STA_NOINIT, w)).
Proof.
  intros Hun. unfold disk_initialize, disk_status, disk_read, disk_write, disk_ioctl.
  repeat split; intros; by apply FAT_GET_MOUNT_unmounted.
Qed.

(** X5.  [disk_ioctl] on a mounted drive never reports a device failure.
    CTRL_SYNC flushes the primary device and returns RES_OK whatever the
    flush returned; each of the five known codes returns RES_OK; any other
    code returns RES_PARERR without a call or a change. *)
Theorem disk_ioctl_results (w : world) (pdrv cmd buff : Z) (mnt : fatfs_mnt_t) (pio : N) :
  0 <= pdrv < 256 -> pdrv < Z.of_nat MAX_FAT_MOUNTS ->
  fat_mnt w !! Z.to_nat pdrv = Some mnt -> mnt_dev mnt = Some pio ->
  (cmd = CTRL_SYNC ->
     disk_ioctl pdrv cmd buff w
     = Some (RES_OK, after_calls w (bd_flush pio (host w)).2 [Ev_flush pio])) /\
  (cmd = CTRL_SYNC \/ cmd = GET_SECTOR_COUNT \/ cmd = GET_SECTOR_SIZE \/
   cmd = GET_BLOCK_SIZE \/ cmd = CTRL_TRIM ->
     exists w', disk_ioctl pdrv cmd buff w = Some (RES_OK, w')) /\
  (cmd <> CTRL_SYNC -> cmd <> GET_SECTOR_COUNT -> cmd <> GET_SECTOR_SIZE ->
   cmd <> GET_BLOCK_SIZE -> cmd <> CTRL_TRIM ->
     disk_ioctl pdrv cmd buff w = Some (RES_PARERR, w)).
Proof.
  intros Hb Hlt Hm Hd.
  unfold disk_ioctl. rewrite (FAT_GET_MOUNT_mounted w pdrv mnt pio) by done.
  unfold mbind, M_bind, mret, M_ret, bindM, call, gets, retM, after_calls.
  split; [|split].
  - intros ->. rewrite Z.eqb_refl. by destruct (bd_flush pio (host w)) as [rv h].
  - intros Hcmd.
    destruct (cmd =? CTRL_SYNC) eqn:E1.
    { destruct (bd_flush pio (host w)) as [rv h]. by eexists. }
    destruct (cmd =? GET_SECTOR_COUNT) eqn:E2.
    { destruct (bd_count_blocks pio (host w)) as [n h]. simpl.
      destruct (store buff 4 [u32 n] h) as [[] h']. by eexists. }
    destruct ((cmd =? GET_SECTOR_SIZE) || (cmd =? GET_BLOCK_SIZE)) eqn:E3.
    { simpl. destruct (store buff 2 _ (host w)) as [[] h']. by eexists. }
    destruct (cmd =? CTRL_TRIM) eqn:E4; [by eexists|].
    apply orb_false_elim in E3 as [E3 E5].
    apply Z.eqb_neq in E1, E2, E3, E4, E5.
    destruct Hcmd as [?|[?|[?|[?|?]]]]; done.
  - intros H1 H2 H3 H4 H5.
    apply Z.eqb_neq in H1, H2, H3, H4, H5. by rewrite H1, H2, H3, H4, H5.
Qed.

(** X6.  How a transfer reports failure.  A write on a mounted drive calls
    the primary device once and returns RES_OK when the device returns a
    non-negative value; when it returns a negative one, the result is
    RES_PARERR if the device left errno at EOVERFLOW and RES_ERROR for any
    other errno.  A read on a volume without a DMA device does the same. *)
Theorem disk_transfer_result (w : world) (pdrv buff sector count : Z)
    (mnt : fatfs_mnt_t) (pio : N) :
  0 <= pdrv < 256 -> pdrv < Z.of_nat MAX_FAT_MOUNTS ->
  fat_mnt w !! Z.to_nat pdrv = Some mnt -> mnt_dev mnt = Some pio ->
  let classify (r : Z * hst) :=
    if r.1 <? 0 then if h_errno r.2 =? EOVERFLOW then RES_PARERR else RES_ERROR
    else RES_OK in
  let wr := bd_write_blocks pio sector count buff (host w) in
  let rd := bd_read_blocks pio sector count buff (host w) in
  disk_write pdrv buff sector count w
  = Some (classify wr, after_calls w wr.2 [Ev_write_blocks pio sector count buff]) /\
  (mnt_dev_dma mnt = None ->
   disk_read pdrv buff sector count w
   = Some (classify rd, after_calls w rd.2 [Ev_read_blocks pio sector count buff])).
Proof.
  intros Hb Hlt Hm Hd classify wr rd. split.
  - unfold disk_write. rewrite (FAT_GET_MOUNT_mounted w pdrv mnt pio) by done.
    unfold mbind, M_bind, bindM, call, disk_result, after_calls, classify.
    fold wr. destruct wr as [rv h]. simpl. by destruct (rv <? 0).
  - intros Hdma. unfold disk_read. rewrite (FAT_GET_MOUNT_mounted w pdrv mnt pio) by done.
    unfold disk_read_route. rewrite Hdma.
    unfold mbind, M_bind, mret, M_ret, bindM, retM, call, disk_result, after_calls, classify.
    simpl. fold rd. destruct rd as [rv h]. simpl.
    rewrite Z.eqb_refl, andb_false_r. simpl. by destruct (rv <? 0).
Qed.

Lemma testbit_small (a n k : Z) : 0 <= a < 2 ^ n -> n <= k -> Z.testbit a k = false.
Proof.
  intros Ha Hk. destruct (Z.eq_dec a 0) as [->|Hne]; [apply Z.bits_0|].
  assert (0 <= n) by (destruct (Z.lt_ge_cases n 0); [rewrite Z.pow_neg_r in Ha; lia|lia]).
  apply Z.bits_above_log2; [lia|].
  apply Z.lt_le_trans with n; [|lia]. apply Z.log2_lt_pow2; lia.
Qed.

Lemma stat_set_bit (s : Z) : 0 <= STA_NOINIT < 256 -> Z.land (stat_set s) STA_NOINIT = STA_NOINIT.
Proof.
  intros Hn. unfold stat_set. apply Z.bits_inj'. intros k Hk.
  rewrite Z.land_spec. change 256 with (2 ^ 8).
  destruct (Z.lt_ge_cases k 8) as [Hlt|Hge].
  - rewrite Z.mod_pow2_bits_low by lia. rewrite Z.lor_spec.
    by destruct (Z.testbit s k), (Z.testbit STA_NOINIT k).
  - rewrite (testbit_small STA_NOINIT 8 k) by (change (2 ^ 8) with 256; lia).
    apply andb_false_r.
Qed.

Lemma stat_clear_bit (s : Z) : Z.land (stat_clear s) STA_NOINIT = 0.
Proof.
  unfold stat_clear. apply Z.bits_inj'. intros k Hk.
  rewrite Z.land_spec, Z.bits_0. change 256 with (2 ^ 8).
  destruct (Z.lt_ge_cases k 8) as [Hlt|Hge].
  - rewrite Z.mod_pow2_bits_low by lia. rewrite Z.land_spec, Z.lnot_spec by lia.
    by destruct (Z.testbit s k), (Z.testbit STA_NOINIT k).
  - rewrite Z.mod_pow2_bits_high by lia. reflexivity.
Qed.

(** The status after the two initialisations. *)
Lemma disk_initialize_run (w : world) (pdrv : Z) (mnt : fatfs_mnt_t) (pio : N) :
  0 <= pdrv < 256 -> pdrv < Z.of_nat MAX_FAT_MOUNTS ->
  fat_mnt w !! Z.to_nat pdrv = Some mnt -> mnt_dev mnt = Some pio ->
  let r1 := bd_init pio (host w) in
  let r2 := match mnt_dev_dma mnt with
            | Some dma => bd_init dma r1.2
            | None => (0, r1.2)
            end in
  let s1 := if r1.1 <? 0 then stat_set (mnt_dev_stat mnt) else stat_clear (mnt_dev_stat mnt) in
  let s := match mnt_dev_dma mnt with
           | Some _ => if r2.1 <? 0 then stat_set s1 else s1
           | None => s1
           end in
  disk_initialize pdrv w
  = Some (s, at_mnt w (Z.to_nat pdrv) (set_dev_stat s mnt) (VolToPart w) r2.2
               (Ev_init pio ::
                match mnt_dev_dma mnt with Some dma => [Ev_init dma] | None => [] end)).
Proof.
  intros Hb Hlt Hm Hd r1 r2 s1 s.
  assert (Hi : (Z.to_nat pdrv < length (fat_mnt w))%nat) by (by eapply lookup_lt_Some).
  unfold disk_initialize. rewrite (FAT_GET_MOUNT_mounted w pdrv mnt pio) by done.
  rewrite (Z.mod_small pdrv 256) by lia.
  rewrite (run_from_start_mnt _ w _ _ Hm).
  mstep. fold r1. mstep. fold s1.
  subst s r2. destruct (mnt_dev_dma mnt) as [dma|].
  - unfold mbind, M_bind. rewrite bindM_assoc. mstep.
    destruct ((bd_init dma r1.2).1 <? 0).
    + rewrite bindM_assoc. mstep. mstep. unfold retM. by rewrite <- app_assoc.
    + mstep. unfold retM. by rewrite <- app_assoc.
  - mstep. reflexivity.
Qed.

(** X7.  The status [disk_initialize] leaves.  On a mounted drive it
    initialises the primary device and then, whatever came of that, the DMA
    device if there is one.  The status it returns has the STA_NOINIT bits
    set when either initialisation failed and cleared when none did; it is
    stored in the record, which is otherwise unchanged, and [disk_status]
    returns it from then on. *)
Theorem disk_initialize_status (w : world) (pdrv : Z) (mnt : fatfs_mnt_t) (pio : N) :
  0 <= pdrv < 256 -> pdrv < Z.of_nat MAX_FAT_MOUNTS ->
  fat_mnt w !! Z.to_nat pdrv = Some mnt -> mnt_dev mnt = Some pio ->
  0 <= STA_NOINIT < 256 ->
  let r1 := bd_init pio (host w) in
  let r2 := match mnt_dev_dma mnt with
            | Some dma => bd_init dma r1.2
            | None => (0, r1.2)
            end in
  let failed := (r1.1 <? 0) || (r2.1 <? 0) in
  exists s w',
    disk_initialize pdrv w = Some (s, w') /\
    calls_made w w'
      (Ev_init pio :: match mnt_dev_dma mnt with Some dma => [Ev_init dma] | None => [] end) /\
    Z.land s STA_NOINIT = (if failed then STA_NOINIT else 0) /\
    fat_mnt w' = <[Z.to_nat pdrv := set_dev_stat s mnt]> (fat_mnt w) /\
    disk_status pdrv w' = Some (s, w').
Proof.
  intros Hb Hlt Hm Hd Hn r1 r2 failed.
  assert (Hi : (Z.to_nat pdrv < length (fat_mnt w))%nat) by (by eapply lookup_lt_Some).
  assert (Hstatus : forall s vp h evs,
    disk_status pdrv (at_mnt w (Z.to_nat pdrv) (set_dev_stat s mnt) vp h evs)
    = Some (s, at_mnt w (Z.to_nat pdrv) (set_dev_stat s mnt) vp h evs)).
  { intros s vp h evs. unfold disk_status.
    rewrite (FAT_GET_MOUNT_mounted _ pdrv (set_dev_stat s mnt) pio); try done.
    unfold at_mnt. simpl. by rewrite list_lookup_insert_eq. }
  pose proof (disk_initialize_run w pdrv mnt pio Hb Hlt Hm Hd) as Hrun.
  cbv zeta in Hrun. fold r1 in Hrun. fold r2 in Hrun.
  eexists _, _. split; [exact Hrun|].
  split; [reflexivity|].
  split; [|split; [reflexivity|apply Hstatus]].
  subst failed r2. destruct (mnt_dev_dma mnt) as [dma|].
  - destruct ((bd_init dma r1.2).1 <? 0).
    + rewrite orb_true_r. by apply stat_set_bit.
    + rewrite orb_false_r. destruct (r1.1 <? 0);
        [by apply stat_set_bit | apply stat_clear_bit].
  - simpl. rewrite orb_false_r. destruct (r1.1 <? 0);
      [by apply stat_set_bit | apply stat_clear_bit].
Qed.

End DiskFacts.

Lemma disk_ops_unmounted_witness :
  let w := Sim.boot (Sim.pool_with fatfs_zero) (Sim.mounts_with (Sim.volume None None)) ∅
             (Sim.machine 0 0 0 FR_OK) in
  disk_read (HC := Sim.consts 0x0f false) 1 0x2000 0 1 w = Some (1, w) /\
  disk_status (HC := Sim.consts 0x0f false) 260 w = Some (1, w).
Proof.
  intros w. split.
  - destruct (disk_ops_unmounted (HC := Sim.consts 0x0f false) w 1) as (_ & _ & Hrd & _).
    + right. exists mnt_zero. split; reflexivity.
    + apply Hrd.
  - destruct (disk_ops_unmounted (HC := Sim.consts 0x0f false) w 260) as (_ & Hst & _).
    + left. vm_compute. discriminate.
    + exact Hst.
Defined.

Lemma disk_ioctl_results_witness :
  let w := Sim.boot (Sim.pool_with fatfs_zero) (Sim.mounts_with (Sim.volume None None)) ∅
             (Sim.machine 0 0 0 FR_OK) in
  disk_ioctl (HC := Sim.consts 0x0f false) 0 0 0x2000 w
    = Some (0, after_calls w (host w) [Ev_flush 0x100]) /\
  disk_ioctl (HC := Sim.consts 0x0f false) 0 77 0x2000 w = Some (4, w).
Proof.
  intros w.
  destruct (disk_ioctl_results (HC := Sim.consts 0x0f false) w 0 0 0x2000
              (Sim.volume None None) 0x100%N) as (Hsync & _);
    [lia | vm_compute; reflexivity | reflexivity | reflexivity |].
  destruct (disk_ioctl_results (HC := Sim.consts 0x0f false) w 0 77 0x2000
              (Sim.volume None None) 0x100%N) as (_ & _ & Hbad);
    [lia | vm_compute; reflexivity | reflexivity | reflexivity |].
  split; [exact (Hsync eq_refl)|].
  apply Hbad; discriminate.
Defined.

Lemma disk_transfer_result_witness :
  let w := Sim.boot (Sim.pool_with fatfs_zero) (Sim.mounts_with (Sim.volume None None)) ∅
             (Sim.machine 0 0 0 FR_OK) in
  disk_write (HC := Sim.consts 0x0f false) 0 0x2000 64 8 w
  = Some (0, after_calls w (host w) [Ev_write_blocks 0x100 64 8 0x2000]).
Proof.
  intros w.
  destruct (disk_transfer_result (HC := Sim.consts 0x0f false) w 0 0x2000 64 8
              (Sim.volume None None) 0x100%N) as (Hwr & _);
    [lia | vm_compute; reflexivity | reflexivity | reflexivity |].
  exact Hwr.
Defined.

Lemma disk_initialize_status_witness :
  let w := Sim.boot (Sim.pool_with fatfs_zero)
             (Sim.mounts_with (set_dev_stat 1 (Sim.volume (Some 0x200%N) None))) ∅
             (Sim.machine 0 0 0 FR_OK) in
  exists s w',
    disk_initialize (HC := Sim.consts 0x0f false) 0 w = Some (s, w') /\
    calls_made w w' [Ev_init 0x100; Ev_init 0x200] /\
    Z.land s 1 = 0 /\
    disk_status (HC := Sim.consts 0x0f false) 0 w' = Some (s, w').
Proof.
  intros w.
  destruct (disk_initialize_status (HC := Sim.consts 0x0f false) w 0
              (set_dev_stat 1 (Sim.volume (Some 0x200%N) None)) 0x100%N)
    as (s & w' & Hrun & Hcalls & Hbit & _ & Hst);
    [lia | vm_compute; reflexivity | reflexivity | reflexivity | simpl; lia |].
  exists s, w'. repeat split; assumption.
Defined.

(** ** Properties of mounting and unmounting *)

Ltac mlock :=
  repeat first
    [ mstep
    | rewrite bindM_assoc
    | rewrite bindM_deref
    | rewrite bindM_undefined
    | progress unfold mbind, M_bind, mret, M_ret
    | progress unfold fs_fat_free
    | progress rewrite ?parts_at_mnt, ?host_at_mnt, ?errno_at_mnt
    | progress cbn [mnt_fs mnt_vfsh mnt_dev mnt_dev_dma mnt_dev_stat mnt_dev_id
                    mnt_dev_path mnt_dmabuf fmap option_fmap option_map vh_addr]
    | match goal with
      | |- context [match ?c with _ => _ end] =>
          lazymatch c with
          | context [at_mnt] => fail
          | _ => destruct c eqn:?
          end
      end ].

Ltac in_trace :=
  repeat first
    [ apply list_elem_of_here
    | apply elem_of_app; right; apply list_elem_of_here
    | apply elem_of_app; left ].

Section MountFacts.
Context {HC : HostConsts} {ET : EngineTypes} {HO : Host}.

Lemma find_free_mnt_slot (tbl : list fatfs_mnt_t) (i : nat) :
  find_free_mnt tbl = Some i ->
  (i < MAX_FAT_MOUNTS)%nat /\ exists m, tbl !! i = Some m /\ mnt_dev m = None.
Proof.
  unfold find_free_mnt. destruct (list_find _ _) as [[j m]|] eqn:Hf; [|done].
  simpl. intros [= ->]. apply list_find_Some in Hf as (Hm & Hdev & _).
  apply lookup_take_Some in Hm as [Hm Hlt]. split; [done|]. by exists m.
Qed.

(** What a run of [fs_fat_mount] that found a free record can leave: the
    record zeroed again, with -1, or the record of the mounted volume,
    with 0. *)
Lemma fs_fat_mount_outcome (w : world) (mp : string) (dev_pio : N) (dev_dma : option N)
    (partition : Z) (i : nat) :
  initted w <> 0 -> find_free_mnt (fat_mnt w) = Some i ->
  match fs_fat_mount mp dev_pio dev_dma partition w with
  | None => True
  | Some (r, w') =>
      exists vp h evs,
        (r = -1 /\ w' = at_mnt w i mnt_zero vp h evs /\
         (0 <= (bd_init dev_pio (host w)).1 -> Ev_shutdown dev_pio ∈ evs)) \/
        (r = 0 /\ exists va fs dma b,
           w' = at_mnt w i
                  (mk_mnt (Some fs) (Some (mk_vfs_handler va mp (Some i))) (Some dev_pio)
                     dma 0 (Z.of_nat i mod 256) (drive_path (Z.of_nat i mod 256)) b)
                  vp h evs /\
           0 <= (bd_init dev_pio (host w)).1 /\
           Ev_f_mount (Some fs) (drive_path (Z.of_nat i mod 256)) 1 ∈ evs /\
           Ev_nmmgr_handler_add mp ∈ evs)
  end.
Proof.
  intros Hini Hfree.
  destruct (find_free_mnt_slot _ _ Hfree) as (Hlt & m0 & Hm0 & Hdev0).
  assert (Hi : (i < length (fat_mnt w))%nat) by (by eapply lookup_lt_Some).
  unfold fs_fat_mount, mbind, M_bind.
  rewrite (bindM_run (gets initted) _ w w (initted w)) by reflexivity.
  destruct (Z.eqb_spec (initted w) 0) as [|_]; [done|].
  rewrite (bindM_run (gets fat_mnt) _ w w (fat_mnt w)) by reflexivity.
  rewrite Hfree.
  rewrite (run_from_start_mnt _ w _ _ Hm0).
  mlock; unfold retM; lazy beta iota; try exact I.
  all: eexists _, _, _.
  all: first
    [ left; split; [reflexivity|]; split; [reflexivity|]; intros Hok;
      first [ exfalso; revert Hok; apply Z.lt_nge, Z.ltb_lt; assumption
            | in_trace ]
    | right; split; [reflexivity|]; eexists _, _, _, _; split; [reflexivity|];
      split; [apply Z.ltb_ge; assumption|]; split; in_trace ].
Qed.

Lemma find_free_mnt_none (tbl : list fatfs_mnt_t) :
  Forall (fun m => mnt_dev m <> None) (take MAX_FAT_MOUNTS tbl) -> find_free_mnt tbl = None.
Proof.
  intros Hall. unfold find_free_mnt.
  destruct (list_find _ _) as [[j m]|] eqn:Hf; [|done].
  apply list_find_Some in Hf as (Hm & Hdev & _).
  rewrite Forall_forall in Hall. exfalso. apply (Hall m); [|done].
  apply list_elem_of_lookup. by exists j.
Qed.

Lemma find_mount_of_registered (tbl : list fatfs_mnt_t) (mp : string) (i : nat) :
  registered tbl mp i ->
  exists k, (k <= i)%nat /\ find_mount mp tbl = Some k /\ registered tbl mp k.
Proof.
  intros Hreg. destruct (find_mount mp tbl) as [k|] eqn:Hf.
  - exists k. split; [|split; [done|by apply find_mount_registered]].
    unfold find_mount in Hf.
    destruct (list_find _ _) as [[k' m]|] eqn:Hl; [|done].
    simpl in Hf. injection Hf as ->.
    apply list_find_Some in Hl as (_ & _ & Hmin).
    destruct (le_lt_dec k i) as [|Hlt]; [done|]. exfalso.
    destruct Hreg as (Hi & m' & v & Hm' & Hv & Hp).
    apply (Hmin i m'); [by rewrite lookup_take_lt | done |].
    apply (mounted_at_registered tbl mp i m' Hi Hm'). split; [done|]. by exists m', v.
  - exfalso. unfold find_mount in Hf.
    destruct (list_find _ _) as [[k m]|] eqn:Hl; [done|].
    destruct Hreg as (Hi & m & v & Hm & Hv & Hp).
    eapply list_find_None in Hl. rewrite Forall_forall in Hl.
    apply (Hl m).
    + apply list_elem_of_lookup. exists i. by rewrite lookup_take_lt.
    + apply (mounted_at_registered tbl mp i m Hi Hm). split; [done|]. by exists m, v.
Qed.

Lemma fs_fat_mount_uninitialised (w : world) (mp : string) (dev_pio : N)
    (dev_dma : option N) (partition : Z) :
  initted w = 0 -> fs_fat_mount mp dev_pio dev_dma partition w = Some (-1, w).
Proof.
  intros Hini. unfold fs_fat_mount, mbind, M_bind, bindM, gets. simpl.
  by rewrite Hini.
Qed.

(** X8.  [fs_fat_mount] refuses without touching anything when the layer is
    not initialised, and when every record of the mount table holds a
    device: it returns -1, no device is initialised, nothing is allocated
    and no state changes. *)
Theorem fs_fat_mount_refused (w : world) (mp : string) (dev_pio : N) (dev_dma : option N)
    (partition : Z) :
  initted w = 0 \/ Forall (fun m => mnt_dev m <> None) (take MAX_FAT_MOUNTS (fat_mnt w)) ->
  fs_fat_mount mp dev_pio dev_dma partition w = Some (-1, w).
Proof.
  intros Hno. unfold fs_fat_mount, mbind, M_bind, bindM, gets. simpl.
  destruct (Z.eqb_spec (initted w) 0) as [|Hini]; [done|].
  destruct Hno as [|Hfull]; [done|].
  by rewrite (find_free_mnt_none _ Hfull).
Qed.

(** X9.  A mount that fails leaves no trace in the registry.  When
    [fs_fat_mount] returns -1, the handle pool and the initialisation flag
    are as before and the mount table holds the same volumes: the record
    that had been picked is zeroed, and no other record is touched.  If the
    primary device had been initialised, it has been shut down again. *)
Theorem fs_fat_mount_failure_unwinds (w w' : world) (mp : string) (dev_pio : N)
    (dev_dma : option N) (partition : Z) :
  fs_fat_mount mp dev_pio dev_dma partition w = Some (-1, w') ->
  fh w' = fh w /\ initted w' = initted w /\
  (initted w = 0 \/ find_free_mnt (fat_mnt w) = None -> w' = w) /\
  (forall i, initted w <> 0 -> find_free_mnt (fat_mnt w) = Some i ->
     fat_mnt w' = <[i := mnt_zero]> (fat_mnt w) /\
     exists evs, calls_made w w' evs /\
       (0 <= (bd_init dev_pio (host w)).1 -> Ev_shutdown dev_pio ∈ evs)).
Proof.
  intros Hrun.
  destruct (Z.eq_dec (initted w) 0) as [Hini|Hini].
  { assert (w' = w) as ->.
    { revert Hrun. unfold fs_fat_mount, mbind, M_bind, bindM, gets. simpl.
      rewrite Hini. simpl. by intros [= <-]. }
    repeat split; try done. }
  destruct (find_free_mnt (fat_mnt w)) as [i|] eqn:Hfree.
  - pose proof (fs_fat_mount_outcome w mp dev_pio dev_dma partition i Hini Hfree) as Hout.
    rewrite Hrun in Hout. destruct Hout as (vp & h & evs & [(_ & -> & Hsd)|(Hr & _)]); [|done].
    split; [reflexivity|]. split; [reflexivity|]. split.
    + intros [|]; done.
    + intros j _ [= <-]. split; [reflexivity|]. exists evs. by split.
  - assert (w' = w) as ->.
    { revert Hrun. unfold fs_fat_mount, mbind, M_bind, bindM, gets. simpl.
      destruct (Z.eqb_spec (initted w) 0) as [|_]; [done|]. rewrite Hfree.
      simpl. by intros [= <-]. }
    repeat split; try done.
Qed.

(** X10.  A volume that has been mounted is found.  When [fs_fat_mount]
    returns 0, the layer was initialised and the volume sits in the first
    record that had no device: the record holds the primary device, a
    handler named [mp] that points back at the record, and the drive path of
    its index; every other record is as before; the engine has been given
    the work area and the name manager the handler.  From then on
    [fs_fat_is_mounted mp] returns a positive slot number, at most the number
    of that record plus one. *)
Theorem fs_fat_mount_then_is_mounted (w w' : world) (mp : string) (dev_pio : N)
    (dev_dma : option N) (partition : Z) :
  fs_fat_mount mp dev_pio dev_dma partition w = Some (0, w') ->
  exists i m v fs,
    initted w <> 0 /\ find_free_mnt (fat_mnt w) = Some i /\
    fat_mnt w' = <[i := m]> (fat_mnt w) /\
    mnt_dev m = Some dev_pio /\ mnt_fs m = Some fs /\ mnt_vfsh m = Some v /\
    pathname v = mp /\ privdata v = Some i /\
    mnt_dev_path m = drive_path (Z.of_nat i mod 256) /\
    (exists evs, calls_made w w' evs /\
       Ev_f_mount (Some fs) (mnt_dev_path m) 1 ∈ evs /\ Ev_nmmgr_handler_add mp ∈ evs) /\
    registered (fat_mnt w') mp i /\
    exists k, (k <= i)%nat /\ fs_fat_is_mounted mp w' = Some (Z.of_nat k + 1, w').
Proof.
  intros Hrun.
  destruct (Z.eq_dec (initted w) 0) as [Hini|Hini].
  { rewrite fs_fat_mount_uninitialised in Hrun by done. done. }
  destruct (find_free_mnt (fat_mnt w)) as [i|] eqn:Hfree.
  2:{ revert Hrun. unfold fs_fat_mount, mbind, M_bind, bindM, gets. simpl.
      destruct (Z.eqb_spec (initted w) 0) as [|_]; [done|]. by rewrite Hfree. }
  pose proof (fs_fat_mount_outcome w mp dev_pio dev_dma partition i Hini Hfree) as Hout.
  rewrite Hrun in Hout.
  destruct Hout as (vp & h & evs & [(Hr & _)|(_ & va & fs & dma & b & -> & _ & Hfm & Hadd)]);
    [done|].
  destruct (find_free_mnt_slot _ _ Hfree) as (Hlt & m0 & Hm0 & _).
  assert (Hi : (i < length (fat_mnt w))%nat) by (by eapply lookup_lt_Some).
  set (m := mk_mnt (Some fs) (Some (mk_vfs_handler va mp (Some i))) (Some dev_pio)
              dma 0 (Z.of_nat i mod 256) (drive_path (Z.of_nat i mod 256)) b) in *.
  exists i, m, (mk_vfs_handler va mp (Some i)), fs.
  split; [done|]. split; [done|]. split; [reflexivity|].
  do 6 (split; [reflexivity|]).
  split; [exists evs; by split|].
  assert (Hreg : registered (<[i:=m]> (fat_mnt w)) mp i).
  2:{ split; [exact Hreg|].
      destruct (find_mount_of_registered _ _ _ Hreg) as (k & Hk & Hf & _).
      exists k. split; [done|].
      unfold fs_fat_is_mounted, mbind, M_bind, bindM, gets. simpl. by rewrite Hf. }
  split; [done|]. eexists _, _. split; [by apply list_lookup_insert_eq|]. by split.
Qed.

Lemma registry_ok_zero : registry_ok (replicate MAX_FAT_MOUNTS mnt_zero).
Proof.
  split; [apply length_replicate|].
  intros i m Hm. apply lookup_replicate in Hm as [-> _]. by left.
Qed.

Lemma registry_ok_insert (tbl : list fatfs_mnt_t) (i : nat) (m : fatfs_mnt_t) :
  registry_ok tbl -> mnt_ok i m -> registry_ok (<[i := m]> tbl).
Proof.
  intros [Hlen Hall] Hm. split; [by rewrite length_insert|].
  intros j m' Hj. destruct (decide (j = i)) as [->|Hne].
  - apply list_lookup_insert_Some in Hj as [(_ & -> & _)|[? _]]; done.
  - rewrite list_lookup_insert_ne in Hj by done. by apply Hall.
Qed.

Lemma mnt_ok_dev_stat (i : nat) (m : fatfs_mnt_t) (s : Z) :
  mnt_ok i m -> mnt_dev m <> None -> mnt_ok i (set_dev_stat s m).
Proof.
  intros [->|(dev & fs & v & H)] Hdev; [done|].
  right. exists dev, fs, v. exact H.
Qed.

(** What [fs_fat_init] does. *)
Lemma fs_fat_init_run (w : world) :
  fs_fat_init w
  = Some (0, if initted w =? 0
             then set_initted 1
                    (set_fh (replicate (Z.to_nat MAX_FAT_FILES) fatfs_zero)
                       (set_fat_mnt (replicate MAX_FAT_MOUNTS mnt_zero) w))
             else w).
Proof.
  unfold fs_fat_init, mbind, M_bind, bindM, gets. simpl.
  by destruct (initted w =? 0).
Qed.

(** What [fs_fat_unmount] does on a path that is found. *)
Lemma fs_fat_unmount_run (w : world) (mp : string) (i : nat) :
  find_mount mp (fat_mnt w) = Some i ->
  exists m v h',
    fat_mnt w !! i = Some m /\ mnt_vfsh m = Some v /\ pathname v = mp /\
    fs_fat_unmount mp w
    = Some (0, at_mnt w i mnt_zero (VolToPart w) h'
                 (Ev_nmmgr_handler_remove mp :: release_calls m)).
Proof.
  intros Hf. pose proof (find_mount_registered _ _ _ Hf) as (Hlt & m & v & Hm & Hv & Hp).
  assert (Hi : (i < length (fat_mnt w))%nat) by (by eapply lookup_lt_Some).
  destruct (fs_fat_free_at_mnt w i Hi m (VolToPart w)
              (nmmgr_handler_remove v (host w)).2 ([] ++ [Ev_nmmgr_handler_remove mp]))
    as (h' & Hfree & _).
  exists m, v, h'. split; [done|]. split; [done|]. split; [done|].
  unfold fs_fat_unmount, mbind, M_bind.
  rewrite (bindM_run (gets fat_mnt) _ w w (fat_mnt w)) by reflexivity.
  rewrite Hf. rewrite (run_from_start_mnt _ w _ _ Hm).
  mstep. rewrite Hv. unfold deref. mstep. rewrite Hp. mstep.
  rewrite (bindM_run _ _ _ _ _ Hfree). reflexivity.
Qed.

Lemma fs_fat_unmount_miss_run (w : world) (mp : string) :
  find_mount mp (fat_mnt w) = None ->
  fs_fat_unmount mp w = Some (-1, set_host (mk_hst ENOENT (h_sys (host w))) w).
Proof.
  intros Hf. unfold fs_fat_unmount, mbind, M_bind, bindM, gets. simpl. by rewrite Hf.
Qed.

Lemma disk_initialize_byte (pdrv : Z) (w : world) :
  disk_initialize pdrv w = disk_initialize (pdrv mod 256) w.
Proof. unfold disk_initialize, FAT_GET_MOUNT. by rewrite Z.mod_mod. Qed.

(** X11.  The mount table stays well formed.  The table as the program
    starts (all zero) is well formed, and initialisation, mounting,
    unmounting and [disk_initialize] keep it so whenever they return: every
    record is either zeroed or holds a device together with its engine work
    area and a handler that points back at it, under the drive path of its
    index. *)
Theorem registry_ok_preserved (w w' : world) :
  registry_ok (replicate MAX_FAT_MOUNTS mnt_zero) /\
  (registry_ok (fat_mnt w) ->
   (forall r, fs_fat_init w = Some (r, w') -> registry_ok (fat_mnt w')) /\
   (forall mp dev_pio dev_dma partition r,
      fs_fat_mount mp dev_pio dev_dma partition w = Some (r, w') ->
      registry_ok (fat_mnt w')) /\
   (forall mp r, fs_fat_unmount mp w = Some (r, w') -> registry_ok (fat_mnt w')) /\
   (forall pdrv r, disk_initialize pdrv w = Some (r, w') -> registry_ok (fat_mnt w'))).
Proof.
  split; [apply registry_ok_zero|]. intros Hok.
  split; [|split; [|split]].
  - intros r. rewrite fs_fat_init_run. intros [= _ <-].
    destruct (initted w =? 0); [apply registry_ok_zero|exact Hok].
  - intros mp dev_pio dev_dma partition r Hrun.
    destruct (Z.eq_dec (initted w) 0) as [Hini|Hini].
    { rewrite fs_fat_mount_uninitialised in Hrun by done. by injection Hrun as _ <-. }
    destruct (find_free_mnt (fat_mnt w)) as [i|] eqn:Hfree.
    2:{ revert Hrun. unfold fs_fat_mount, mbind, M_bind, bindM, gets. simpl.
        destruct (Z.eqb_spec (initted w) 0) as [|_]; [done|]. rewrite Hfree.
        simpl. by intros [= _ <-]. }
    pose proof (fs_fat_mount_outcome w mp dev_pio dev_dma partition i Hini Hfree) as Hout.
    rewrite Hrun in Hout.
    destruct Hout as (vp & h & evs &
      [(_ & -> & _)|(_ & va & fs & dma & b & -> & _)]); simpl;
      apply registry_ok_insert; try done; [by left|].
    right. eexists _, _, _. repeat split; reflexivity.
  - intros mp r Hrun. destruct (find_mount mp (fat_mnt w)) as [i|] eqn:Hf.
    + destruct (fs_fat_unmount_run w mp i Hf) as (m & v & h' & _ & _ & _ & Hrun').
      rewrite Hrun' in Hrun. injection Hrun as _ <-. simpl.
      apply registry_ok_insert; [done|by left].
    + rewrite (fs_fat_unmount_miss_run w mp Hf) in Hrun. by injection Hrun as _ <-.
  - intros pdrv r. rewrite disk_initialize_byte.
    pose proof (Z.mod_pos_bound pdrv 256 ltac:(lia)) as Hb.
    set (d := pdrv mod 256) in *. intros Hrun.
    destruct (Z.lt_ge_cases d (Z.of_nat MAX_FAT_MOUNTS)) as [Hlt|Hge].
    2:{ unfold disk_initialize in Hrun.
        rewrite FAT_GET_MOUNT_unmounted in Hrun by (left; subst d; rewrite Z.mod_mod; lia).
        by injection Hrun as _ <-. }
    destruct (fat_mnt w !! Z.to_nat d) as [m|] eqn:Hm.
    2:{ exfalso. apply lookup_ge_None in Hm. destruct Hok as [Hlen _]. lia. }
    destruct (mnt_dev m) as [pio|] eqn:Hd.
    2:{ unfold disk_initialize in Hrun.
        rewrite FAT_GET_MOUNT_unmounted in Hrun.
        - by injection Hrun as _ <-.
        - right. exists m. subst d. rewrite Z.mod_mod by lia. by split. }
    rewrite (disk_initialize_run w d m pio Hb Hlt Hm Hd) in Hrun.
    injection Hrun as _ <-. simpl.
    apply registry_ok_insert; [done|].
    apply mnt_ok_dev_stat; [|by rewrite Hd].
    destruct Hok as [_ Hall]. by apply Hall.
Qed.

(** X12.  Unmounting releases the record and nothing else.  On a path that
    is registered, [fs_fat_unmount] returns 0 after these calls and no
    others: the handler is removed from the name manager, the handler and
    the engine work area are freed, the primary and the DMA device are shut
    down and the scratch buffer is freed where there is one.  The engine is
    not told: there is no call of [f_mount] to withdraw the work area that is
    freed.  The record is zeroed, no other record changes, and the open
    handles are left as they are.  If no other record carries the path,
    [fs_fat_is_mounted] then answers 0. *)
Theorem fs_fat_unmount_releases (w : world) (mp : string) (i : nat) :
  registered (fat_mnt w) mp i ->
  (forall j, (j < i)%nat -> ~ registered (fat_mnt w) mp j) ->
  exists m w',
    fat_mnt w !! i = Some m /\
    fs_fat_unmount mp w = Some (0, w') /\
    calls_made w w' (Ev_nmmgr_handler_remove mp :: release_calls m) /\
    fat_mnt w' = <[i := mnt_zero]> (fat_mnt w) /\
    fh w' = fh w /\ initted w' = initted w /\
    ((forall j, j <> i -> ~ registered (fat_mnt w) mp j) ->
     fs_fat_is_mounted mp w' = Some (0, w')).
Proof.
  intros Hreg Hmin.
  pose proof (find_mount_hit _ _ _ Hreg Hmin) as Hf.
  destruct (fs_fat_unmount_run w mp i Hf) as (m & v & h' & Hm & Hv & Hp & Hrun).
  eexists m, _. split; [exact Hm|]. split; [exact Hrun|].
  do 4 (split; [reflexivity|]).
  intros Hothers.
  unfold fs_fat_is_mounted, mbind, M_bind, bindM, gets. simpl.
  rewrite find_mount_miss; [done|].
  intros j (Hj & m' & v' & Hm' & Hv' & Hp').
  destruct (decide (j = i)) as [->|Hne].
  - apply list_lookup_insert_Some in Hm' as [(_ & <- & _)|[? _]]; done.
  - rewrite list_lookup_insert_ne in Hm' by done.
    apply (Hothers j Hne). split; [done|]. by exists m', v'.
Qed.

(** X13.  [fs_fat_init] can be called again.  It always returns 0.  The
    first call empties both pools: sixteen free handle slots and a mount
    table of zeroed records.  A call on an initialised layer changes
    nothing, so calling it twice is the same as calling it once, and the
    open handles and the mounted volumes survive a second call. *)
Theorem fs_fat_init_again (w : world) :
  (initted w <> 0 -> fs_fat_init w = Some (0, w)) /\
  (initted w = 0 ->
     exists w', fs_fat_init w = Some (0, w') /\ initted w' = 1 /\
       fh w' = replicate 16 fatfs_zero /\
       fat_mnt w' = replicate MAX_FAT_MOUNTS mnt_zero /\
       find_free_fd (fh w') = Some 0%nat) /\
  (fs_fat_init;; fs_fat_init) w = fs_fat_init w.
Proof.
  split; [|split].
  - intros Hini. rewrite fs_fat_init_run. by destruct (Z.eqb_spec (initted w) 0).
  - intros Hini. rewrite fs_fat_init_run, Hini. simpl. eexists. split; [reflexivity|].
    repeat split.
  - unfold mbind at 1. unfold M_bind, bindM. rewrite (fs_fat_init_run w).
    destruct (Z.eqb_spec (initted w) 0) as [E|E]; rewrite fs_fat_init_run; simpl.
    + reflexivity.
    + by destruct (Z.eqb_spec (initted w) 0).
Qed.

End MountFacts.

(** ** Properties of shutdown and of the device tables *)

Section ShutdownFacts.
Context {HC : HostConsts} {ET : EngineTypes} {HO : Host}.














Lemma sd_paths_differ (part : Z) :
  1 <= part <= 3 -> sd_path part <> sd_unmount_path part.
Proof.
  intros Hpart. assert (part = 1 \/ part = 2 \/ part = 3) as [->|[->| ->]] by lia;
    vm_compute; discriminate.
Qed.

(** X15.  [fs_fat_unmount_sd] does not find the partitions 1 to 3.
    [fs_fat_mount_sd] mounts them under "sd1", "sd2", "sd3", without a
    leading slash, and [fs_fat_unmount_sd] looks for "/sd1", "/sd2", "/sd3".
    So for such a partition that is mounted under the name it was given, the
    turn of the unmount loop leaves the volume registered: the unmount
    fails with ENOENT and the turn only shuts the device of the partition
    down, under a volume that stays in the mount table. *)
Theorem fs_fat_unmount_sd_misses_partition (w : world) (base : N) (part : Z) (i : nat) :
  1 <= part <= 3 ->
  registered (fat_mnt w) (sd_path part) i ->
  (forall j, ~ registered (fat_mnt w) (sd_unmount_path part) j) ->
  let dev := (base + Z.to_N (part * sizeof_kos_blockdev_t))%N in
  dev_data dev (host w) <> None ->
  sd_path part <> sd_unmount_path part /\
  exists w',
    unmount_sd_partition base part w = Some (tt, w') /\
    calls_made w w' [Ev_shutdown dev] /\
    fat_mnt w' = fat_mnt w /\
    registered (fat_mnt w') (sd_path part) i /\
    fs_fat_unmount (sd_unmount_path part) w
    = Some (-1, set_host (mk_hst ENOENT (h_sys (host w))) w).
Proof.
  intros Hpart Hreg Hnone dev Hdata.
  split; [by apply sd_paths_differ|].
  pose proof (fs_fat_unmount_miss_run w _ (find_mount_miss _ _ Hnone)) as Hun.
  unfold unmount_sd_partition, mbind, M_bind. fold dev.
  rewrite (bindM_run (gets host) _ w w (host w)) by reflexivity.
  destruct (dev_data dev (host w)); [|done].
  rewrite (bindM_run _ _ _ _ _ Hun).
  unfold bindM, call, mret, M_ret, retM. simpl.
  destruct (bd_shutdown dev _) as [rv h'].
  eexists. split; [reflexivity|]. simpl.
  split; [reflexivity|]. split; [reflexivity|]. split; [exact Hreg|exact Hun].
Qed.

Lemma mount_sd_loop_skips (buf : list Z) (base : N) (turns : nat) (part : Z) (w : world) :
  (forall p, Bdev.check_partition buf p = Some (-1)) ->
  mount_sd_loop buf base part turns w = Some (tt, w).
Proof.
  intros Hskip. revert part. induction turns as [|turns IH]; intros part; [reflexivity|].
  simpl. unfold mbind, M_bind, bindM. unfold mount_sd_partition at 1.
  rewrite Hskip. simpl. apply IH.
Qed.

(** X16.  [fs_fat_mount_sd] reports success on a card it cannot use.  If
    the card cannot be initialised it returns -1 after calling [scif_init].
    If the card answers but its first sector has no MBR signature, every turn
    of the partition loop is skipped and the function returns 0 although
    nothing was mounted: beyond reading the sector and preparing the device
    table it makes no call, and the mount table, the handle pool and the
    initialisation flag are as before. *)
Theorem fs_fat_mount_sd_without_mbr (w : world) :
  let r0 := sd_init (host w) in
  let r1 := sd_get_size r0.2 in
  let r2 := sd_read_blocks 0 1 r1.2 in
  let n := sizeof_kos_blockdev_t * Bdev.MAX_PARTITIONS in
  (r0.1 <> 0 ->
   fs_fat_mount_sd w
   = Some (-1, after_calls w (scif_init r0.2).2 [Ev_sd_init; Ev_scif_init])) /\
  (forall base,
   r0.1 = 0 -> r2.1.1 = 0 ->
   length r2.1.2 = 512%nat -> ~ Bdev.has_mbr_signature r2.1.2 ->
   match sd_dev w with
   | Some b => Some b
   | None => (malloc n r2.2).1
   end = Some base ->
   exists w',
     fs_fat_mount_sd w = Some (0, w') /\
     calls_made w w'
       ([Ev_sd_init; Ev_sd_get_size; Ev_sd_read_blocks 0 1] ++
        match sd_dev w with Some _ => [] | None => [Ev_malloc n] end ++
        [Ev_memset (Z.of_N base) 0 n]) /\
     fat_mnt w' = fat_mnt w /\ fh w' = fh w /\ initted w' = initted w /\
     sd_dev w' = Some base).
Proof.
  intros r0 r1 r2 n. split.
  - intros Hfail. unfold fs_fat_mount_sd, mbind, M_bind, mret, M_ret, bindM, call, retM,
      after_calls. fold r0. destruct r0 as [rv h0]. simpl in *.
    destruct (Z.eqb_spec rv 0) as [|_]; [done|]. simpl.
    destruct (scif_init h0) as [rv' h']. simpl. by rewrite <- app_assoc.
  - intros base Hinit Hread Hlen Hsig Hbase.
    assert (Hskip : forall p, Bdev.check_partition r2.1.2 p = Some (-1))
      by (intros p; by apply check_partition_no_mbr).
    unfold fs_fat_mount_sd. rewrite (run_from_calls _ w).
    cstep. fold r0. rewrite Hinit. change (negb (0 =? 0)) with false. lazy iota.
    cstep. fold r1. cstep. fold r2. rewrite Hread.
    change (negb (0 =? 0)) with false. lazy iota.
    cstep. change (sd_dev (after_calls w r2.2 _)) with (sd_dev w). fold n.
    destruct (sd_dev w) as [b|] eqn:Hsd.
    + injection Hbase as ->. cstep. cstep.
      rewrite (bindM_run _ _ _ _ _ (mount_sd_loop_skips _ _ _ _ _ Hskip)).
      eexists. split; [reflexivity|]. simpl. rewrite Hsd.
      split; [reflexivity|]. done.
    + rewrite bindM_assoc. cstep. rewrite Hbase.
      rewrite bindM_assoc. cstep. cstep. cstep.
      rewrite (bindM_run _ _ _ _ _ (mount_sd_loop_skips _ _ _ _ _ Hskip)).
      eexists. split; [reflexivity|]. simpl.
      split; [reflexivity|]. done.
Qed.

End ShutdownFacts.

(** ** More properties of open *)

Section OpenMoreFacts.
Context {HC : HostConsts} {ET : EngineTypes} {HO : Host}.

(** What a run of [fat_open] that found a mount and a free slot can leave:
    the slot still free, with NULL, or the slot in use, with its
    descriptor. *)
Lemma fat_open_outcome (w : world) (vfs : vfs_handler_t) (fn : option string) (flags : Z)
    (mi fd : nat) :
  privdata vfs = Some mi -> find_free_fd (fh w) = Some fd ->
  match fat_open vfs fn flags w with
  | None => True
  | Some (r, w') =>
      exists sf hp h evs,
        w' = at_fd w fd sf hp h evs /\
        ((r = 0 /\ sf_used sf = 0) \/
         (r = Z.of_nat fd + 1 /\ sf_used sf = 1 /\ sf_mode sf = flags /\
          sf_mnt sf = Some mi /\
          sf_type sf = if negb (Z.land flags O_DIR =? 0)
                       then STAT_TYPE_DIR else STAT_TYPE_FILE))
  end.
Proof.
  intros Hpriv Hfree.
  destruct (find_free_fd_slot _ _ Hfree) as (sf0 & Hsf0 & _ & _).
  assert (Hfd : (fd < length (fh w))%nat) by (by eapply lookup_lt_Some).
  unfold fat_open. rewrite Hpriv.
  unfold mbind, M_bind. rewrite (bindM_run (gets fh) _ w w (fh w)) by reflexivity.
  rewrite Hfree. rewrite (run_from_start _ w _ _ Hsf0).
  lock; unfold retM; lazy beta iota; try exact I.
  all: eexists _, _, _, _; (split; [reflexivity|]).
  all: first [ left; split; reflexivity | right; repeat split; reflexivity ].
Qed.

Lemma find_free_fd_first (pool : list fatfs_t) (fd : nat) :
  find_free_fd pool = Some fd ->
  (fd < 16)%nat /\ (exists sf, pool !! fd = Some sf /\ sf_used sf = 0) /\
  forall j sf, (j < fd)%nat -> pool !! j = Some sf -> sf_used sf <> 0.
Proof.
  unfold find_free_fd. destruct (list_find _ _) as [[i sf]|] eqn:Hf; [|done].
  simpl. intros [= ->]. apply list_find_Some in Hf as (Hsf & Hused & Hmin).
  apply lookup_take_Some in Hsf as [Hsf Hlt].
  split; [exact Hlt|]. split; [by exists sf|].
  intros j sf' Hj Hsf'. apply (Hmin j sf'); [|done].
  rewrite lookup_take_lt; [done|]. change (Z.to_nat MAX_FAT_FILES) with 16%nat in *. lia.
Qed.

Lemma find_free_fd_insert_free (pool : list fatfs_t) (fd : nat) (sf : fatfs_t) :
  find_free_fd pool = Some fd -> sf_used sf = 0 ->
  find_free_fd (<[fd := sf]> pool) = Some fd.
Proof.
  intros Hfree Hused. destruct (find_free_fd_first _ _ Hfree) as (Hlt & (sf0 & Hsf0 & _) & Hmin).
  unfold find_free_fd.
  assert (Hf : list_find (fun sf => sf_used sf = 0)
                 (take (Z.to_nat MAX_FAT_FILES) (<[fd := sf]> pool)) = Some (fd, sf)).
  { apply list_find_Some. split; [|split; [done|]].
    - rewrite lookup_take_lt by exact Hlt. apply list_lookup_insert_eq.
      by eapply lookup_lt_Some.
    - intros j y Hy Hj. apply lookup_take_Some in Hy as [Hy _].
      rewrite list_lookup_insert_ne in Hy by lia. by apply (Hmin j y). }
  by rewrite Hf.
Qed.

(** X17.  An open that fails takes no slot.  When [fat_open] returns NULL,
    every slot of the pool has the used flag it had, the handles that were
    open are untouched, the mount table is as before, and the next open
    finds the same free slot. *)
Theorem fat_open_failure_takes_no_slot (w w' : world) (vfs : vfs_handler_t)
    (fn : option string) (flags : Z) :
  fat_open vfs fn flags w = Some (0, w') ->
  sf_used <$> fh w' = sf_used <$> fh w /\
  (forall j sf, fh w !! j = Some sf -> sf_used sf <> 0 -> fh w' !! j = Some sf) /\
  find_free_fd (fh w') = find_free_fd (fh w) /\
  fat_mnt w' = fat_mnt w.
Proof.
  intros Hrun.
  destruct (privdata vfs) as [mi|] eqn:Hpriv.
  2:{ revert Hrun. unfold fat_open. rewrite Hpriv. intros [= <-]. by repeat split. }
  destruct (find_free_fd (fh w)) as [fd|] eqn:Hfree.
  2:{ revert Hrun. unfold fat_open. rewrite Hpriv.
      unfold mbind, M_bind, bindM, gets. simpl. rewrite Hfree.
      intros [= <-]. by repeat split. }
  pose proof (fat_open_outcome w vfs fn flags mi fd Hpriv Hfree) as Hout.
  rewrite Hrun in Hout.
  destruct Hout as (sf & hp & h & evs & -> & [(_ & Hused)|(Hr & _)]); [|lia].
  destruct (find_free_fd_first _ _ Hfree) as (_ & (sf0 & Hsf0 & Hused0) & _).
  simpl. split; [|split; [|split]].
  - rewrite list_fmap_insert, Hused, <- Hused0. apply list_insert_id.
    by rewrite list_lookup_fmap, Hsf0.
  - intros j sf' Hj Hne. rewrite list_lookup_insert_ne; [done|].
    intros <-. rewrite Hsf0 in Hj. injection Hj as <-. done.
  - by apply find_free_fd_insert_free.
  - reflexivity.
Qed.

(** The slot of a descriptor that [fat_open] returned. *)
Lemma fat_open_takes_lowest_slot_aux (w w' : world) (vfs : vfs_handler_t)
    (fn : option string) (flags hnd : Z) :
  fat_open vfs fn flags w = Some (hnd, w') -> hnd <> 0 ->
  exists fd sf',
    hnd = Z.of_nat fd + 1 /\ 1 <= hnd <= MAX_FAT_FILES /\
    fh w' !! fd = Some sf' /\ sf_mode sf' = flags.
Proof.
  intros Hrun Hne.
  destruct (privdata vfs) as [mi|] eqn:Hpriv.
  2:{ revert Hrun. unfold fat_open. rewrite Hpriv. by intros [= <- _]. }
  destruct (find_free_fd (fh w)) as [fd|] eqn:Hfree.
  2:{ revert Hrun. unfold fat_open. rewrite Hpriv.
      unfold mbind, M_bind, bindM, gets. simpl. rewrite Hfree. by intros [= <- _]. }
  pose proof (fat_open_outcome w vfs fn flags mi fd Hpriv Hfree) as Hout.
  rewrite Hrun in Hout.
  destruct Hout as (sf & hp & h & evs & -> & [(Hr & _)|(-> & Hused & Hmode & Hmnt & Hty)]);
    [done|].
  destruct (find_free_fd_first _ _ Hfree) as (Hlt & (sf0 & Hsf0 & _) & _).
  exists fd, sf. split; [reflexivity|].
  split; [unfold MAX_FAT_FILES; lia|].
  split; [apply list_lookup_insert_eq; by eapply lookup_lt_Some|done].
Qed.

(** X18.  An open that succeeds takes the lowest free slot.  When
    [fat_open] returns a descriptor, the descriptor is the number of the
    first slot that was free plus one, between 1 and 16; every lower slot was
    in use; the slot is now in use, holds the flags and the mount of the
    open, and is a directory handle exactly when O_DIR was given; no other
    slot has changed. *)
Theorem fat_open_takes_lowest_slot (w w' : world) (vfs : vfs_handler_t)
    (fn : option string) (flags hnd : Z) :
  fat_open vfs fn flags w = Some (hnd, w') -> hnd <> 0 ->
  exists fd sf',
    hnd = Z.of_nat fd + 1 /\ 1 <= hnd <= MAX_FAT_FILES /\
    (exists sf, fh w !! fd = Some sf /\ sf_used sf = 0) /\
    (forall j sf, (j < fd)%nat -> fh w !! j = Some sf -> sf_used sf <> 0) /\
    fh w' = <[fd := sf']> (fh w) /\ fh w' !! fd = Some sf' /\
    sf_used sf' = 1 /\ sf_mode sf' = flags /\ sf_mnt sf' = privdata vfs /\
    sf_type sf' = (if negb (Z.land flags O_DIR =? 0) then STAT_TYPE_DIR else STAT_TYPE_FILE).
Proof.
  intros Hrun Hne.
  destruct (privdata vfs) as [mi|] eqn:Hpriv.
  2:{ revert Hrun. unfold fat_open. rewrite Hpriv. by intros [= <- _]. }
  destruct (find_free_fd (fh w)) as [fd|] eqn:Hfree.
  2:{ revert Hrun. unfold fat_open. rewrite Hpriv.
      unfold mbind, M_bind, bindM, gets. simpl. rewrite Hfree. by intros [= <- _]. }
  pose proof (fat_open_outcome w vfs fn flags mi fd Hpriv Hfree) as Hout.
  rewrite Hrun in Hout.
  destruct Hout as (sf & hp & h & evs & -> & [(Hr & _)|(-> & Hused & Hmode & Hmnt & Hty)]);
    [done|].
  destruct (find_free_fd_first _ _ Hfree) as (Hlt & Hslot & Hmin).
  destruct Hslot as (sf0 & Hsf0 & Hused0).
  exists fd, sf. split; [reflexivity|].
  split; [unfold MAX_FAT_FILES; lia|]. split; [by exists sf0|]. split; [exact Hmin|].
  split; [reflexivity|]. split; [apply list_lookup_insert_eq; by eapply lookup_lt_Some|].
  done.
Qed.

(** X19.  The flags of a handle are those of its open, for good.  On a
    descriptor that [fat_open] returned, [fat_fcntl] with F_GETFL returns the
    flags that were given to the open.  F_SETFL, F_GETFD and F_SETFD return 0
    and change nothing, so the flags cannot be changed; any other command
    returns -1 with errno EINVAL. *)
Theorem fat_fcntl_flags (w w' : world) (vfs : vfs_handler_t) (fn : option string)
    (flags hnd : Z) :
  fat_open vfs fn flags w = Some (hnd, w') -> hnd <> 0 ->
  fat_fcntl hnd F_GETFL w' = Some (flags, w') /\
  (forall cmd, cmd <> F_GETFL -> cmd = F_SETFL \/ cmd = F_GETFD \/ cmd = F_SETFD ->
     fat_fcntl hnd cmd w' = Some (0, w')) /\
  (forall cmd, cmd <> F_GETFL -> cmd <> F_SETFL -> cmd <> F_GETFD -> cmd <> F_SETFD ->
     fat_fcntl hnd cmd w' = Some (-1, set_host (mk_hst EINVAL (h_sys (host w'))) w')).
Proof.
  intros Hrun Hne.
  destruct (fat_open_takes_lowest_slot_aux w w' vfs fn flags hnd Hrun Hne)
    as (fd & sf' & -> & Hrange & Hsf' & Hmode).
  assert (Hfcntl : forall cmd,
    fat_fcntl (Z.of_nat fd + 1) cmd w'
    = (if cmd =? F_GETFL then mret (sf_mode sf')
       else if (cmd =? F_SETFL) || (cmd =? F_GETFD) || (cmd =? F_SETFD) then mret 0
       else set_errno EINVAL;; mret (-1)) w').
  { intros cmd. unfold fat_fcntl. rewrite FAT_GET_HND_in by done.
    replace (Z.to_nat (Z.of_nat fd + 1 - 1)) with fd by lia.
    unfold fat_fcntl_fd, mbind, M_bind, bindM, get_fh. by rewrite Hsf'. }
  split; [|split].
  - by rewrite Hfcntl, Z.eqb_refl, Hmode.
  - intros cmd Hg Hcmd. rewrite Hfcntl. apply Z.eqb_neq in Hg. rewrite Hg.
    destruct Hcmd as [->|[->| ->]]; rewrite Z.eqb_refl, ?orb_true_r; reflexivity.
  - intros cmd H1 H2 H3 H4. rewrite Hfcntl. apply Z.eqb_neq in H1, H2, H3, H4.
    by rewrite H1, H2, H3, H4.
Qed.

End OpenMoreFacts.

(** ** More properties of the operations on a descriptor *)

Section HandleMoreFacts.
Context {HC : HostConsts} {ET : EngineTypes} {HO : Host}.

(** Closing a file handle whose link map is a calloc'ed block. *)
Lemma fat_close_fd_heap_at (w : world) (fd : nat) (Hfd : (fd < length (fh w))%nat)
    sf hp h evs (a : N) :
  sf_type sf = STAT_TYPE_FILE -> fil_cltbl (sf_fil sf) = CL_HEAP a ->
  let c := f_close (sf_fil sf) (free a h).2 in
  exists e,
    fat_close_fd fd (at_fd w fd sf hp h evs)
    = Some (if c.1.1 =? FR_OK then 0 else -1,
            at_fd w fd (set_fil c.1.2 (set_used 0 sf)) (delete a hp)
              (mk_hst e (h_sys c.2)) (evs ++ [Ev_free a; Ev_f_close fd])).
Proof.
  intros Hty Hcl c.
  assert (Hbody : fat_close_fd fd (at_fd w fd sf hp h evs)
    = (if negb (c.1.1 =? FR_OK) then fail_rc c.1.1 else mret 0)
        (at_fd w fd (set_fil c.1.2 (set_used 0 sf)) (delete a hp) c.2
           (evs ++ [Ev_free a; Ev_f_close fd]))).
  { unfold fat_close_fd. astep. astep. slot_simpl. rewrite Hty, Z.eqb_refl, Hcl.
    erewrite (bindM_run (free_cltbl _)) by (by apply free_cltbl_at).
    astep. fold c. astep. by rewrite <- app_assoc. }
  rewrite Hbody. destruct (c.1.1 =? FR_OK); simpl negb; lazy iota.
  - exists (h_errno c.2). unfold mret, M_ret, retM. by destruct c.2.
  - eexists. apply fail_rc_at.
Qed.

(** X20.  Closing a descriptor twice frees its link map twice.  [fat_close]
    marks the slot free but leaves the type of the handle and its link-map
    pointer in place, and a free slot is not refused.  So on a file handle
    whose link map is a calloc'ed block, a second close of the same
    descriptor calls [free] on the same block and [f_close] on the same file
    once more. *)
Theorem fat_close_twice_frees_twice (w : world) (hnd : Z) (sf : fatfs_t) (a : N) :
  1 <= hnd <= MAX_FAT_FILES ->
  let fd := Z.to_nat (hnd - 1) in
  fh w !! fd = Some sf ->
  sf_type sf = STAT_TYPE_FILE -> fil_cltbl (sf_fil sf) = CL_HEAP a ->
  close_keeps_cltbl ->
  exists r1 w1 r2 w2 sf1,
    fat_close hnd w = Some (r1, w1) /\
    calls_made w w1 [Ev_free a; Ev_f_close fd] /\
    fh w1 !! fd = Some sf1 /\ sf_used sf1 = 0 /\ fil_cltbl (sf_fil sf1) = CL_HEAP a /\
    fat_close hnd w1 = Some (r2, w2) /\
    calls_made w1 w2 [Ev_free a; Ev_f_close fd].
Proof.
  intros Hh fd Hsf Hty Hcl Hkeep.
  assert (Hfd : (fd < length (fh w))%nat) by (by eapply lookup_lt_Some).
  unfold fat_close. rewrite !FAT_GET_HND_in by done. fold fd.
  destruct (fat_close_fd_heap_at w fd Hfd sf (cl_heap w) (host w) [] a Hty Hcl) as (e1 & Hrun1).
  rewrite <- (run_from_start _ w fd sf Hsf) in Hrun1.
  set (c1 := f_close (sf_fil sf) (free a (host w)).2) in *.
  set (sf1 := set_fil c1.1.2 (set_used 0 sf)) in *.
  assert (Hcl1 : fil_cltbl (sf_fil sf1) = CL_HEAP a).
  { subst sf1 c1. slot_simpl. by rewrite Hkeep. }
  destruct (fat_close_fd_heap_at w fd Hfd sf1 (delete a (cl_heap w)) (mk_hst e1 (h_sys c1.2))
              ([] ++ [Ev_free a; Ev_f_close fd]) a Hty Hcl1) as (e2 & Hrun2).
  eexists _, _, _, _, sf1. split; [exact Hrun1|].
  split; [reflexivity|]. split; [by apply list_lookup_insert_eq|].
  split; [reflexivity|]. split; [exact Hcl1|].
  split; [exact Hrun2|]. unfold calls_made. simpl. by rewrite <- app_assoc.
Qed.

(** X21.  [fat_seek] wraps the position and does not refuse a negative one.
    An origin other than SEEK_SET, SEEK_CUR and SEEK_END gives -1 with errno
    EINVAL and no call.  With SEEK_SET the engine is called once with the
    offset taken modulo 2^32, and the result is the cursor the engine left,
    or -1 with errno translated.  So a seek to -1 asks the engine for
    position 0xFFFFFFFF, which is the sentinel of the link map builder where
    CREATE_LINKMAP has that value. *)
Theorem fat_seek_wraps (w : world) (hnd offset : Z) (sf : fatfs_t) (t : option (list Z)) :
  1 <= hnd <= MAX_FAT_FILES ->
  let fd := Z.to_nat (hnd - 1) in
  fh w !! fd = Some sf -> tbl_of sf (cl_heap w) = Some t ->
  (forall whence, whence <> SEEK_SET -> whence <> SEEK_CUR -> whence <> SEEK_END ->
     fat_seek hnd offset whence w
     = Some (-1, set_host (mk_hst EINVAL (h_sys (host w))) w)) /\
  (let r := f_lseek (sf_fil sf) t (offset mod 2 ^ 32) (host w) in
   exists w',
     fat_seek hnd offset SEEK_SET w
     = Some (if r.1.1.1 =? FR_OK then s32 (fil_fptr r.1.1.2) else -1, w') /\
     calls_made w w' [Ev_f_lseek fd (offset mod 2 ^ 32) (fil_cltbl (sf_fil sf)) t] /\
     (r.1.1.1 <> FR_OK -> errno w' = fatfs_set_errno r.1.1.1 (h_errno r.2))) /\
  (offset = -1 -> CREATE_LINKMAP = 0xFFFFFFFF ->
   exists r w',
     fat_seek hnd offset SEEK_SET w = Some (r, w') /\
     calls_made w w' [Ev_f_lseek fd CREATE_LINKMAP (fil_cltbl (sf_fil sf)) t]).
Proof.
  intros Hh fd Hsf Ht.
  assert (Hfd : (fd < length (fh w))%nat) by (by eapply lookup_lt_Some).
  assert (Hset : let r := f_lseek (sf_fil sf) t (offset mod 2 ^ 32) (host w) in
    exists w',
      fat_seek hnd offset SEEK_SET w
      = Some (if r.1.1.1 =? FR_OK then s32 (fil_fptr r.1.1.2) else -1, w') /\
      calls_made w w' [Ev_f_lseek fd (offset mod 2 ^ 32) (fil_cltbl (sf_fil sf)) t] /\
      (r.1.1.1 <> FR_OK -> errno w' = fatfs_set_errno r.1.1.1 (h_errno r.2))).
  { intros r.
    pose proof (do_f_lseek_at w fd Hfd (offset mod 2 ^ 32) t sf (cl_heap w) (host w) [] Ht)
      as Hseek. cbv zeta in Hseek. fold r in Hseek.
    assert (Hbody : forall W, do_f_lseek fd (offset mod 2 ^ 32) w = Some (r.1.1.1, W) ->
      fat_seek hnd offset SEEK_SET w
      = (if negb (r.1.1.1 =? FR_OK) then fail_rc r.1.1.1
         else bindM (get_fh fd) (fun sf => retM (s32 (fil_fptr (sf_fil sf))))) W).
    { intros W HW. unfold fat_seek. rewrite FAT_GET_HND_in by done. fold fd.
      unfold fat_seek_fd, mbind, M_bind.
      rewrite (bindM_run (get_fh fd) _ w w sf) by (unfold get_fh; by rewrite Hsf).
      rewrite Z.eqb_refl. unfold u32. by rewrite (bindM_run _ _ _ _ _ HW). }
    rewrite <- (run_from_start _ w fd sf Hsf) in Hseek.
    rewrite (Hbody _ Hseek).
    destruct (Z.eqb_spec r.1.1.1 FR_OK) as [Hok|Hne]; cbn [negb]; lazy iota.
    - destruct (fil_cltbl (sf_fil sf)); eexists;
        (split; [astep; reflexivity|]); (split; [reflexivity|]); done.
    - destruct (fil_cltbl (sf_fil sf)); eexists;
        (split; [apply fail_rc_at|]); (split; [reflexivity|]); done. }
  split; [|split; [exact Hset|]].
  - intros whence H1 H2 H3. unfold fat_seek. rewrite FAT_GET_HND_in by done. fold fd.
    unfold fat_seek_fd, mbind, M_bind, bindM, get_fh. rewrite Hsf.
    apply Z.eqb_neq in H1, H2, H3. by rewrite H1, H2, H3.
  - intros -> Hsent. destruct Hset as (w' & Hrun & Hcalls & _).
    eexists _, w'. split; [exact Hrun|].
    rewrite Hsent. exact Hcalls.
Qed.

Lemma bindM_ext {A B} (m : M A) (k k' : A -> M B) (w : world) :
  (forall a w1, k a w1 = k' a w1) -> bindM m k w = bindM m k' w.
Proof. intros Hk. unfold bindM. destruct (m w) as [[a w1]|]; [apply Hk|done]. Qed.

Lemma fat_ioctl_in (w : world) (hnd cmd data : Z) :
  1 <= hnd <= MAX_FAT_FILES ->
  fat_ioctl hnd cmd data w = fat_ioctl_fd (Z.to_nat (hnd - 1)) cmd data w.
Proof. intros Hh. unfold fat_ioctl. by rewrite FAT_GET_HND_in. Qed.

(** X22.  The link-map ioctl does not report failure.  With the command
    FATFS_IOCTL_GET_FD_LINK_MAP, [fat_ioctl] returns 0 whenever it returns,
    also when the link map could not be built.  In that case, here when the
    engine refuses the sentinel seek outright, the builder's call is followed
    by a [memset] of the first four bytes of the caller's buffer to zero,
    the handle is left without a link map, and the caller gets 0. *)
Theorem fat_ioctl_link_map_never_fails (w : world) (hnd cmd data : Z) (sf : fatfs_t) :
  1 <= hnd <= MAX_FAT_FILES ->
  let fd := Z.to_nat (hnd - 1) in
  fh w !! fd = Some sf ->
  cmd = FATFS_IOCTL_GET_FD_LINK_MAP ->
  cmd <> FATFS_IOCTL_GET_BOOT_SECTOR_DATA -> cmd <> FATFS_IOCTL_GET_FD_LBA ->
  (forall r, fat_ioctl hnd cmd data w = Some r -> r.1 = 0) /\
  (lseek_keeps_cltbl -> fil_cltbl (sf_fil sf) = CL_NULL ->
   let first := Ev_f_lseek fd CREATE_LINKMAP CL_INLINE (Some lktbl_fresh) in
   let r1 := f_lseek (set_cltbl CL_INLINE (sf_fil sf)) (Some lktbl_fresh)
               CREATE_LINKMAP (host w) in
   r1.1.1.1 <> FR_OK -> r1.1.1.1 <> FR_NOT_ENOUGH_CORE ->
   exists w' sf',
     fat_ioctl hnd cmd data w = Some (0, w') /\
     calls_made w w' [first; Ev_memset data 0 4] /\
     fh w' !! fd = Some sf' /\ fil_cltbl (sf_fil sf') = CL_NULL).
Proof.
  intros Hh fd Hsf Hcmd Hnb Hnl.
  assert (Hfd : (fd < length (fh w))%nat) by (by eapply lookup_lt_Some).
  assert (Hbody : fat_ioctl hnd cmd data w
    = bindM (fat_create_linkmap fd) (fun rc =>
        bindM (if rc =? FR_OK then
                 bindM (cltbl_load fd) (fun t => bindM (deref t) (fun t =>
                 bindM (deref (t !! 0%nat)) (fun n =>
                   if Z.of_nat (length t) <? n then undefined
                   else call (Ev_store data 4 (take (Z.to_nat n) t))
                          (store data 4 (take (Z.to_nat n) t)))))
               else call (Ev_memset data 0 4) (memset data 0 4))
          (fun _ => retM 0)) w).
  { rewrite fat_ioctl_in by done. fold fd.
    unfold fat_ioctl_fd, mbind, M_bind, mret, M_ret.
    rewrite (bindM_run (get_fh fd) _ w w sf) by (unfold get_fh; by rewrite Hsf).
    apply Z.eqb_neq in Hnb, Hnl. rewrite Hnb, Hnl. subst cmd. rewrite Z.eqb_refl.
    rewrite !bindM_assoc. apply bindM_ext. intros rc w1.
    rewrite !bindM_assoc. apply bindM_ext. intros [] w2.
    unfold bindM, retM. by rewrite Z.eqb_refl. }
  split.
  - intros r. rewrite Hbody. unfold bindM at 1.
    destruct (fat_create_linkmap fd w) as [[rc w1]|]; [|done].
    unfold bindM at 1. destruct (_ w1) as [[[] w2]|]; [|done].
    by intros [= <-].
  - intros Hkeep Hnull first r1 Hne Hcore.
    destruct (linkmap_at w fd Hfd sf (cl_heap w) (host w) [] Hkeep Hnull) as [Hone _].
    destruct (Hone Hcore) as (sf' & Hrun & Hcl & _).
    rewrite <- (run_from_start _ w fd sf Hsf) in Hrun.
    rewrite Hbody, (bindM_run _ _ _ _ _ Hrun).
    fold r1 in Hcl |- *. apply Z.eqb_neq in Hne. rewrite Hne in Hcl |- *.
    astep. unfold retM. eexists _, sf'. split; [reflexivity|].
    split; [reflexivity|]. split; [by apply list_lookup_insert_eq|done].
Qed.

(** X23.  The boot sector is read through the primary device.  With the
    command FATFS_IOCTL_GET_BOOT_SECTOR_DATA, [fat_ioctl] reads one sector,
    sector 0, of the drive of the handle's volume into the caller's buffer.
    A request of one sector never takes the DMA route, so the read goes to
    the primary device whatever the alignment of the buffer and whether or
    not the volume has a DMA device.  The result is 0 when the device
    returns a non-negative value and -1 otherwise. *)
Theorem fat_ioctl_boot_sector_uses_pio (w : world) (hnd cmd data : Z) (sf : fatfs_t)
    (fs : N) (mnt : fatfs_mnt_t) (pio : N) :
  1 <= hnd <= MAX_FAT_FILES ->
  let fd := Z.to_nat (hnd - 1) in
  fh w !! fd = Some sf ->
  cmd = FATFS_IOCTL_GET_BOOT_SECTOR_DATA ->
  fil_fs (sf_fil sf) = Some fs ->
  let pdrv := FATFS_drv fs (host w) in
  0 <= pdrv < 256 -> pdrv < Z.of_nat MAX_FAT_MOUNTS ->
  fat_mnt w !! Z.to_nat pdrv = Some mnt -> mnt_dev mnt = Some pio ->
  RES_ERROR <> RES_OK -> RES_PARERR <> RES_OK ->
  let rd := bd_read_blocks pio 0 1 data (host w) in
  fat_ioctl hnd cmd data w
  = Some (if rd.1 <? 0 then -1 else 0,
          after_calls w rd.2 [Ev_read_blocks pio 0 1 data]).
Proof.
  intros Hh fd Hsf Hcmd Hfs pdrv Hb Hlt Hm Hd He Hp rd.
  rewrite fat_ioctl_in by done. fold fd.
  unfold fat_ioctl_fd, mbind, M_bind, mret, M_ret.
  rewrite (bindM_run (get_fh fd) _ w w sf) by (unfold get_fh; by rewrite Hsf).
  subst cmd. rewrite Z.eqb_refl, Hfs.
  assert (Hread : disk_read pdrv data 0 1 w
    = Some (if rd.1 <? 0 then if h_errno rd.2 =? EOVERFLOW then RES_PARERR else RES_ERROR
            else RES_OK,
            after_calls w rd.2 [Ev_read_blocks pio 0 1 data])).
  { unfold disk_read. rewrite (FAT_GET_MOUNT_mounted w pdrv mnt pio) by done.
    assert (Hroute : disk_read_route mnt pio data 1 w = Some ((pio, data), w))
      by (unfold disk_read_route; by destruct (mnt_dev_dma mnt)).
    unfold mbind, M_bind. rewrite (bindM_run _ _ _ _ _ Hroute).
    cbn [fst snd]. rewrite Z.eqb_refl, andb_false_r.
    unfold bindM, call, disk_result, mret, M_ret, retM, gets, after_calls.
    fold rd. destruct rd as [rv h]. simpl. by destruct (rv <? 0). }
  rewrite bindM_assoc. unfold bindM at 1. unfold deref, retM.
  rewrite bindM_assoc. unfold bindM at 1. unfold gets. fold pdrv.
  unfold bindM. rewrite Hread.
  apply Z.eqb_neq in He, Hp.
  destruct (rd.1 <? 0); [|by rewrite Z.eqb_refl].
  by destruct (h_errno rd.2 =? EOVERFLOW); rewrite ?He, ?Hp.
Qed.

Lemma shiftr_land_ceil (size lbs : Z) :
  0 <= lbs -> 0 <= size ->
  let blksize := Z.shiftl 1 lbs in
  let blocks := Z.shiftr size lbs in
  let blocks' := if negb (Z.land size (blksize - 1) =? 0) then blocks + 1 else blocks in
  blksize = 2 ^ lbs /\ blocks' = (size + 2 ^ lbs - 1) / 2 ^ lbs /\
  (blocks' - 1) * 2 ^ lbs < size + 2 ^ lbs - 1 /\ size <= blocks' * 2 ^ lbs.
Proof.
  intros Hl Hs blksize blocks blocks'. subst blksize blocks blocks'.
  rewrite Z.shiftl_1_l, Z.shiftr_div_pow2 by done.
  assert (Hpos : 0 < 2 ^ lbs) by (by apply Z.pow_pos_nonneg).
  replace (2 ^ lbs - 1) with (Z.ones lbs) by (rewrite Z.ones_equiv; lia).
  rewrite Z.land_ones by done.
  set (b := 2 ^ lbs) in *. clearbody b.
  pose proof (Z.div_mod size b ltac:(lia)) as Hdm.
  pose proof (Z.mod_pos_bound size b Hpos) as Hmb.
  set (q := size / b) in *. set (r := size mod b) in *. clearbody q r.
  split; [reflexivity|].
  assert (Hceil : (size + b - 1) / b = if negb (r =? 0) then q + 1 else q).
  { destruct (Z.eqb_spec r 0) as [->|Hr]; simpl.
    - symmetry. apply (Z.div_unique _ _ _ (b - 1)); lia.
    - symmetry. apply (Z.div_unique _ _ _ (r - 1)); lia. }
  rewrite Hceil. split; [reflexivity|].
  destruct (Z.eqb_spec r 0) as [->|Hr]; simpl; nia.
Qed.

(** X24.  The block count of [fat_fstat] is the size rounded up.  For a
    handle whose mount has a device with sectors of 2^n bytes, n below 31,
    [fat_fstat] changes nothing and returns 0.  For a directory handle it reports a
    directory of size -1 and no blocks.  For any other handle it reports a
    regular file with the size the handle holds (below 2^31), the block
    size 2^n, and as many blocks as it takes to hold that size: the size
    divided by 2^n, rounded up. *)
Theorem fat_fstat_blocks (w : world) (hnd : Z) (st : stat) (sf : fatfs_t)
    (mi : nat) (mnt : fatfs_mnt_t) (dev : N) :
  1 <= hnd <= MAX_FAT_FILES ->
  let fd := Z.to_nat (hnd - 1) in
  fh w !! fd = Some sf ->
  sf_mnt sf = Some mi -> fat_mnt w !! mi = Some mnt -> mnt_dev mnt = Some dev ->
  let lbs := l_block_size dev (host w) in
  0 <= lbs < 31 ->
  exists st',
    fat_fstat hnd st w = Some ((0, st'), w) /\
    st_nlink st' = 1 /\ st_dev st' = Z.of_N dev /\ st_blksize st' = 2 ^ lbs /\
    (sf_type sf = STAT_TYPE_DIR ->
       st_mode st' = Z.lor stat_rwx S_IFDIR /\ st_size st' = -1 /\ st_blocks st' = 0) /\
    (sf_type sf <> STAT_TYPE_DIR -> 0 <= fil_fsize (sf_fil sf) < 2 ^ 31 ->
       st_mode st' = Z.lor stat_rwx S_IFREG /\
       st_size st' = fil_fsize (sf_fil sf) /\
       st_blocks st' = (st_size st' + 2 ^ lbs - 1) / 2 ^ lbs /\
       st_size st' <= st_blocks st' * 2 ^ lbs).
Proof.
  intros Hh fd Hsf Hmi Hmnt Hdev lbs [Hl _].
  unfold fat_fstat. rewrite FAT_GET_HND_in by done. fold fd.
  unfold fat_fstat_fd, mbind, M_bind, mret, M_ret, bindM, get_fh, get_mnt, deref, gets, retM.
  rewrite Hsf, Hmi. simpl. rewrite Hmnt, Hdev. simpl. fold lbs.
  destruct (Z.eqb_spec (sf_type sf) STAT_TYPE_DIR) as [Hty|Hty].
  - eexists. split; [reflexivity|]. simpl.
    split; [done|]. split; [done|]. split; [by rewrite Z.shiftl_1_l|]. by split.
  - eexists. split; [reflexivity|]. simpl.
    split; [done|]. split; [done|]. split; [by rewrite Z.shiftl_1_l|].
    split; [done|]. intros _ [Hsize _].
    destruct (shiftr_land_ceil (fil_fsize (sf_fil sf)) lbs Hl Hsize) as (_ & Hc & _ & Hle).
    split; [reflexivity|]. split; [reflexivity|]. by split.
Qed.

(** X25.  Mapping a bad descriptor.  For a descriptor outside 1..16,
    [fat_total] returns the guard's -1 as a size, which [fat_mmap] takes for
    the size of the file: it asks the allocator for 4294967295 bytes, and
    since the read fails with the same -1, the comparison of the count with
    the size succeeds.  The allocator's answer, whatever it is, is returned
    as the mapping; nothing is freed, and [errno] is ENFILE. *)
Theorem fat_mmap_bad_handle (w : world) (hnd : Z) :
  let a := memalign 32 4294967295 (mk_hst ENFILE (h_sys (host w))) in
  (hnd < 1 \/ MAX_FAT_FILES < hnd ->
   fat_mmap hnd w
   = Some (a.1, after_calls w (mk_hst ENFILE (h_sys a.2)) [Ev_memalign 32 4294967295])).
Proof.
  intros a Hh. unfold fat_mmap, fat_total, fat_read, mbind, M_bind, mret, M_ret.
  rewrite (bindM_run _ _ _ _ _ (FAT_GET_HND_out hnd _ _ w Hh)).
  replace (s32 (u32 (-1))) with (-1) by reflexivity.
  replace (u32 (-1)) with 4294967295 by reflexivity.
  cbn [Z.eqb negb]. unfold bindM at 1. unfold call at 1. cbn [host set_host].
  subst a. destruct (memalign _ _ _) as [p h]. cbn [fst snd].
  rewrite (bindM_run _ _ _ _ _ (FAT_GET_HND_out hnd _ _ _ Hh)).
  cbn [Z.eqb negb]. reflexivity.
Qed.

(** X26.  What [fat_mmap] does with a file.  On a handle that needs no link
    map, an empty file is mapped to NULL without any call.  For a file of
    less than 2^31 bytes the adapter allocates as many bytes as the file
    has, aligned to 32, and asks
    the engine to read that many into the block, without testing the
    allocator's answer: after a failed allocation the engine is handed the
    address 0.  The block is the result only if the engine reports success
    and exactly that count; in every other case the block is freed, if there
    is one, and NULL is returned. *)
Theorem fat_mmap_reads_whole_file (w : world) (hnd : Z) (sf : fatfs_t)
    (t : option (list Z)) :
  1 <= hnd <= MAX_FAT_FILES ->
  let fd := Z.to_nat (hnd - 1) in
  fh w !! fd = Some sf ->
  fil_cltbl (sf_fil sf) <> CL_NULL \/ Z.land (sf_mode sf) O_MODE_MASK <> O_RDONLY ->
  tbl_of sf (cl_heap w) = Some t ->
  let size := fil_fsize (sf_fil sf) in
  (size = 0 -> fat_mmap hnd w = Some (None, w)) /\
  (0 < size < 2 ^ 31 ->
   let a := memalign 32 size (host w) in
   let rd := f_read (sf_fil sf) t (addr_of a.1) size a.2 in
   let whole := (rd.1.1.1 =? FR_OK) && (s32 rd.1.2 =? size) in
   exists w',
     fat_mmap hnd w = Some (if whole then a.1 else None, w') /\
     calls_made w w'
       ([Ev_memalign 32 size; Ev_f_read fd (addr_of a.1) size] ++
        if whole then [] else match a.1 with Some p => [Ev_free p] | None => [] end)).
Proof.
  intros Hh fd Hsf Hno Ht size.
  assert (Hfd : (fd < length (fh w))%nat) by (by eapply lookup_lt_Some).
  assert (Htot : fat_total hnd w = Some (size, w)).
  { unfold fat_total. rewrite FAT_GET_HND_in by done. fold fd.
    unfold fat_total_fd, mbind, M_bind, bindM, get_fh. by rewrite Hsf. }
  split.
  - intros H0. unfold fat_mmap, mbind, M_bind. rewrite (bindM_run _ _ _ _ _ Htot).
    rewrite H0. reflexivity.
  - intros Hsz a rd whole.
    assert (Hs : s32 size = size) by (unfold s32; rewrite Z.mod_small; lia).
    assert (Hu : u32 size = size) by (apply Z.mod_small; lia).
    assert (Hw : forall h evs, wants_linkmap fd (at_fd w fd sf (cl_heap w) h evs)
                 = Some (false, at_fd w fd sf (cl_heap w) h evs)).
    { intros h evs. apply (wants_linkmap_no _ _ sf); [|done].
      unfold at_fd. simpl. by apply list_lookup_insert_eq. }
    unfold fat_mmap, mbind, M_bind. rewrite (bindM_run _ _ _ _ _ Htot).
    rewrite Hs, Hu. destruct (Z.eqb_spec size 0) as [|_]; [lia|]. cbn [negb].
    rewrite (run_from_start _ w fd sf Hsf).
    astep. fold a. unfold fat_read. rewrite FAT_GET_HND_in by done. fold fd.
    unfold fat_read_fd, mbind, M_bind, mret, M_ret. rewrite !bindM_assoc.
    rewrite (bindM_run _ _ _ _ _ (Hw _ _)). rewrite !bindM_assoc. astep.
    rewrite Hu. destruct (Z.eqb_spec size 0) as [|_]; [lia|].
    rewrite !bindM_assoc. astep. rewrite !bindM_assoc.
    rewrite (bindM_run _ _ _ _ _ (cltbl_load_at w fd Hfd t _ _ _ _ Ht)).
    rewrite !bindM_assoc. astep. fold rd. rewrite !bindM_assoc. astep.
    subst whole. set (ok := rd.1.1.1 =? FR_OK).
    change (negb (_ =? FR_OK)) with (negb ok).
    destruct ok; cbn [negb andb]; lazy iota.
    + astep. set (full := s32 rd.1.2 =? size).
      change (negb (_ =? size)) with (negb full).
      destruct full; cbn [negb]; lazy iota.
      * eexists. split; reflexivity.
      * destruct a.1 as [p|]; unfold free_if.
        -- astep. eexists. split; [reflexivity|]. unfold calls_made, at_fd. simpl.
           by rewrite <- ?app_assoc.
        -- astep. eexists. split; [reflexivity|]. unfold calls_made, at_fd. simpl.
           by rewrite <- ?app_assoc.
    + astep. destruct (Z.eqb_spec (-1) size) as [|_]; [lia|]. cbn [negb]; lazy iota.
      destruct a.1 as [p|]; unfold free_if.
      * astep. eexists. split; [reflexivity|]. unfold calls_made, at_fd. simpl.
        by rewrite <- ?app_assoc.
      * astep. eexists. split; [reflexivity|]. unfold calls_made, at_fd. simpl.
        by rewrite <- ?app_assoc.
Qed.

(** X27.  What [fat_readdir] returns.  On a descriptor 1..16 the engine's
    [f_readdir] is called once.  If it fails the result is NULL and [errno]
    is the translation of its code.  If it succeeds with an empty short
    name, the end of the directory, the result is NULL as well and [errno]
    is left as the engine left it.  Otherwise the entry returned is the one
    kept in the slot: its name is the long name, or the first twelve
    characters of the short name when there is no long name; a directory has
    the attribute O_DIR and the size -1, a file the attribute 0 and its
    size as the [int] field holds it: the size itself below 2^31, and the
    size less 2^32, a negative number, from 2^31 on. *)
Theorem fat_readdir_entry (w : world) (hnd : Z) (sf : fatfs_t) :
  1 <= hnd <= MAX_FAT_FILES ->
  let fd := Z.to_nat (hnd - 1) in
  fh w !! fd = Some sf ->
  let r := f_readdir (sf_dir sf) NAME_MAX (host w) in
  let rc := r.1.1.1 in
  let inf := r.1.2 in
  exists res w' sf',
    fat_readdir hnd w = Some (res, w') /\
    calls_made w w' [Ev_f_readdir fd] /\
    fh w' !! fd = Some sf' /\ sf_dir sf' = r.1.1.2 /\
    (rc <> FR_OK ->
       res = None /\ errno w' = fatfs_set_errno rc (h_errno r.2)) /\
    (rc = FR_OK -> fi_fname inf = "" -> res = None /\ host w' = r.2) /\
    (rc = FR_OK -> fi_fname inf <> "" ->
       res = Some (sf_dent sf') /\ host w' = r.2 /\
       dent_name (sf_dent sf')
       = (if String.eqb (fi_lfname inf) "" then String.substring 0 12 (fi_fname inf)
          else fi_lfname inf) /\
       dent_time (sf_dent sf') = fi_ftime inf /\
       (Z.land (fi_fattrib inf) AM_DIR <> 0 ->
          dent_attr (sf_dent sf') = O_DIR /\ dent_size (sf_dent sf') = -1) /\
       (Z.land (fi_fattrib inf) AM_DIR = 0 ->
          dent_attr (sf_dent sf') = 0 /\
          dent_size (sf_dent sf') = s32 (fi_fsize inf) /\
          (0 <= fi_fsize inf < 2 ^ 31 -> dent_size (sf_dent sf') = fi_fsize inf) /\
          (2 ^ 31 <= fi_fsize inf < 2 ^ 32 ->
             dent_size (sf_dent sf') = fi_fsize inf - 2 ^ 32 /\
             dent_size (sf_dent sf') < 0))).
Proof.
  intros Hh fd Hsf r rc inf.
  assert (Hfd : (fd < length (fh w))%nat) by (by eapply lookup_lt_Some).
  unfold fat_readdir. rewrite FAT_GET_HND_in by done. fold fd.
  rewrite (run_from_start _ w fd sf Hsf).
  unfold fat_readdir_fd. astep. astep. slot_simpl. astep. fold r.
  astep. astep. slot_simpl.
  change (negb (_ =? FR_OK)) with (negb (rc =? FR_OK)).
  change (String.eqb (fi_fname _) "") with (String.eqb (fi_fname inf) "").
  destruct (Z.eqb_spec rc FR_OK) as [Hrc|Hrc]; cbn [negb]; lazy iota.
  - destruct (String.eqb_spec (fi_fname inf) "") as [Hn|Hn].
    + eexists _, _, _. split; [reflexivity|]. split; [reflexivity|].
      split; [by apply list_lookup_insert_eq|]. split; [reflexivity|].
      split; [done|]. split; [done|]. done.
    + astep. eexists _, _, _. split; [reflexivity|]. split; [reflexivity|].
      split; [by apply list_lookup_insert_eq|]. slot_simpl. split; [reflexivity|].
      split; [done|]. split; [done|]. intros _ _.
      split; [reflexivity|]. split; [reflexivity|].
      change (fi_fattrib _) with (fi_fattrib inf).
      destruct (Z.eqb_spec (Z.land (fi_fattrib inf) AM_DIR) 0) as [Ha|Ha]; cbn [negb];
        simpl.
      * split; [reflexivity|]. split; [reflexivity|]. split; [done|].
        intros _. split; [reflexivity|]. split; [reflexivity|].
        change (fi_fsize r.1.2) with (fi_fsize inf). unfold s32. split.
        -- intros Hs. rewrite Z.mod_small by lia. lia.
        -- intros Hs.
           replace (fi_fsize inf + 2 ^ 31) with (fi_fsize inf - 2 ^ 31 + 1 * 2 ^ 32) by lia.
           rewrite Z.mod_add by lia. rewrite Z.mod_small by lia. lia.
      * split; [reflexivity|]. split; [reflexivity|]. split; [|done].
        intros _. by split.
  - astep. eexists _, _, _. split; [reflexivity|]. split; [reflexivity|].
    split; [by apply list_lookup_insert_eq|]. split; [reflexivity|].
    split; [done|]. split; done.
Qed.

End HandleMoreFacts.
(** ** The theorems of the registry, of open and of the handles on the
    sample host *)

Lemma sim_close_keeps_cltbl : close_keeps_cltbl (HO := Sim.sim_host).
Proof. intros fil h. reflexivity. Qed.

Lemma variant_lseek_keeps_cltbl (data : option N) (rc : FRESULT) :
  lseek_keeps_cltbl (HO := SimFs.variant data (Some rc)).
Proof. intros fil tbl ofs h. reflexivity. Qed.

Lemma fs_fat_mount_refused_witness :
  let w := Sim.boot (Sim.pool_with fatfs_zero)
             (replicate 4 (Sim.volume None None)) ∅ (Sim.machine 4 0 0 FR_OK) in
  fs_fat_mount (HC := Sim.consts 0x0f false) "/ide" 0x300 None 0 w = Some (-1, w).
Proof.
  intros w.
  apply (fs_fat_mount_refused (HC := Sim.consts 0x0f false) w "/ide" 0x300%N None 0).
  right. simpl. repeat (constructor; [discriminate|]). constructor.
Defined.

Lemma fs_fat_mount_failure_unwinds_witness :
  let w := Sim.boot (Sim.pool_with fatfs_zero)
             (replicate 4 mnt_zero) ∅ (Sim.machine 0 0 0 FR_OK) in
  exists w',
    fs_fat_mount (HC := Sim.consts 0x0f false) "/sd" 0x100 None 0 w = Some (-1, w') /\
    fh w' = fh w /\ fat_mnt w' = fat_mnt w /\
    exists evs, calls_made w w' evs /\ Ev_shutdown 0x100 ∈ evs.
Proof.
  intros w.
  destruct (fs_fat_mount (HC := Sim.consts 0x0f false) "/sd" 0x100 None 0 w)
    as [[r w']|] eqn:Hrun; [|vm_compute in Hrun; discriminate].
  assert (Hr : r = -1) by (vm_compute in Hrun; by injection Hrun as <- _).
  subst r.
  destruct (fs_fat_mount_failure_unwinds (HC := Sim.consts 0x0f false)
              w w' "/sd" 0x100%N None 0 Hrun) as (Hfh & _ & _ & Hslot).
  destruct (Hslot 0%nat) as (Hmnt & evs & Hcalls & Hshut);
    [discriminate | reflexivity |].
  exists w'. split; [reflexivity|]. split; [exact Hfh|]. split; [exact Hmnt|].
  exists evs. split; [exact Hcalls|]. apply Hshut. simpl. lia.
Defined.

Lemma fs_fat_mount_then_is_mounted_witness :
  let w := Sim.boot (Sim.pool_with fatfs_zero)
             (replicate 4 mnt_zero) ∅ (Sim.machine 4 0 0 FR_OK) in
  exists w',
    fs_fat_mount (HC := Sim.consts 0x0f false) "/sd" 0x100 None 0 w = Some (0, w') /\
    fs_fat_is_mounted (HC := Sim.consts 0x0f false) "/sd" w' = Some (1, w').
Proof.
  intros w.
  destruct (fs_fat_mount (HC := Sim.consts 0x0f false) "/sd" 0x100 None 0 w)
    as [[r w']|] eqn:Hrun; [|vm_compute in Hrun; discriminate].
  assert (Hr : r = 0) by (vm_compute in Hrun; by injection Hrun as <- _).
  subst r.
  destruct (fs_fat_mount_then_is_mounted (HC := Sim.consts 0x0f false)
              w w' "/sd" 0x100%N None 0 Hrun)
    as (i & m & v & fs & _ & Hfree & _ & _ & _ & _ & _ & _ & _ & _ & _ & k & Hk & Hm).
  assert (Hi : i = 0%nat) by (vm_compute in Hfree; by injection Hfree as <-).
  subst i. assert (Hk0 : k = 0%nat) by lia. subst k.
  exists w'. split; [reflexivity|exact Hm].
Defined.

Lemma fs_fat_unmount_releases_witness :
  let w := Sim.boot (Sim.pool_with fatfs_zero)
             (Sim.mounts_with (Sim.volume None None)) ∅ (Sim.machine 0 0 0 FR_OK) in
  exists w',
    fs_fat_unmount (HC := Sim.consts 0x0f false) "/sd" w = Some (0, w') /\
    calls_made w w'
      [Ev_nmmgr_handler_remove "/sd"; Ev_free 0x9000; Ev_free 0x8000; Ev_shutdown 0x100] /\
    fat_mnt w' = replicate 4 mnt_zero /\
    fs_fat_is_mounted (HC := Sim.consts 0x0f false) "/sd" w' = Some (0, w').
Proof.
  intros w.
  destruct (fs_fat_unmount_releases (HC := Sim.consts 0x0f false) w "/sd" 0%nat)
    as (m & w' & Hm & Hrun & Hcalls & Hmnt & _ & _ & Hgone).
  - split; [vm_compute; lia|]. eexists _, _. repeat split; reflexivity.
  - intros j Hj. lia.
  - injection Hm as <-.
    exists w'. split; [exact Hrun|]. split; [exact Hcalls|]. split; [exact Hmnt|].
    apply Hgone. intros j Hj (Hlt & m & v & Hm & Hv & _).
    change (@MAX_FAT_MOUNTS (Sim.consts 0x0f false)) with 4%nat in Hlt.
    destruct j as [|[|[|[|j]]]]; try lia;
      simpl in Hm; injection Hm as <-; simpl in Hv; discriminate Hv.
Defined.

Lemma fs_fat_unmount_sd_misses_partition_witness :
  let part1 :=
    mk_mnt (Some 0x8000%N) (Some (mk_vfs_handler 0x9000 "sd1" (Some 0%nat)))
      (Some 0x4028%N) None 0 0 "0:" None in
  let w := Sim.boot (Sim.pool_with fatfs_zero) (Sim.mounts_with part1) ∅
             (Sim.machine 0 0 0 FR_OK) in
  exists w',
    unmount_sd_partition (HC := Sim.consts 0x0f false)
      (HO := SimFs.variant (Some 0x7000%N) None) 0x4000 1 w = Some (tt, w') /\
    calls_made w w' [Ev_shutdown 0x4028] /\
    fat_mnt w' = Sim.mounts_with part1.
Proof.
  intros part1 w.
  destruct (fs_fat_unmount_sd_misses_partition (HC := Sim.consts 0x0f false)
              (HO := SimFs.variant (Some 0x7000%N) None) w 0x4000%N 1 0%nat)
    as (_ & w' & Hrun & Hcalls & Hmnt & _).
  - lia.
  - split; [vm_compute; lia|]. eexists _, _. repeat split; reflexivity.
  - intros j (Hlt & m & v & Hm & Hv & Hp).
    change (@MAX_FAT_MOUNTS (Sim.consts 0x0f false)) with 4%nat in Hlt.
    destruct j as [|[|[|[|j]]]]; try lia;
      simpl in Hm; injection Hm as <-; simpl in Hv; try discriminate Hv.
    injection Hv as <-. vm_compute in Hp. discriminate Hp.
  - discriminate.
  - exists w'. split; [exact Hrun|]. split; [exact Hcalls|exact Hmnt].
Defined.

Lemma fat_open_failure_takes_no_slot_witness :
  let w := Sim.boot (Sim.pool_with (Sim.open_file 0 100 CL_NULL))
             (Sim.mounts_with (Sim.volume None None)) ∅ (Sim.machine 0 5000 1 FR_OK) in
  exists w',
    fat_open (HC := Sim.consts 0x0f false) (mk_vfs_handler 0x9000 "/sd" (Some 0%nat))
      (Some "/log.txt") 10 w = Some (0, w') /\
    find_free_fd (fh w') = Some 1%nat /\ fh w' !! 0%nat = fh w !! 0%nat.
Proof.
  intros w.
  destruct (fat_open (HC := Sim.consts 0x0f false)
              (mk_vfs_handler 0x9000 "/sd" (Some 0%nat)) (Some "/log.txt") 10 w)
    as [[r w']|] eqn:Hrun; [|vm_compute in Hrun; discriminate].
  assert (Hr : r = 0) by (vm_compute in Hrun; by injection Hrun as <- _).
  subst r.
  destruct (fat_open_failure_takes_no_slot (HC := Sim.consts 0x0f false)
              w w' _ _ _ Hrun) as (_ & Hheld & Hfree & _).
  exists w'. split; [reflexivity|]. split; [by rewrite Hfree|].
  by apply Hheld.
Defined.

Lemma fat_open_takes_lowest_slot_witness :
  let w := Sim.boot (Sim.pool_with (Sim.open_file 0 100 CL_NULL))
             (Sim.mounts_with (Sim.volume None None)) ∅ (Sim.machine 0 5000 1 FR_OK) in
  exists w' sf',
    fat_open (HC := Sim.consts 3 false) (mk_vfs_handler 0x9000 "/sd" (Some 0%nat))
      (Some "/log.txt") 2 w = Some (2, w') /\
    fh w' !! 1%nat = Some sf' /\ sf_used sf' = 1 /\ sf_mode sf' = 2 /\
    sf_type sf' = 1.
Proof.
  intros w.
  destruct (fat_open (HC := Sim.consts 3 false)
              (mk_vfs_handler 0x9000 "/sd" (Some 0%nat)) (Some "/log.txt") 2 w)
    as [[r w']|] eqn:Hrun; [|vm_compute in Hrun; discriminate].
  assert (Hr : r = 2) by (vm_compute in Hrun; by injection Hrun as <- _).
  subst r.
  destruct (fat_open_takes_lowest_slot (HC := Sim.consts 3 false)
              w w' _ _ _ _ Hrun) as (fd & sf' & Hfd & _ & _ & _ & _ & Hsf & Hu & Hm & _ & Ht);
    [discriminate|].
  assert (Hfd1 : fd = 1%nat) by lia. subst fd.
  exists w', sf'. split; [reflexivity|]. split; [exact Hsf|]. split; [exact Hu|].
  split; [exact Hm|exact Ht].
Defined.

Lemma fat_fcntl_flags_witness :
  let w := Sim.boot (Sim.pool_with fatfs_zero)
             (Sim.mounts_with (Sim.volume None None)) ∅ (Sim.machine 0 5000 1 FR_OK) in
  exists w',
    fat_open (HC := Sim.consts 3 false) (mk_vfs_handler 0x9000 "/sd" (Some 0%nat))
      (Some "/log.txt") 2 w = Some (1, w') /\
    fat_fcntl (HC := Sim.consts 3 false) 1 3 w' = Some (2, w') /\
    fat_fcntl (HC := Sim.consts 3 false) 1 4 w' = Some (0, w').
Proof.
  intros w.
  destruct (fat_open (HC := Sim.consts 3 false)
              (mk_vfs_handler 0x9000 "/sd" (Some 0%nat)) (Some "/log.txt") 2 w)
    as [[r w']|] eqn:Hrun; [|vm_compute in Hrun; discriminate].
  assert (Hr : r = 1) by (vm_compute in Hrun; by injection Hrun as <- _).
  subst r.
  destruct (fat_fcntl_flags (HC := Sim.consts 3 false) w w' _ _ _ _ Hrun)
    as (Hget & Hset & _); [discriminate|].
  exists w'. split; [reflexivity|]. split; [exact Hget|].
  apply Hset; [discriminate|]. by left.
Defined.

Lemma fat_close_twice_frees_twice_witness :
  let w := Sim.boot (Sim.pool_with (Sim.open_file 0 100000 (CL_HEAP 0x5000)))
             (Sim.mounts_with (Sim.volume None None)) {[ 0x5000%N := [40; 0] ]}
             (Sim.machine 0 100000 40 FR_OK) in
  exists r1 w1 r2 w2,
    fat_close (HC := Sim.consts 0x0f false) 1 w = Some (r1, w1) /\
    calls_made w w1 [Ev_free 0x5000; Ev_f_close 0] /\
    fat_close (HC := Sim.consts 0x0f false) 1 w1 = Some (r2, w2) /\
    calls_made w1 w2 [Ev_free 0x5000; Ev_f_close 0].
Proof.
  intros w.
  destruct (fat_close_twice_frees_twice (HC := Sim.consts 0x0f false) w 1
              (Sim.open_file 0 100000 (CL_HEAP 0x5000)) 0x5000%N)
    as (r1 & w1 & r2 & w2 & sf1 & H1 & C1 & _ & _ & _ & H2 & C2);
    [unfold MAX_FAT_FILES; lia | reflexivity | reflexivity | reflexivity | exact sim_close_keeps_cltbl |].
  exists r1, w1, r2, w2. split; [exact H1|]. split; [exact C1|].
  split; [exact H2|exact C2].
Defined.

Lemma fat_seek_wraps_witness :
  let w := Sim.boot (Sim.pool_with (Sim.open_file 0 100 CL_NULL))
             (Sim.mounts_with (Sim.volume None None)) ∅ (Sim.machine 0 100 1 FR_OK) in
  exists r w',
    fat_seek (HC := Sim.consts 0x0f false) 1 (-1) 0 w = Some (r, w') /\
    calls_made w w' [Ev_f_lseek 0 0xFFFFFFFF CL_NULL None].
Proof.
  intros w.
  destruct (fat_seek_wraps (HC := Sim.consts 0x0f false) w 1 (-1)
              (Sim.open_file 0 100 CL_NULL) None) as (_ & _ & Hwrap);
    [unfold MAX_FAT_FILES; lia | reflexivity | reflexivity |].
  exact (Hwrap eq_refl eq_refl).
Defined.

Lemma fat_ioctl_link_map_never_fails_witness :
  let w := Sim.boot (Sim.pool_with (Sim.open_file 0 100 CL_NULL))
             (Sim.mounts_with (Sim.volume None None)) ∅ (Sim.machine 0 100 1 FR_OK) in
  exists w' sf',
    fat_ioctl (HC := Sim.consts 0x0f false) (HO := SimFs.variant None (Some FR_INT_ERR))
      1 34 0x2000 w = Some (0, w') /\
    calls_made w w'
      [Ev_f_lseek 0 0xFFFFFFFF CL_INLINE (Some lktbl_fresh); Ev_memset 0x2000 0 4] /\
    fh w' !! 0%nat = Some sf' /\ fil_cltbl (sf_fil sf') = CL_NULL.
Proof.
  intros w.
  destruct (fat_ioctl_link_map_never_fails (HC := Sim.consts 0x0f false)
              (HO := SimFs.variant None (Some FR_INT_ERR)) w 1 34 0x2000
              (Sim.open_file 0 100 CL_NULL)) as (_ & Hfail);
    [unfold MAX_FAT_FILES; lia | reflexivity | reflexivity | discriminate | discriminate |].
  apply Hfail; [apply variant_lseek_keeps_cltbl | reflexivity | discriminate | discriminate].
Defined.

Lemma fat_ioctl_boot_sector_uses_pio_witness :
  let w := Sim.boot (Sim.pool_with (Sim.open_file 0 100 CL_NULL))
             (Sim.mounts_with (Sim.volume (Some 0x200%N) None)) ∅
             (Sim.machine 0 100 1 FR_OK) in
  fat_ioctl (HC := Sim.consts 0x0f false) 1 32 0x2000 w
  = Some (0, after_calls w (host w) [Ev_read_blocks 0x100 0 1 0x2000]).
Proof.
  intros w.
  refine (fat_ioctl_boot_sector_uses_pio (HC := Sim.consts 0x0f false) w 1 32 0x2000
            (Sim.open_file 0 100 CL_NULL) 0x8000%N (Sim.volume (Some 0x200%N) None) 0x100%N
            _ _ _ _ _ _ _ _ _ _);
    first [unfold MAX_FAT_FILES; lia | reflexivity | discriminate | simpl; lia].
Defined.

Lemma fat_fstat_blocks_witness :
  let w := Sim.boot (Sim.pool_with (Sim.open_file 0 1000 CL_NULL))
             (Sim.mounts_with (Sim.volume None None)) ∅ (Sim.machine 0 1000 1 FR_OK) in
  exists st',
    fat_fstat (HC := Sim.consts 0x0f false) 1 stat_zero w = Some ((0, st'), w) /\
    st_size st' = 1000 /\ st_blksize st' = 512 /\ st_blocks st' = 2.
Proof.
  intros w.
  destruct (fat_fstat_blocks (HC := Sim.consts 0x0f false) w 1 stat_zero
              (Sim.open_file 0 1000 CL_NULL) 0%nat (Sim.volume None None) 0x100%N)
    as (st' & Hrun & _ & _ & Hblk & _ & Hfile);
    [unfold MAX_FAT_FILES; lia | reflexivity | reflexivity | reflexivity | reflexivity | simpl; lia |].
  destruct Hfile as (_ & Hsize & Hblocks & _); [discriminate | simpl; lia |].
  exists st'. split; [exact Hrun|]. split; [exact Hsize|]. split; [exact Hblk|].
  rewrite Hblocks, Hsize. reflexivity.
Defined.

Lemma fat_mmap_bad_handle_witness :
  let w := Sim.boot (Sim.pool_with (Sim.open_file 0 100 CL_NULL))
             (Sim.mounts_with (Sim.volume None None)) ∅ (Sim.machine 1 100 1 FR_OK) in
  exists w',
    fat_mmap (HC := Sim.consts 0x0f false) 17 w = Some (Some 0x1000%N, w') /\
    calls_made w w' [Ev_memalign 32 4294967295] /\ errno w' = 23.
Proof.
  intros w. eexists. split.
  - refine (fat_mmap_bad_handle (HC := Sim.consts 0x0f false) w 17 _). right.
    unfold MAX_FAT_FILES. lia.
  - split; reflexivity.
Defined.

Lemma fat_mmap_reads_whole_file_witness :
  let w := Sim.boot (Sim.pool_with (Sim.open_file 0 100 CL_INLINE))
             (Sim.mounts_with (Sim.volume None None)) ∅ (Sim.machine 1 100 1 FR_OK) in
  exists w',
    fat_mmap (HC := Sim.consts 0x0f false) 1 w = Some (Some 0x1000%N, w') /\
    calls_made w w' [Ev_memalign 32 100; Ev_f_read 0 0x1000 100].
Proof.
  intros w.
  destruct (fat_mmap_reads_whole_file (HC := Sim.consts 0x0f false) w 1
              (Sim.open_file 0 100 CL_INLINE) (Some (replicate 32 0)))
    as (_ & Hfile); [unfold MAX_FAT_FILES; lia | reflexivity | left; discriminate | reflexivity |].
  apply Hfile. simpl. lia.
Defined.

Lemma fat_readdir_entry_witness :
  let w := Sim.boot (Sim.pool_with (Sim.open_file 0 100 CL_NULL))
             (Sim.mounts_with (Sim.volume None None)) ∅ (Sim.machine 0 100 1 FR_OK) in
  exists d w',
    fat_readdir (HC := Sim.consts 0x0f false) 1 w = Some (Some d, w') /\
    calls_made w w' [Ev_f_readdir 0] /\
    dent_name d = "FILE.TXT" /\ dent_attr d = 0 /\ dent_size d = 0.
Proof.
  intros w.
  destruct (fat_readdir_entry (HC := Sim.consts 0x0f false) w 1
              (Sim.open_file 0 100 CL_NULL))
    as (res & w' & sf' & Hrun & Hcalls & _ & _ & _ & _ & Hentry);
    [unfold MAX_FAT_FILES; lia | reflexivity |].
  destruct Hentry as (Hres & _ & Hname & _ & _ & Hfile); [reflexivity | discriminate |].
  destruct (Hfile eq_refl) as (Hattr & Hsize & _).
  exists (sf_dent sf'), w'. rewrite <- Hres. split; [exact Hrun|].
  split; [exact Hcalls|]. split; [exact Hname|]. split; [exact Hattr|exact Hsize].
Defined.
